(** * shinsen_bot: table-to-record extraction, embedded in Rocq

    A shallow embedding of the extraction code of the LINE bot
    ([server.js]: [preprocessTableData], [recordDailyData],
    [transformTableData]) and of the Excel import script
    ([parseExcelDate], [parseNumericValue], [findCdcName],
    [parseAndMigrateSheet]), followed by the properties of the
    specification that concern them.

    Conventions of the embedding.
    - A JavaScript string is a [string] holding its UTF-8 bytes.  The
      encoding is self-synchronising, so [includes] and [startsWith] on the
      bytes agree with the JavaScript methods on well-formed text.
    - A JavaScript number is a [number]: NaN, an infinity, or a finite
      value held as an exact decimal [m / 10^k].  Arithmetic is exact:
      the rounding of binary64, its overflow and the sign of zero are not
      modelled.
    - White space is the ASCII set (tab, line feed, vertical tab, form feed,
      carriage return, space); [toLowerCase] maps the ASCII capitals, which
      is all that matters for the ASCII keywords the code searches.
    - An absent array element ([undefined], a hole) of a row of an OCR
      table is the empty string: the code reads a cell only through
      [row[k] ? row[k].toString()... : ''], which cannot tell them apart.
    - The records file and the database are passed in and returned; the
      time [new Date().toISOString()] is read from a clock passed in.
    - Logging is left out. *)

From Stdlib Require Import String Ascii List ZArith Bool Lia Arith.
From Stdlib Require Import DecimalString.
Import ListNotations.

Local Open Scope list_scope.
Local Open Scope string_scope.

(** ** JavaScript primitives used by the code *)

Module JS.

Definition isWhite (c : ascii) : bool :=
  let n := nat_of_ascii c in
  ((9 <=? n)%nat && (n <=? 13)%nat) || (n =? 32)%nat.

Definition isDigit (c : ascii) : bool :=
  let n := nat_of_ascii c in (48 <=? n)%nat && (n <=? 57)%nat.

Definition digitVal (c : ascii) : Z := Z.of_nat (nat_of_ascii c) - 48.

Fixpoint trimStart (s : string) : string :=
  match s with
  | EmptyString => EmptyString
  | String c s' => if isWhite c then trimStart s' else s
  end.

Fixpoint trimEnd (s : string) : string :=
  match s with
  | EmptyString => EmptyString
  | String c s' =>
      match trimEnd s' with
      | EmptyString => if isWhite c then EmptyString else String c EmptyString
      | t => String c t
      end
  end.

(** [String.prototype.trim] *)
Definition trim (s : string) : string := trimEnd (trimStart s).

(** [s.includes(needle)] *)
Fixpoint includes (s needle : string) : bool :=
  prefix needle s
  || match s with
     | EmptyString => false
     | String _ s' => includes s' needle
     end.

(** [s.startsWith(p)] *)
Definition startsWith (s p : string) : bool := prefix p s.

Definition lowerChar (c : ascii) : ascii :=
  let n := nat_of_ascii c in
  if (65 <=? n)%nat && (n <=? 90)%nat then ascii_of_nat (n + 32) else c.

Fixpoint toLowerCase (s : string) : string :=
  match s with
  | EmptyString => EmptyString
  | String c s' => String (lowerChar c) (toLowerCase s')
  end.

(** [s.replace(/,/g, '')] *)
Fixpoint removeCommas (s : string) : string :=
  match s with
  | EmptyString => EmptyString
  | String c s' =>
      if Ascii.eqb c "," then removeCommas s' else String c (removeCommas s')
  end.

(** [s.padStart(2, '0')] *)
Definition padStart2 (s : string) : string :=
  match String.length s with
  | 0 => "00"
  | 1 => "0" ++ s
  | _ => s
  end.

(** A string is truthy when it is not empty. *)
Definition truthy (s : string) : bool :=
  match s with EmptyString => false | _ => true end.

(** *** Numbers *)

Inductive number : Type :=
| NaN
| Inf (negative : bool)
| Fin (m : Z) (k : nat).   (* the decimal [m / 10^k] *)

(** Finite values are kept in lowest terms: no trailing zero in the
    fraction digits, so equal values are equal terms. *)
Fixpoint lowest (m : Z) (k : nat) : number :=
  match k with
  | O => Fin m 0
  | S k' => if (m mod 10 =? 0)%Z then lowest (m / 10) k' else Fin m k
  end.

Definition ofZ (z : Z) : number := Fin z 0.
Definition zero : number := ofZ 0.

Definition pow10 (n : nat) : Z := (10 ^ Z.of_nat n)%Z.

(** [m * 10^e], for any integer exponent. *)
Definition scale (m e : Z) : number :=
  if (0 <=? e)%Z then Fin (m * 10 ^ e) 0 else lowest m (Z.to_nat (- e)).

(** [a + b] *)
Definition add (a b : number) : number :=
  match a, b with
  | NaN, _ | _, NaN => NaN
  | Inf s, Inf t => if Bool.eqb s t then Inf s else NaN
  | Inf s, Fin _ _ => Inf s
  | Fin _ _, Inf t => Inf t
  | Fin m k, Fin n j =>
      let d := Nat.max k j in
      lowest (m * pow10 (d - k) + n * pow10 (d - j)) d
  end.

(** [x === 0] *)
Definition isZero (x : number) : bool :=
  match x with Fin m _ => (m =? 0)%Z | _ => false end.

(** [x > 0] *)
Definition isPositive (x : number) : bool :=
  match x with
  | Fin m _ => (0 <? m)%Z
  | Inf negative => negb negative
  | NaN => false
  end.

(** [x || 0]: NaN and zero are falsy. *)
Definition orZero (x : number) : number :=
  match x with
  | NaN => zero
  | Fin m _ => if (m =? 0)%Z then zero else x
  | Inf _ => x
  end.

(** [Math.round]: the nearest integer, ties towards plus infinity;
    NaN and the infinities are returned unchanged. *)
Definition round (x : number) : number :=
  match x with
  | Fin m k => Fin ((2 * m + pow10 k) / (2 * pow10 k)) 0
  | _ => x
  end.


(** *** [parseFloat] *)

Fixpoint takeDigits (s : string) : string * string :=
  match s with
  | String c s' =>
      if isDigit c
      then let '(d, r) := takeDigits s' in (String c d, r)
      else (EmptyString, s)
  | EmptyString => (EmptyString, EmptyString)
  end.

Fixpoint digitsValueFrom (acc : Z) (s : string) : Z :=
  match s with
  | EmptyString => acc
  | String c s' => digitsValueFrom (10 * acc + digitVal c) s'
  end.

Definition digitsValue (s : string) : Z := digitsValueFrom 0 s.

(** The optional [ExponentPart]: [e] or [E], an optional sign and at least
    one digit; anything else contributes no exponent. *)
Definition exponentPart (s : string) : Z :=
  match s with
  | String c r =>
      if Ascii.eqb c "e" || Ascii.eqb c "E" then
        let '(neg, r') :=
          match r with
          | String "-" t => (true, t)
          | String "+" t => (false, t)
          | _ => (false, r)
          end in
        let '(d, _) := takeDigits r' in
        match d with
        | EmptyString => 0%Z
        | _ => if neg then (- digitsValue d)%Z else digitsValue d
        end
      else 0%Z
  | EmptyString => 0%Z
  end.

(** [parseFloat(s)]: leading white space is skipped, the longest prefix
    that is a [StrDecimalLiteral] is converted, NaN when there is none. *)
Definition parseFloat (input : string) : number :=
  let s0 := trimStart input in
  let '(neg, s1) :=
    match s0 with
    | String "-" r => (true, r)
    | String "+" r => (false, r)
    | _ => (false, s0)
    end in
  if prefix "Infinity" s1 then Inf neg else
  let '(ip, r1) := takeDigits s1 in
  let '(fp, r2) :=
    match r1 with
    | String "." r => takeDigits r
    | _ => (EmptyString, r1)
    end in
  match ip ++ fp with
  | EmptyString => NaN
  | ds =>
      let m := digitsValue ds in
      scale (if neg then (- m)%Z else m)
            (exponentPart r2 - Z.of_nat (String.length fp))
  end.

(** *** [String(x)] for a number *)

Definition natToString (n : Z) : string :=
  NilEmpty.string_of_uint (N.to_uint (Z.to_N n)).

Fixpoint fractionDigits (k : nat) (r : Z) : string :=
  match k with
  | O => EmptyString
  | S k' =>
      String (ascii_of_nat (48 + Z.to_nat (r / pow10 k')))
             (fractionDigits k' (r mod pow10 k'))
  end.

(** Decimal notation, as [Number::toString] prints a value between
    [1e-6] and [1e21] that has at most 15 significant digits. *)
Definition numberToString (x : number) : string :=
  match x with
  | NaN => "NaN"
  | Inf negative => if negative then "-Infinity" else "Infinity"
  | Fin m k =>
      let a := Z.abs m in
      (if (m <? 0)%Z then "-" else "")
        ++ natToString (a / pow10 k)
        ++ match k with
           | O => ""
           | _ => "." ++ fractionDigits k (a mod pow10 k)
           end
  end.

End JS.

(** ** OCR tables ([server.js]) *)

(** [performOCR] builds every table as a rectangle of strings
    ([new Array(maxCol).fill('')], then [cell.content || '']). *)
Definition row : Type := list string.
Definition table : Type := list row.

(** [row[k]], the empty string when there is no such element. *)
Definition cell (r : row) (k : nat) : string := nth k r "".

(** [row[k] = v]: an assignment beyond the end extends the array, and the
    holes it leaves read as the empty string. *)
Fixpoint setCell (k : nat) (v : string) (r : row) : row :=
  match k, r with
  | O, [] => [v]
  | O, _ :: r' => v :: r'
  | S k', [] => "" :: setCell k' v []
  | S k', c :: r' => c :: setCell k' v r'
  end.

(** [row[k] ? row[k].toString().trim() : ''] *)
Definition cellText (r : row) (k : nat) : string := JS.trim (cell r k).

(** *** [preprocessTableData] *)

(** One fill-down loop of [preprocessTableData], for column [c];
    [last] is [lastC0Value] / [lastC1Value] ([None] for [null]; it only
    ever holds a non-empty string). *)
Fixpoint fillDown (c : nat) (last : option string) (t : table) : table :=
  match t with
  | [] => []
  | r :: t' =>
      if JS.truthy (cell r c) then
        let value := JS.trim (cell r c) in
        r :: fillDown c (if JS.truthy value then Some value else last) t'
      else
        match last with
        | Some v => setCell c v r :: fillDown c last t'
        | None => r :: fillDown c last t'
        end
  end.

Definition preprocessTable (t : table) : table :=
  match t with
  | [] => t
  | _ => fillDown 1 None (fillDown 0 None t)
  end.

Definition preprocessTableData (tableData : list table) : list table :=
  map preprocessTable tableData.

(** The column [c] of a table, top to bottom. *)
Definition column (c : nat) (t : table) : list string :=
  map (fun r => cell r c) t.

(** A cell counts as a value when its trimmed text is not empty. *)
Definition hasText (s : string) : bool := JS.truthy (JS.trim s).

(** The trimmed text of the nearest cell above position [i] of a column
    that has text, if there is one. *)
Definition nearestAbove (col : list string) (i : nat) : option string :=
  option_map JS.trim (find hasText (rev (firstn i col))).

(** ** The record pipeline ([server.js], [recordDailyData]) *)

(** The two categories [recordDailyData] loops over. *)
Inductive category : Type := orange | yuzu.

Definition category_eqb (a b : category) : bool :=
  match a, b with
  | orange, orange | yuzu, yuzu => true
  | _, _ => false
  end.

(** [cdcConfig[category].column] *)
Definition cdcConfig (c : category) : nat :=
  match c with orange => 2 | yuzu => 3 end.

(** The object [cdcTotals]: keys in insertion order. *)
Definition totals : Type := list (string * JS.number).

Record DailyRecord : Type := {
  date : string;
  timestamp : string;
  fc33HadyaiSum : JS.number;
  totalSum : JS.number;
  cdcTotals : totals;
  khonKaenLaos : option JS.number;      (* [None] is [undefined] *)
  khonKaenCambodia : option JS.number
}.

(** The content of [daily_records.json]: [{ orange: [...], yuzu: [...] }]. *)
Record Records : Type := {
  orangeRecords : list DailyRecord;
  yuzuRecords : list DailyRecord
}.

(** [records[category]] *)
Definition recordsOf (records : Records) (c : category) : list DailyRecord :=
  match c with
  | orange => orangeRecords records
  | yuzu => yuzuRecords records
  end.

(** [records[category].push(record)] *)
Definition pushRecord (records : Records) (c : category) (r : DailyRecord)
  : Records :=
  match c with
  | orange => {| orangeRecords := orangeRecords records ++ [r];
                 yuzuRecords := yuzuRecords records |}
  | yuzu => {| orangeRecords := orangeRecords records;
               yuzuRecords := yuzuRecords records ++ [r] |}
  end.

Definition isDateRecorded (records : Records) (d : string) (c : category)
  : bool :=
  existsb (fun r => String.eqb (date r) d) (recordsOf records c).

(** What [recordDailyData] returns. *)
Inductive result : Type :=
| Failure (reason : string)
| Success (dateStr : string) (results : list (category * DailyRecord)).

Definition reasonNoTable : string := "No table data found".
Definition reasonValidation : string :=
  "Both FC33 หาดใหญ่ and FC07 ภูเก็ต C2 sums are 0 (validation failed)".
Definition reasonNoDate : string := "No date found in table or extracted text".

(** *** The validation sums *)

(** [parseFloat(row[2] ? row[2].toString().replace(/,/g, '') : '0') || 0] *)
Definition c2Value (r : row) : JS.number :=
  JS.orZero
    (JS.parseFloat
       (if JS.truthy (cell r 2) then JS.removeCommas (cell r 2) else "0")).

Definition isHadyaiRow (r : row) : bool :=
  JS.includes (cellText r 0) "FC33" && JS.includes (cellText r 0) "หาดใหญ่".

Definition isPhuketRow (r : row) : bool :=
  JS.includes (cellText r 0) "FC07".

(** One round of the first [table.forEach], for [hadyaiSum]. *)
Definition hadyaiStep (sum : JS.number) (r : row) : JS.number :=
  if (List.length r <? 3)%nat then sum
  else if isHadyaiRow r then JS.add sum (c2Value r) else sum.

(** The same round, for [phuketSum]. *)
Definition phuketStep (sum : JS.number) (r : row) : JS.number :=
  if (List.length r <? 3)%nat then sum
  else if isPhuketRow r then JS.add sum (c2Value r) else sum.

Definition hadyaiSumOf (t : table) : JS.number :=
  fold_left hadyaiStep t JS.zero.

Definition phuketSumOf (t : table) : JS.number :=
  fold_left phuketStep t JS.zero.

(** The test [hadyaiSum === 0 && phuketSum === 0] rejects; this is its
    negation. *)
Definition validationPasses (t : table) : bool :=
  negb (JS.isZero (hadyaiSumOf t) && JS.isZero (phuketSumOf t)).

(** *** The date *)

(** [\d{1,2}\/] at the head of [s]: the text matched and what follows.
    Two digits are tried first; the two cases exclude each other. *)
Definition oneOrTwoDigitsSlash (s : string) : option (string * string) :=
  match s with
  | String a (String b r) =>
      if JS.isDigit a then
        if Ascii.eqb b "/" then Some (String a "/", r)
        else if JS.isDigit b then
          match r with
          | String c r' =>
              if Ascii.eqb c "/"
              then Some (String a (String b "/"), r')
              else None
          | EmptyString => None
          end
        else None
      else None
  | _ => None
  end.

(** [\d{4}] at the head of [s]. *)
Definition fourDigits (s : string) : option (string * string) :=
  match s with
  | String a (String b (String c (String d r))) =>
      if JS.isDigit a && JS.isDigit b && JS.isDigit c && JS.isDigit d
      then Some (String a (String b (String c (String d EmptyString))), r)
      else None
  | _ => None
  end.

(** The group [(\d{1,2}\/\d{1,2}\/\d{4})] at the head of [s]. *)
Definition dateAt (s : string) : option string :=
  match oneOrTwoDigitsSlash s with
  | Some (d, r1) =>
      match oneOrTwoDigitsSlash r1 with
      | Some (m, r2) =>
          match fourDigits r2 with
          | Some (y, _) => Some (d ++ m ++ y)
          | None => None
          end
      | None => None
      end
  | None => None
  end.

(** [s] without the prefix [p], when it starts with it. *)
Fixpoint dropPrefix (p s : string) : option string :=
  match p, s with
  | EmptyString, _ => Some s
  | String a p', String b s' =>
      if Ascii.eqb a b then dropPrefix p' s' else None
  | String _ _, EmptyString => None
  end.

(** The regular expression of the date tried at the head of [s]: an
    optional non-capturing group (the word วันที่ and any white space after
    it), then the captured group [(\d{1,2}\/\d{1,2}\/\d{4})].  The
    optional group is tried first, then the match without it.  The white
    space is greedy; giving some of it back leaves a space where a digit
    is needed, so nothing is lost by taking it all. *)
Definition dateRegexAt (s : string) : option string :=
  match dropPrefix "วันที่" s with
  | Some r =>
      match dateAt (JS.trimStart r) with
      | Some d => Some d
      | None => dateAt s
      end
  | None => dateAt s
  end.

(** [s.match(regex)[1]]: the group of the leftmost match. *)
Fixpoint matchDate (s : string) : option string :=
  match dateRegexAt s with
  | Some d => Some d
  | None =>
      match s with
      | EmptyString => None
      | String _ s' => matchDate s'
      end
  end.

Fixpoint firstSome {A B : Type} (f : A -> option B) (l : list A) : option B :=
  match l with
  | [] => None
  | x :: l' =>
      match f x with
      | Some y => Some y
      | None => firstSome f l'
      end
  end.

(** The search of the whole table, row by row and cell by cell. *)
Definition findDateInTable (t : table) : option string :=
  firstSome (firstSome matchDate) t.

(** [dateStr], first from the extracted text, then from the table. *)
Definition findDate (extractedText : string) (t : table) : option string :=
  match (if JS.truthy extractedText then matchDate extractedText else None) with
  | Some d => Some d
  | None => findDateInTable t
  end.

(** *** The grand total *)

Definition totalIndicators : list string :=
  ["ยอดรวม"; "รวม"; "total"; "grand total"; "sum"].

(** [foundTotal]: some indicator occurs in C0 or C1, case-insensitively. *)
Definition foundTotal (r : row) : bool :=
  existsb
    (fun indicator =>
       JS.includes (JS.toLowerCase (cellText r 0)) (JS.toLowerCase indicator)
       || JS.includes (JS.toLowerCase (cellText r 1))
            (JS.toLowerCase indicator))
    totalIndicators.

(** [parseFloat(row[columnIndex].toString().replace(/,/g, '')) || 0] *)
Definition cellValue (columnIndex : nat) (r : row) : JS.number :=
  JS.orZero (JS.parseFloat (JS.removeCommas (cell r columnIndex))).

(** The first loop over the table: the value of the first total row whose
    cell in the category's column is not empty; [0] when the loop ends
    without one. *)
Fixpoint findTotalRow (columnIndex : nat) (t : table) : JS.number :=
  match t with
  | [] => JS.zero
  | r :: t' =>
      if (List.length r <? 2)%nat then findTotalRow columnIndex t'
      else if foundTotal r && JS.truthy (cell r columnIndex)
           then cellValue columnIndex r
           else findTotalRow columnIndex t'
  end.

(** One round of the loop under [if (totalSum === 0)]. *)
Definition columnSumStep (columnIndex : nat) (sum : JS.number) (r : row)
  : JS.number :=
  if JS.truthy (cell r columnIndex) then
    let value :=
      JS.orZero
        (JS.parseFloat (JS.trim (JS.removeCommas (cell r columnIndex)))) in
    if JS.isPositive value then JS.add sum value else sum
  else sum.

(** [totalSum] as stored in the record. *)
Definition totalSumOf (columnIndex : nat) (t : table) : JS.number :=
  let found := findTotalRow columnIndex t in
  if JS.isZero found
  then fold_left (columnSumStep columnIndex) t found
  else found.

(** *** The totals per CDC *)

Definition cdcNames : list string :=
  ["บางบัวทอง"; "นครราชสีมา"; "นครสวรรค์"; "ชลบุรี"; "มหาชัย"; "สุวรรณภูมิ";
   "หาดใหญ่"; "ภูเก็ต"; "เชียงใหม่"; "สุราษฎร์"; "ขอนแก่น"].

Definition cdcNameMapping : list (string * string) :=
  [("บางบัวทอง", "คลังบางบัวทอง");
   ("นครราชสีมา", "นครราชสีมา");
   ("นครสวรรค์", "นครสวรรค์");
   ("ชลบุรี", "ชลบุรี");
   ("มหาชัย", "คลังมหาชัย");
   ("สุวรรณภูมิ", "คลังสุวรรณภูมิ");
   ("หาดใหญ่", "หาดใหญ่");
   ("ภูเก็ต", "ภูเก็ต");
   ("เชียงใหม่", "เชียงใหม่");
   ("สุราษฎร์", "สุราษฎร์");
   ("ขอนแก่น", "ขอนแก่น")].

(** [cdcNameMapping[cdcName]] ([None] is [undefined]). *)
Fixpoint mapped (m : list (string * string)) (cdcName : string)
  : option string :=
  match m with
  | [] => None
  | (k, v) :: m' => if String.eqb k cdcName then Some v else mapped m' cdcName
  end.

(** [cdcOrder] of [transformTableData]; also the order of
    [Object.values(cdcNameMapping)]. *)
Definition cdcOrder : list string := map snd cdcNameMapping.

(** Every CDC at [0]. *)
Definition zeroTotals : totals := map (fun cdc => (cdc, JS.zero)) cdcOrder.

(** [cdcTotals[key]] ([None] is [undefined]). *)
Fixpoint getTotal (m : totals) (key : string) : option JS.number :=
  match m with
  | [] => None
  | (k, x) :: m' => if String.eqb k key then Some x else getTotal m' key
  end.

(** [cdcTotals[key] += value]; on an absent key JavaScript would store
    [undefined + value], which is NaN. *)
Fixpoint addTo (key : string) (value : JS.number) (m : totals) : totals :=
  match m with
  | [] => [(key, JS.NaN)]
  | (k, x) :: m' =>
      if String.eqb k key then (k, JS.add x value) :: m'
      else (k, x) :: addTo key value m'
  end.

(** [searchColumnIndex] in [recordDailyData]: คลังบางบัวทอง is looked up
    in C0 by an explicit exception, the other names that start with คลัง
    in C1, every other name in C0. *)
Definition recordSearchColumn (fullCdcName : string) : nat :=
  if String.eqb fullCdcName "คลังบางบัวทอง" then 0
  else if JS.startsWith fullCdcName "คลัง" then 1
  else 0.

(** [searchColumnIndex] in [transformTableData]: C1 for every name that
    starts with คลัง, C0 otherwise. *)
Definition transformSearchColumn (fullCdcName : string) : nat :=
  if JS.startsWith fullCdcName "คลัง" then 1 else 0.

(** The body of [cdcNames.forEach] for one row and one name.  The loop is
    the same text in [recordDailyData] and in [transformTableData], but for
    the choice of the search column, [searchColumn]. *)
Definition matchCdc (searchColumn : string -> nat) (columnIndex : nat)
  (r : row) (acc : totals) (cdcName : string) : totals :=
  match mapped cdcNameMapping cdcName with
  | None => acc
  | Some fullCdcName =>
      let searchCell := cellText r (searchColumn fullCdcName) in
      if JS.includes searchCell cdcName then
        if JS.truthy (cell r columnIndex) then
          let value := cellValue columnIndex r in
          if JS.isPositive value then addTo fullCdcName value acc else acc
        else acc
      else acc
  end.

(** The body of [table.forEach] for one row. *)
Definition sumRow (searchColumn : string -> nat) (columnIndex : nat)
  (acc : totals) (r : row) : totals :=
  if (List.length r <? 2)%nat then acc
  else fold_left (matchCdc searchColumn columnIndex r) cdcNames acc.

Definition sumByCdc (searchColumn : string -> nat) (columnIndex : nat)
  (t : table) (init : totals) : totals :=
  fold_left (sumRow searchColumn columnIndex) t init.

(** *** The Laos value (orange only) *)

(** The loop from the last row upwards, given the rows in that order. *)
Fixpoint lastKhonKaen (rowsFromLast : table) : JS.number :=
  match rowsFromLast with
  | [] => JS.zero
  | r :: rest =>
      if JS.truthy (cell r 0)
         && JS.includes (cellText r 0) "ขอนแก่น"
         && JS.truthy (cell r 2)
      then cellValue 2 r
      else lastKhonKaen rest
  end.

Definition khonKaenLaosValue (t : table) : JS.number := lastKhonKaen (rev t).

(** *** [recordDailyData] *)

(** The object [dailyRecord]; [now] is [new Date().toISOString()]. *)
Definition dailyRecord (t : table) (dateStr now : string)
  (hadyaiSum : JS.number) (c : category) : DailyRecord :=
  {| date := dateStr;
     timestamp := now;
     fc33HadyaiSum := hadyaiSum;
     totalSum := totalSumOf (cdcConfig c) t;
     cdcTotals := sumByCdc recordSearchColumn (cdcConfig c) t zeroTotals;
     khonKaenLaos :=
       match c with orange => Some (khonKaenLaosValue t) | yuzu => None end;
     khonKaenCambodia :=
       match c with orange => Some JS.zero | yuzu => None end |}.

(** One round of [for (const category of ['orange', 'yuzu'])]; the state is
    [records] and [results]. *)
Definition recordCategory (t : table) (dateStr : string)
  (clock : category -> string) (hadyaiSum : JS.number)
  (st : Records * list (category * DailyRecord)) (c : category)
  : Records * list (category * DailyRecord) :=
  let '(records, results) := st in
  if isDateRecorded records dateStr c then st
  else
    let r := dailyRecord t dateStr (clock c) hadyaiSum c in
    (pushRecord records c r, (results ++ [(c, r)])%list).

(** [recordDailyData(tableData, extractedText)].  [records] is the content
    of the records file before the call, the second component of the
    result its content after it; [clock c] is the time read when the record
    of category [c] is built. *)
Definition recordDailyData (tableData : list table) (extractedText : string)
  (clock : category -> string) (records : Records) : result * Records :=
  match tableData with
  | [] => (Failure reasonNoTable, records)
  | t :: _ =>
      let hadyaiSum := hadyaiSumOf t in
      let phuketSum := phuketSumOf t in
      if JS.isZero hadyaiSum && JS.isZero phuketSum
      then (Failure reasonValidation, records)
      else
        match findDate extractedText t with
        | None => (Failure reasonNoDate, records)
        | Some dateStr =>
            let '(records', results) :=
              fold_left (recordCategory t dateStr clock hadyaiSum)
                [orange; yuzu] (records, []) in
            (Success dateStr results, records')
        end
  end.

(** *** [transformTableData] *)

(** [transformTableData(tableData, columnIndex)]: the list of
    [{ cdc, value }] in [cdcOrder]; [None] is [null]. *)
Definition transformTableData (tableData : list table) (columnIndex : nat)
  : option (list (string * option JS.number)) :=
  match tableData with
  | [] => None
  | t :: _ =>
      let cdcTotals := sumByCdc transformSearchColumn columnIndex t zeroTotals in
      Some (map (fun cdc => (cdc, getTotal cdcTotals cdc)) cdcOrder)
  end.

(** ** The Excel import script ([parseAndMigrateSheet] and its helpers) *)

Module Excel.

(** A cell of [XLSX.utils.sheet_to_json(sheet, { header: 1, defval: '' })]. *)
Inductive value : Type :=
| VUndefined
| VNull
| VString (s : string)
| VNumber (x : JS.number)
| VBoolean (b : bool).

(** [String(v)] *)
Definition toString (v : value) : string :=
  match v with
  | VUndefined => "undefined"
  | VNull => "null"
  | VString s => s
  | VNumber x => JS.numberToString x
  | VBoolean b => if b then "true" else "false"
  end.

(** Truthiness of a cell. *)
Definition truthy (v : value) : bool :=
  match v with
  | VString s => JS.truthy s
  | VNumber JS.NaN => false
  | VNumber x => negb (JS.isZero x)
  | VBoolean b => b
  | VUndefined | VNull => false
  end.

Definition sheetRow : Type := list value.

(** [row[k]] *)
Definition elem (r : sheetRow) (k : nat) : value := nth k r VUndefined.

Definition CDC_VARIATIONS : list (string * list string) :=
  [("บางบัวทอง", ["บางบัวทอง"; "คลังบางบัวทอง"; "BBT"]);
   ("นครราชสีมา", ["นครราชสีมา"; "โคราช"; "NMA"]);
   ("นครสวรรค์", ["นครสวรรค์"; "NSW"]);
   ("ชลบุรี", ["ชลบุรี"; "CBR"]);
   ("มหาชัย", ["มหาชัย"; "คลังมหาชัย"; "MHC"]);
   ("สุวรรณภูมิ", ["สุวรรณภูมิ"; "คลังสุวรรณภูมิ"; "SVB"]);
   ("หาดใหญ่", ["หาดใหญ่"; "HDY"]);
   ("ภูเก็ต", ["ภูเก็ต"; "PKT"]);
   ("เชียงใหม่", ["เชียงใหม่"; "CNX"]);
   ("สุราษฎร์", ["สุราษฎร์"; "สุราษฎร์ธานี"; "SRT"]);
   ("ขอนแก่น", ["ขอนแก่น"; "KKN"])].

(** The same table as [cdcNameMapping] of the server. *)
Definition CDC_NAME_TO_FULL : list (string * string) := cdcNameMapping.

(** [findCdcName(cellValue)], on the text of a cell. *)
Definition findCdcName (cellValue : string) : option string :=
  if JS.truthy cellValue then
    let value := JS.trim cellValue in
    firstSome
      (fun entry : string * list string =>
         let '(cdcKey, variations) := entry in
         if existsb (fun variation => JS.includes value variation) variations
         then mapped CDC_NAME_TO_FULL cdcKey
         else None)
      CDC_VARIATIONS
  else None.

(** *** Dates *)

(** The civil date of a day counted from 1 January 1970, in the proleptic
    Gregorian calendar. *)
Definition civilFromDays (days : Z) : Z * Z * Z :=
  let z := (days + 719468)%Z in
  let era := (z / 146097)%Z in
  let doe := (z - era * 146097)%Z in
  let yoe := ((doe - doe / 1460 + doe / 36524 - doe / 146096) / 365)%Z in
  let doy := (doe - (365 * yoe + yoe / 4 - yoe / 100))%Z in
  let mp := ((5 * doy + 2) / 153)%Z in
  let d := (doy - (153 * mp + 2) / 5 + 1)%Z in
  let m := (if mp <? 10 then mp + 3 else mp - 9)%Z in
  let y := (yoe + era * 400 + (if m <=? 2 then 1 else 0))%Z in
  (y, m, d).

(** Modelled from the spec: [XLSX.SSF.parse_date_code] is a function of the
    SheetJS library, which is not among the sources.  The spec describes it
    as a numeric day-count consistent with a spreadsheet epoch serial date,
    converted via standard epoch arithmetic.  That is the 1900 date system:
    day 1 is 1 January 1900, day 60 is the 29 February 1900 of the
    spreadsheets, day 0 is written as day 0 of January 1900, and only the
    serials from 0 to 2958465 (31 December 9999) are dates.  A time of day
    within a ten-thousandth of a second of midnight counts for the next
    day.  The result is [(y, m, d)]; [None] is [null]. *)
Definition parse_date_code (v : JS.number) : option (Z * Z * Z) :=
  match v with
  | JS.NaN | JS.Inf _ => None
  | JS.Fin m k =>
      let unit := JS.pow10 k in
      if ((m <? 0) || (2958465 * unit <? m))%Z then None
      else
        let whole := (m / unit)%Z in
        let seconds := (86400 * (m mod unit))%Z in
        let time := (seconds / unit)%Z in
        let u := (seconds mod unit)%Z in
        let serial :=
          (if (9999 * unit <? 10000 * u) && (time + 1 =? 86400)
           then whole + 1 else whole)%Z in
        if (serial =? 60)%Z then Some (1900, 2, 29)%Z
        else if (serial =? 0)%Z then Some (1900, 1, 0)%Z
        else
          let n := (if 60 <? serial then serial - 1 else serial)%Z in
          Some (civilFromDays (n - 1 - 25567))
  end.

(** [^(\d{1,2})\/(\d{1,2})\/(\d{4})$], printed as
    [`${d.padStart(2, '0')}/${m.padStart(2, '0')}/${y}`]. *)
Definition matchDMY (s : string) : option string :=
  match oneOrTwoDigitsSlash s with
  | Some (d, r1) =>
      match oneOrTwoDigitsSlash r1 with
      | Some (m, r2) =>
          match fourDigits r2 with
          | Some (y, EmptyString) =>
              Some (JS.padStart2 (substring 0 (String.length d - 1) d)
                    ++ "/"
                    ++ JS.padStart2 (substring 0 (String.length m - 1) m)
                    ++ "/" ++ y)
          | _ => None
          end
      | None => None
      end
  | None => None
  end.

(** [^(\d{4})-(\d{2})-(\d{2})$], printed as [`${d}/${m}/${y}`]. *)
Definition matchYMD (s : string) : option string :=
  match fourDigits s with
  | Some (y, String h1 (String a (String b (String h2
            (String c (String d EmptyString)))))) =>
      if Ascii.eqb h1 "-" && Ascii.eqb h2 "-"
         && JS.isDigit a && JS.isDigit b && JS.isDigit c && JS.isDigit d
      then Some (String c (String d "/") ++ String a (String b "/") ++ y)
      else None
  | _ => None
  end.

(** [`${day}/${month}/${year}`] of a parsed serial date. *)
Definition formatYMD (date : Z * Z * Z) : string :=
  let '(y, m, d) := date in
  JS.padStart2 (JS.natToString d) ++ "/"
  ++ JS.padStart2 (JS.natToString m) ++ "/" ++ JS.natToString y.

(** [parseExcelDate(value)]; [None] is [null]. *)
Definition parseExcelDate (v : value) : option string :=
  if negb (truthy v) then None
  else
    let fromSerial :=
      match v with
      | VNumber x => option_map formatYMD (parse_date_code x)
      | _ => None
      end in
    match fromSerial with
    | Some s => Some s
    | None =>
        let strValue := JS.trim (toString v) in
        match matchDMY strValue with
        | Some s => Some s
        | None => matchYMD strValue
        end
    end.

(** *** Quantities *)

(** [parseNumericValue(value)] *)
Definition parseNumericValue (v : value) : JS.number :=
  match v with
  | VNull | VUndefined | VString EmptyString => JS.zero
  | VNumber x => JS.round x
  | _ =>
      match JS.parseFloat (JS.removeCommas (toString v)) with
      | JS.NaN => JS.zero
      | num => JS.round num
      end
  end.

End Excel.

(** *** The database ([db.js]) *)

Module Db.

(** [s.split(sep)] for a separator of one character. *)
Fixpoint split (sep : ascii) (s : string) : list string :=
  match s with
  | EmptyString => [EmptyString]
  | String c s' =>
      if Ascii.eqb c sep then EmptyString :: split sep s'
      else
        match split sep s' with
        | part :: parts => String c part :: parts
        | [] => [String c EmptyString]
        end
  end.

(** [/^\d{4}-\d{2}-\d{2}$/] *)
Definition isMySQLDate (s : string) : bool :=
  match fourDigits s with
  | Some (_, String h1 (String a (String b (String h2
            (String c (String d EmptyString)))))) =>
      Ascii.eqb h1 "-" && Ascii.eqb h2 "-"
      && JS.isDigit a && JS.isDigit b && JS.isDigit c && JS.isDigit d
  | _ => false
  end.

(** [toMySQLDate(dateStr)]; [None] is [null]. *)
Definition toMySQLDate (dateStr : string) : option string :=
  if negb (JS.truthy dateStr) then None
  else if isMySQLDate dateStr then Some dateStr
  else
    match split "/" dateStr with
    | [d; m; y] => Some (y ++ "-" ++ JS.padStart2 m ++ "-" ++ JS.padStart2 d)
    | _ => None
    end.

(** A row of the table [daily_records]; [(rowDate, rowCategory)] is its
    unique key [unique_date_category]. *)
Record dbRow : Type := {
  rowDate : string;
  rowCategory : string;
  rowRecord : DailyRecord
}.

Definition database : Type := list dbRow.

Definition hasKey (d c : string) (r : dbRow) : bool :=
  String.eqb (rowDate r) d && String.eqb (rowCategory r) c.

(** [isDateRecorded(date, category)]: a [null] date selects nothing. *)
Definition isDateRecorded (db : database) (dateStr c : string) : bool :=
  match toMySQLDate dateStr with
  | Some d => existsb (hasKey d c) db
  | None => false
  end.

Fixpoint upsert (d c : string) (r : DailyRecord) (db : database) : database :=
  match db with
  | [] => [{| rowDate := d; rowCategory := c; rowRecord := r |}]
  | x :: db' =>
      if hasKey d c x
      then {| rowDate := d; rowCategory := c; rowRecord := r |} :: db'
      else x :: upsert d c r db'
  end.

(** [saveDailyRecord(record, category)]: [INSERT ... ON DUPLICATE KEY
    UPDATE]; [None] is the error of a [null] date in a [NOT NULL] column. *)
Definition saveDailyRecord (db : database) (r : DailyRecord) (c : string)
  : option database :=
  match toMySQLDate (date r) with
  | Some d => Some (upsert d c r db)
  | None => None
  end.

End Db.

Module Migration.

Import Excel.

(** *** The scan for the header row *)

(** The variables the scan of one row updates. *)
Record scan : Type := {
  cdcCount : nat;
  tempCdcColumns : list (nat * string);
  dateColumnIndex : Z;
  totalColumnIndex : Z
}.

Definition isDateLabel (cellValue : string) : bool :=
  JS.includes cellValue "วันที่"
  || JS.includes (JS.toLowerCase cellValue) "date".

Definition isTotalLabel (cellValue : string) : bool :=
  (JS.includes cellValue "รวม"
   || JS.includes (JS.toLowerCase cellValue) "total"
   || JS.includes cellValue "ยอดรวม")
  && negb (JS.includes cellValue "CDC").

(** The body of the loop over [colIdx]. *)
Definition scanCell (st : scan) (colIdx : nat) (v : value) : scan :=
  let cellValue := JS.trim (toString v) in
  let dateCol :=
    if isDateLabel cellValue then Z.of_nat colIdx else dateColumnIndex st in
  let totalCol :=
    if isTotalLabel cellValue then Z.of_nat colIdx else totalColumnIndex st in
  match findCdcName cellValue with
  | Some cdcName =>
      {| cdcCount := S (cdcCount st);
         tempCdcColumns := tempCdcColumns st ++ [(colIdx, cdcName)];
         dateColumnIndex := dateCol;
         totalColumnIndex := totalCol |}
  | None =>
      {| cdcCount := cdcCount st;
         tempCdcColumns := tempCdcColumns st;
         dateColumnIndex := dateCol;
         totalColumnIndex := totalCol |}
  end.

(** The loop over the cells of a row, from column [colIdx] on. *)
Fixpoint scanCells (st : scan) (colIdx : nat) (r : sheetRow) : scan :=
  match r with
  | [] => st
  | v :: r' => scanCells (scanCell st colIdx v) (S colIdx) r'
  end.

(** The scan of one row: [cdcCount] and [tempCdcColumns] start afresh,
    the two column indices are the variables of the enclosing function. *)
Definition scanRow (dateCol totalCol : Z) (r : sheetRow) : scan :=
  scanCells {| cdcCount := 0; tempCdcColumns := [];
               dateColumnIndex := dateCol; totalColumnIndex := totalCol |}
            0 r.

(** What the scan leaves in [headerRowIndex], [cdcColumns],
    [dateColumnIndex] and [totalColumnIndex]. *)
Record Layout : Type := {
  headerRowIndex : Z;
  cdcColumns : list (nat * string);
  dateColumn : Z;
  totalColumn : Z
}.

(** The loop over [rowIdx], from row [rowIdx] on. *)
Fixpoint scanRows (rowIdx : nat) (dateCol totalCol : Z) (rows : list sheetRow)
  : Layout :=
  match rows with
  | [] => {| headerRowIndex := -1; cdcColumns := [];
             dateColumn := dateCol; totalColumn := totalCol |}
  | r :: rows' =>
      let st := scanRow dateCol totalCol r in
      if (5 <=? cdcCount st)%nat
      then {| headerRowIndex := Z.of_nat rowIdx;
              cdcColumns := tempCdcColumns st;
              dateColumn := dateColumnIndex st;
              totalColumn := totalColumnIndex st |}
      else scanRows (S rowIdx) (dateColumnIndex st) (totalColumnIndex st) rows'
  end.

(** [for (rowIdx = 0; rowIdx < Math.min(50, data.length); rowIdx++)] *)
Definition locateHeader (data : list sheetRow) : Layout :=
  scanRows 0 (-1) (-1) (firstn 50 data).

(** *** The data rows *)

(** [cdcTotals[key] = v] *)
Fixpoint setTotal (key : string) (v : JS.number) (m : totals) : totals :=
  match m with
  | [] => [(key, v)]
  | (k, x) :: m' =>
      if String.eqb k key then (k, v) :: m' else (k, x) :: setTotal key v m'
  end.

(** The date of a data row: the first of the columns [0] to
    [Math.max(dateColumnIndex, 2)] that parses, then the date column. *)
Definition dateOfRow (dateCol : Z) (r : sheetRow) : option string :=
  match firstSome (fun k => parseExcelDate (elem r k))
          (seq 0 (S (Z.to_nat (Z.max dateCol 2)))) with
  | Some d => Some d
  | None =>
      if (0 <=? dateCol)%Z then parseExcelDate (elem r (Z.to_nat dateCol))
      else None
  end.

Definition rowTotals (cols : list (nat * string)) (r : sheetRow) : totals :=
  fold_left
    (fun acc (entry : nat * string) =>
       setTotal (snd entry) (parseNumericValue (elem r (fst entry))) acc)
    cols zeroTotals.

Definition rowTotalSum (totalCol : Z) (r : sheetRow) (cdcTotals : totals)
  : JS.number :=
  if (0 <=? totalCol)%Z && truthy (elem r (Z.to_nat totalCol))
  then parseNumericValue (elem r (Z.to_nat totalCol))
  else fold_left JS.add (map snd cdcTotals) JS.zero.

(** What the loop makes of a data row before it turns to the database. *)
Inductive rowOutcome : Type :=
| NotData                      (* empty row, or no date *)
| AllZero                      (* [skipped++] *)
| Built (r : DailyRecord).

Definition buildRow (l : Layout) (category now : string) (r : sheetRow)
  : rowOutcome :=
  match r with
  | [] => NotData
  | _ =>
      match dateOfRow (dateColumn l) r with
      | None => NotData
      | Some dateStr =>
          let cdcTotals := rowTotals (cdcColumns l) r in
          let total := rowTotalSum (totalColumn l) r cdcTotals in
          if JS.isZero total && forallb JS.isZero (map snd cdcTotals)
          then AllZero
          else
            let isOrange := String.eqb category "orange" in
            Built
              {| date := dateStr;
                 timestamp := now;
                 fc33HadyaiSum :=
                   match getTotal cdcTotals "หาดใหญ่" with
                   | Some x => JS.orZero x
                   | None => JS.zero
                   end;
                 totalSum := total;
                 cdcTotals := cdcTotals;
                 khonKaenLaos := if isOrange then Some JS.zero else None;
                 khonKaenCambodia := if isOrange then Some JS.zero else None |}
      end
  end.

(** The state of the loop over the data rows. *)
Record progress : Type := {
  processed : nat;
  skipped : nat;
  records : list DailyRecord;
  db : Db.database
}.

(** One data row; [clock n] is the time read when the record number [n]
    of the run is built. *)
Definition migrateRow (l : Layout) (category : string) (dryRun : bool)
  (clock : nat -> string) (p : progress) (r : sheetRow) : progress :=
  match buildRow l category (clock (List.length (records p))) r with
  | NotData => p
  | AllZero =>
      {| processed := processed p; skipped := S (skipped p);
         records := records p; db := db p |}
  | Built rec =>
      let recs := (records p ++ [rec])%list in
      if dryRun then
        {| processed := S (processed p); skipped := skipped p;
           records := recs; db := db p |}
      else if Db.isDateRecorded (db p) (date rec) category then
        {| processed := processed p; skipped := S (skipped p);
           records := recs; db := db p |}
      else
        match Db.saveDailyRecord (db p) rec category with
        | Some db' =>
            {| processed := S (processed p); skipped := skipped p;
               records := recs; db := db' |}
        | None =>
            {| processed := processed p; skipped := S (skipped p);
               records := recs; db := db p |}
        end
  end.

(** [parseAndMigrateSheet(sheet, sheetName, category, dryRun)] on the rows
    [data] of the sheet.  The result holds the two counters, the array
    [records] and the database after the run. *)
Definition parseAndMigrateSheet (data : list sheetRow) (category : string)
  (dryRun : bool) (clock : nat -> string) (db0 : Db.database) : progress :=
  let start := {| processed := 0; skipped := 0; records := []; db := db0 |} in
  let l := locateHeader data in
  if (headerRowIndex l =? -1)%Z then start
  else
    fold_left (migrateRow l category dryRun clock)
      (skipn (S (Z.to_nat (headerRowIndex l))) data) start.

End Migration.

(** ** Notions used to state the properties *)

(** The fill-down loop on one column alone. *)
Fixpoint fillColumn (last : option string) (col : list string) : list string :=
  match col with
  | [] => []
  | s :: col' =>
      if JS.truthy s
      then s :: fillColumn (if hasText s then Some (JS.trim s) else last) col'
      else match last with Some v => v | None => s end :: fillColumn last col'
  end.

(** The value carried after a run of cells, starting from [last]. *)
Definition carry (last : option string) (cells : list string) : option string :=
  fold_left (fun l s => if hasText s then Some (JS.trim s) else l) cells last.

(** Fill-down as the specification words it: a cell is empty when its
    trimmed text is empty, and an empty cell takes the value of the nearest
    cell above it that is not empty. *)
Fixpoint fillDownSpec (last : option string) (col : list string)
  : list string :=
  match col with
  | [] => []
  | s :: col' =>
      if hasText s then s :: fillDownSpec (Some s) col'
      else match last with Some v => v | None => s end :: fillDownSpec last col'
  end.

(** The sum the validation is meant to hold: the parsed C2 values of the
    rows whose C0 names both FC33 and หาดใหญ่, added from the top. *)
Definition hadyaiC2Sum (t : table) : JS.number :=
  fold_left JS.add (map c2Value (filter isHadyaiRow t)) JS.zero.

(** The records a run of [recordDailyData] announces in [results]. *)
Definition newRecords (run : result * Records) : list (category * DailyRecord) :=
  match fst run with
  | Success _ results => results
  | Failure _ => []
  end.

(** The records of category [c] among those of a list [results]. *)
Definition ofCategory (c : category) (results : list (category * DailyRecord))
  : list DailyRecord :=
  map snd (filter (fun cr => category_eqb (fst cr) c) results).

(** How many records of a list bear the date [d]. *)
Definition countDate (d : string) (l : list DailyRecord) : nat :=
  List.length (filter (fun r => String.eqb (date r) d) l).

(** A finite number is normal when it is in lowest terms. *)
Definition normal (x : JS.number) : Prop :=
  match x with
  | JS.Fin m k => JS.lowest m k = JS.Fin m k
  | _ => True
  end.


(** The parsed value of the cell of a row in a column, [0] for an empty
    cell, as the fall-back loop of the total reads it. *)
Definition columnValue (columnIndex : nat) (r : row) : JS.number :=
  if JS.truthy (cell r columnIndex)
  then JS.orZero
         (JS.parseFloat (JS.trim (JS.removeCommas (cell r columnIndex))))
  else JS.zero.

(** The sum of the strictly positive values of a column, over every row. *)
Definition positiveColumnSum (columnIndex : nat) (t : table) : JS.number :=
  fold_left JS.add
    (filter JS.isPositive (map (columnValue columnIndex) t)) JS.zero.

(** The sum of the totals attributed to the locations. *)
Definition sumOfTotals (m : totals) : JS.number :=
  fold_left JS.add (map snd m) JS.zero.

(** An empty records file and a clock, for the examples. *)
Definition noRecords : Records := {| orangeRecords := []; yuzuRecords := [] |}.
Definition noon (c : category) : string := "2025-10-18T12:00:00.000Z".

(** A small table: two signal rows, a row that names no location, and a
    date. *)
Definition sampleTable : table :=
  [["วันที่ 18/10/2025"; ""; ""; ""];
   ["FC33 หาดใหญ่"; "x"; "10"; "4"];
   ["FC07 ภูเก็ต"; "x"; "5"; "1"];
   ["อื่นๆ"; "x"; "7"; "2"]].







Definition isTwoDigits (s : string) : bool :=
  match s with
  | String a (String b EmptyString) => JS.isDigit a && JS.isDigit b
  | _ => false
  end.

Definition isFourDigits (s : string) : bool :=
  match s with
  | String a (String b (String c (String d EmptyString))) =>
      JS.isDigit a && JS.isDigit b && JS.isDigit c && JS.isDigit d
  | _ => false
  end.

(** The canonical form of a date: two digits, a slash, two digits, a
    slash, four digits. *)
Definition canonicalDate (s : string) : bool :=
  match s with
  | String a (String b (String "/" (String c (String d (String "/" y))))) =>
      JS.isDigit a && JS.isDigit b && JS.isDigit c && JS.isDigit d
      && isFourDigits y
  | _ => false
  end.

(** The integers from [lo], [n] of them. *)
Definition zrange (lo : Z) (n : nat) : list Z :=
  map (fun i => (lo + Z.of_nat i)%Z) (seq 0 n).

(** [d] stands in [s] as it is written there. *)
Definition writtenIn (d s : string) : Prop :=
  exists before after : string, s = before ++ d ++ after.

(** [d] stands in the extracted text or in a cell of the table. *)
Definition writtenInInput (d text : string) (t : table) : Prop :=
  writtenIn d text
  \/ exists (r : row) (c : string), In r t /\ In c r /\ writtenIn d c.

(** The text the header scan reads in a cell: [String(cell).trim()]. *)
Definition scanText (v : Excel.value) : string :=
  JS.trim (Excel.toString v).

(** The cell resolves to a location. *)
Definition resolves (v : Excel.value) : bool :=
  match Excel.findCdcName (scanText v) with Some _ => true | None => false end.

(** The number of cells of a row that resolve to a location. *)
Definition countResolved (r : Excel.sheetRow) : nat :=
  List.length (filter resolves r).

(** The columns of a row that resolve, with their locations; the first
    cell is column [colIdx]. *)
Fixpoint resolvedFrom (colIdx : nat) (r : Excel.sheetRow)
  : list (nat * string) :=
  match r with
  | [] => []
  | v :: r' =>
      match Excel.findCdcName (scanText v) with
      | Some cdcName => (colIdx, cdcName) :: resolvedFrom (S colIdx) r'
      | None => resolvedFrom (S colIdx) r'
      end
  end.

(** The number of distinct locations a row resolves to. *)
Definition distinctResolved (r : Excel.sheetRow) : nat :=
  List.length (nodup string_dec (map snd (resolvedFrom 0 r))).

(** The column of the last cell of a row that bears a label, [prev] when
    the row has none; the first cell is column [colIdx]. *)
Fixpoint lastLabelFrom (label : string -> bool) (colIdx : nat) (prev : Z)
  (r : Excel.sheetRow) : Z :=
  match r with
  | [] => prev
  | v :: r' =>
      lastLabelFrom label (S colIdx)
        (if label (scanText v) then Z.of_nat colIdx else prev) r'
  end.

(** The column of the last labelled cell met in a run of rows, read row
    by row, [-1] when there is none. *)
Definition lastLabelIn (label : string -> bool) (rows : list Excel.sheetRow)
  : Z :=
  fold_left (lastLabelFrom label 0) rows (-1)%Z.

(** Rows for the examples of the header scan. *)
Definition fiveTimesHadyai : Excel.sheetRow :=
  repeat (Excel.VString "หาดใหญ่") 5.

Definition titleRow : Excel.sheetRow :=
  [Excel.VString "วันที่"; Excel.VString "ยอดรวม"].

Definition fourNames : Excel.sheetRow :=
  map Excel.VString [""; "บางบัวทอง"; "โคราช"; "NSW"; "ชลบุรี"].

Definition fiveNames : Excel.sheetRow :=
  map Excel.VString [""; "บางบัวทอง"; "โคราช"; "NSW"; "ชลบุรี"; "MHC"].

(** A small sheet: a header row and two data rows. *)
Definition sampleSheet : list Excel.sheetRow :=
  [ map Excel.VString
      ["วันที่"; "บางบัวทอง"; "โคราช"; "NSW"; "ชลบุรี"; "หาดใหญ่"; "รวม"];
    [Excel.VNumber (JS.ofZ 45948);
     Excel.VNumber (JS.ofZ 1); Excel.VNumber (JS.ofZ 2);
     Excel.VNumber (JS.ofZ 3); Excel.VString "1,004";
     Excel.VNumber (JS.Fin 126 1); Excel.VNumber (JS.ofZ 1023)];
    [Excel.VString "2025-10-19";
     Excel.VNumber (JS.ofZ 0); Excel.VNumber (JS.ofZ 0);
     Excel.VNumber (JS.ofZ 0); Excel.VString "";
     Excel.VNumber (JS.ofZ 0); Excel.VString ""] ].


(** ** More of the code *)

(** *** Building the tables ([server.js], [performOCR]) *)

(** A cell of a table of the OCR result. *)
Record ocrCell : Type := {
  rowIndex : nat;
  columnIndex : nat;
  content : option string        (* [None] is [undefined] *)
}.

(** [cell.content || ''] *)
Definition contentOrEmpty (c : ocrCell) : string :=
  match content c with Some s => s | None => "" end.

(** [Math.max(...cells.map(c => c.rowIndex)) + 1]; with no cell at all
    JavaScript computes [-Infinity] and the loop that makes the rows does
    not run, which is what 0 gives here. *)
Definition maxRowOf (cells : list ocrCell) : nat :=
  fold_left (fun m c => Nat.max m (S (rowIndex c))) cells 0%nat.

Definition maxColOf (cells : list ocrCell) : nat :=
  fold_left (fun m c => Nat.max m (S (columnIndex c))) cells 0%nat.

(** [rows[i] = f(rows[i])] for a row that exists; the code never writes
    to a row it did not make. *)
Fixpoint updateRow (i : nat) (f : row -> row) (rows : table) : table :=
  match i, rows with
  | _, [] => []
  | O, r :: rows' => f r :: rows'
  | S i', r :: rows' => r :: updateRow i' f rows'
  end.

(** The rows [performOCR] builds for one table: a rectangle of empty
    strings, then one assignment per cell. *)
Definition buildTable (cells : list ocrCell) : table :=
  fold_left
    (fun rows c =>
       updateRow (rowIndex c) (setCell (columnIndex c) (contentOrEmpty c)) rows)
    cells
    (repeat (repeat "" (maxColOf cells)) (maxRowOf cells)).

(** [tableData] as [performOCR] hands it to [recordDailyData]. *)
Definition ocrTableData (tables : list (list ocrCell)) : list table :=
  match map buildTable tables with
  | [] => []
  | tableData => preprocessTableData tableData
  end.

(** The content of the last cell of the list that sits at row [i] and
    column [j], the empty string when there is none. *)
Definition lastContent (i j : nat) (cells : list ocrCell) : string :=
  fold_left
    (fun acc c =>
       if (rowIndex c =? i)%nat && (columnIndex c =? j)%nat
       then contentOrEmpty c else acc)
    cells "".

(** Every row of a table has [w] cells. *)
Definition hasWidth (w : nat) (t : table) : Prop :=
  Forall (fun r => List.length r = w) t.

(** *** The detection log ([server.js], [saveDetectionLog]) *)

(** [logs.unshift(logEntry)] then [logs.slice(0, 100)]: what is written
    back to the file. *)
Definition saveDetectionLog {A : Type} (logs : list A) (logEntry : A)
  : list A :=
  firstn 100 (logEntry :: logs).

(** *** The category of a sheet (import script, [detectCategory]) *)

(** [CATEGORIES] of [db.js]. *)
Definition CATEGORIES : list string :=
  ["orange"; "yuzu"; "pop"; "mixed"; "tomato"].

(** [detectCategory(sheetName)]; [None] is [null]. *)
Definition detectCategory (sheetName : string) : option string :=
  let name := JS.toLowerCase sheetName in
  let nameThai := sheetName in
  if JS.includes name "orange" || JS.includes nameThai "ส้ม"
  then Some "orange"
  else if JS.includes name "pop" || JS.includes name "shinsen pop"
  then Some "pop"
  else if JS.includes name "tomato" || JS.includes nameThai "มะเขือเท"
  then Some "tomato"
  else if JS.includes name "yuzu" || JS.includes nameThai "ยูซุ"
  then Some "yuzu"
  else if JS.includes name "mixed" || JS.includes nameThai "ผลไม้รวม"
          || JS.includes nameThai "น้ำผลไม้รวม"
  then Some "mixed"
  else None.

(** *** Notions used to state the further properties *)

(** The leftmost place of a text where the pattern
    [\d{1,2}\/\d{1,2}\/\d{4}] matches, the word วันที่ left aside. *)
Fixpoint firstDate (s : string) : option string :=
  match dateAt s with
  | Some d => Some d
  | None =>
      match s with
      | EmptyString => None
      | String _ s' => firstDate s'
      end
  end.

(** A number that is neither negative nor NaN. *)
Definition nonNegative (x : JS.number) : Prop :=
  match x with
  | JS.Fin m _ => (0 <= m)%Z
  | JS.Inf negative => negative = false
  | JS.NaN => False
  end.

(** The rows [lastKhonKaen] stops at: C0 is not empty and names ขอนแก่น,
    C2 is not empty. *)
Definition isLaosRow (r : row) : bool :=
  JS.truthy (cell r 0)
  && JS.includes (cellText r 0) "ขอนแก่น"
  && JS.truthy (cell r 2).

(** The dates of the records of a category are all different. *)
Definition uniqueDates (records : Records) (c : category) : Prop :=
  NoDup (map date (recordsOf records c)).

(** The key of a row of the database. *)
Definition keyOf (x : Db.dbRow) : string * string :=
  (Db.rowDate x, Db.rowCategory x).

(** A data row of a sheet that yields a record, and the record. *)
Definition builds (l : Migration.Layout) (category : string)
  (r : Excel.sheetRow) (rec : DailyRecord) : Prop :=
  exists now, Migration.buildRow l category now r = Migration.Built rec.

(** Rows and cells for the examples. *)
Definition sampleCells : list ocrCell :=
  [ {| rowIndex := 0; columnIndex := 0; content := Some "FC33 หาดใหญ่" |};
    {| rowIndex := 1; columnIndex := 2; content := Some "10" |};
    {| rowIndex := 2; columnIndex := 1; content := None |};
    {| rowIndex := 1; columnIndex := 2; content := Some "12" |} ].


(** The carried value of a fill-down loop is a trimmed text, not empty. *)
Definition carryOk (last : option string) : Prop :=
  match last with
  | Some v => JS.trim v = v /\ JS.truthy v = true
  | None => True
  end.

(** [columnValue] on the text of the cell. *)
Definition valueOfText (s : string) : JS.number :=
  if JS.truthy s
  then JS.orZero (JS.parseFloat (JS.trim (JS.removeCommas s)))
  else JS.zero.


(** No character of the text is a digit. *)
Fixpoint noDigit (w : string) : bool :=
  match w with
  | EmptyString => true
  | String a w' => negb (JS.isDigit a) && noDigit w'
  end.


(** The text [ab/cd/wxyz]. *)
Definition dmyText (a b c d w x y z : ascii) : string :=
  String a (String b (String "/" (String c (String d (String "/"
    (String w (String x (String y (String z EmptyString))))))))).

(** The text [wxyz-cd-ab]. *)
Definition ymdText (a b c d w x y z : ascii) : string :=
  String w (String x (String y (String z (String "-"
    (String c (String d (String "-" (String a (String b EmptyString))))))))).


(** The record [r] with another time of recording. *)
Definition withTimestamp (now : string) (r : DailyRecord) : DailyRecord :=
  {| date := date r;
     timestamp := now;
     fc33HadyaiSum := fc33HadyaiSum r;
     totalSum := totalSum r;
     cdcTotals := cdcTotals r;
     khonKaenLaos := khonKaenLaos r;
     khonKaenCambodia := khonKaenCambodia r |}.

(** The data rows of a sheet: those below the header row. *)
Definition dataRows (data : list Excel.sheetRow) : list Excel.sheetRow :=
  skipn (S (Z.to_nat (Migration.headerRowIndex (Migration.locateHeader data))))
    data.


(** *** The import of a workbook (import script, [main]) *)

Module ExcelImport.

(** [results]: the counters [processed] and [skipped] of each category. *)
Definition counters : Type := list (string * (nat * nat)).

Definition noResults : counters :=
  [("orange", (0, 0)); ("yuzu", (0, 0)); ("pop", (0, 0)); ("mixed", (0, 0));
   ("tomato", (0, 0))]%nat.

(** [results[category].processed += p; results[category].skipped += s];
    [None] is the TypeError of a category that [results] does not hold. *)
Fixpoint addResult (category : string) (p s : nat) (results : counters)
  : option counters :=
  match results with
  | [] => None
  | (c, (p0, s0)) :: results' =>
      if String.eqb c category
      then Some ((c, (p0 + p, s0 + s))%nat :: results')
      else
        match addResult category p s results' with
        | Some r => Some ((c, (p0, s0)) :: r)
        | None => None
        end
  end.

(** The state of the loop over the sheets. *)
Record run : Type := {
  results : counters;
  database : Db.database
}.

(** The body of the loop over [workbook.SheetNames]; a sheet is its name
    and its rows, and [clock sheetName] is the clock while the sheet is
    read. *)
Definition importSheet (dryRun : bool) (clock : string -> nat -> string)
  (st : option run) (sheet : string * list Excel.sheetRow) : option run :=
  match st with
  | None => None
  | Some st =>
      match detectCategory (fst sheet) with
      | None => Some st
      | Some category =>
          let result :=
            Migration.parseAndMigrateSheet (snd sheet) category dryRun
              (clock (fst sheet)) (database st) in
          match addResult category (Migration.processed result)
                  (Migration.skipped result) (results st) with
          | Some r =>
              Some {| results := r; database := Migration.db result |}
          | None => None
          end
      end
  end.

(** [main], once the workbook is read and the database answers. *)
Definition main (sheets : list (string * list Excel.sheetRow))
  (dryRun : bool) (clock : string -> nat -> string) (db0 : Db.database)
  : option run :=
  fold_left (importSheet dryRun clock) sheets
    (Some {| results := noResults; database := db0 |}).

(** [totalProcessed] of the summary. *)
Definition totalProcessed (results : counters) : nat :=
  fold_left
    (fun total (entry : string * (nat * nat)) =>
       let '(p, s) := snd entry in
       if (0 <? p)%nat || (0 <? s)%nat then (total + p)%nat else total)
    results 0%nat.

End ExcelImport.

(** *** The migration of the records file (JSON to MySQL script) *)

Module JsonMigration.

(** [daily_records.json] as parsed; an array may be absent. *)
Record recordsFile : Type := {
  orange : option (list DailyRecord);
  yuzu : option (list DailyRecord);
  pop : option (list DailyRecord)
}.


(** [records.yuzu || records.pop || []] *)
Definition yuzuRecords (records : recordsFile) : list DailyRecord :=
  match yuzu records with
  | Some l => l
  | None => match pop records with Some l => l | None => [] end
  end.


End JsonMigration.


(** A small workbook and a small records file for the examples. *)
Definition sampleWorkbook : list (string * list Excel.sheetRow) :=
  [("Orange 2025", sampleSheet); ("Notes", []); ("ส้ม (2)", sampleSheet)].


(** The database holds the date of every record the data rows of a sheet
    yield, under the category [c]. *)
Definition holdsSheet (db : Db.database) (data : list Excel.sheetRow)
  (c : string) : Prop :=
  forall r now rec,
    In r (dataRows data) ->
    Migration.buildRow (Migration.locateHeader data) c now r
    = Migration.Built rec ->
    Db.isDateRecorded db (date rec) c = true.

(** What the import says of a row it has added to the database. *)
Definition addedBy (db0 : Db.database) (data : list Excel.sheetRow)
  (category : string) (x : Db.dbRow) : Prop :=
  Db.rowCategory x = category
  /\ Db.toMySQLDate (date (Db.rowRecord x)) = Some (Db.rowDate x)
  /\ Db.isDateRecorded db0 (date (Db.rowRecord x)) category = false
  /\ exists r, In r (dataRows data)
               /\ builds (Migration.locateHeader data) category r
                    (Db.rowRecord x).








(** * Properties *)

(** ** Sanity checks of the primitives *)

Example trim_ex : JS.trim "  FC33 x  " = "FC33 x".
Proof. reflexivity. Qed.

Example parseFloat_ex1 : JS.parseFloat "1234" = JS.Fin 1234 0.
Proof. reflexivity. Qed.

Example parseFloat_ex2 : JS.parseFloat " -12.60e1x" = JS.Fin (-126) 0.
Proof. reflexivity. Qed.

Example parseFloat_ex3 : JS.parseFloat "12.6" = JS.Fin 126 1.
Proof. reflexivity. Qed.

Example parseFloat_ex4 : JS.parseFloat "abc" = JS.NaN /\ JS.parseFloat "." = JS.NaN.
Proof. split; reflexivity. Qed.

Example numberToString_ex :
  JS.numberToString (JS.Fin 45948 0) = "45948"
  /\ JS.numberToString (JS.Fin (-126) 1) = "-12.6"
  /\ JS.numberToString (JS.Fin 5 2) = "0.05".
Proof. repeat split; reflexivity. Qed.

(** ** Sanity checks of the two pipelines *)

Example sample_run :
  exists results,
    fst (recordDailyData [sampleTable] "" noon noRecords)
    = Success "18/10/2025" results
    /\ map (fun cr : category * DailyRecord =>
              (fst cr, totalSum (snd cr),
               getTotal (cdcTotals (snd cr)) "หาดใหญ่",
               getTotal (cdcTotals (snd cr)) "ภูเก็ต",
               fc33HadyaiSum (snd cr)))
         results
       = [(orange, JS.ofZ 22, Some (JS.ofZ 10), Some (JS.ofZ 5), JS.ofZ 10);
          (yuzu, JS.ofZ 7, Some (JS.ofZ 4), Some (JS.ofZ 1), JS.ofZ 10)].
Proof. eexists. split; reflexivity. Qed.

Example sample_import :
  let p := Migration.parseAndMigrateSheet sampleSheet "orange" false
             (fun _ => "2025-10-20T08:00:00.000Z") [] in
  Migration.processed p = 1%nat /\ Migration.skipped p = 1%nat
  /\ map (fun r => (date r, totalSum r, getTotal (cdcTotals r) "ชลบุรี",
                    fc33HadyaiSum r))
       (Migration.records p)
     = [("18/10/2025", JS.ofZ 1023, Some (JS.ofZ 1004), JS.ofZ 13)]
  /\ map (fun x => (Db.rowDate x, Db.rowCategory x)) (Migration.db p)
     = [("2025-10-18", "orange")].
Proof. repeat split. Qed.

(** ** Fill-down *)

Example fillDown_ex1 :
  column 0 (preprocessTable [["A"]; [""]; [""]; ["B"]; [""]])
  = ["A"; "A"; "A"; "B"; "B"].
Proof. reflexivity. Qed.

Example fillDown_ex2 :
  column 0 (preprocessTable [[""]; [""]; ["A"]]) = [""; ""; "A"].
Proof. reflexivity. Qed.

Example fillDown_blank :
  column 0 (preprocessTable [[" A"]; [""]; [" "]]) = [" A"; "A"; " "].
Proof. reflexivity. Qed.

Lemma hasText_truthy (s : string) : hasText s = true -> JS.truthy s = true.
Proof.
  destruct s; [discriminate | reflexivity].
Qed.

Lemma not_truthy_empty (s : string) : JS.truthy s = false -> s = "".
Proof.
  destruct s; [reflexivity | discriminate].
Qed.

Lemma cell_setCell_same (c : nat) (v : string) (r : row) :
  cell (setCell c v r) c = v.
Proof.
  unfold cell. revert r.
  induction c as [|c IH]; intros [|x r]; simpl; auto.
Qed.

Lemma cell_setCell_other (c c' : nat) (v : string) (r : row) :
  c <> c' -> cell (setCell c v r) c' = cell r c'.
Proof.
  unfold cell. revert c' r.
  induction c as [|c IH]; intros [|c'] [|x r] Hne; simpl; auto;
    try congruence.
  - destruct c'; reflexivity.
  - rewrite IH by congruence. destruct c'; reflexivity.
Qed.

Lemma column_fillDown (c : nat) (t : table) (last : option string) :
  column c (fillDown c last t) = fillColumn last (column c t).
Proof.
  revert last. induction t as [|r t IH]; intros last; simpl; [reflexivity|].
  destruct (JS.truthy (cell r c)) eqn:Htr; simpl.
  - unfold hasText. now rewrite IH.
  - destruct last as [v|]; simpl; rewrite IH;
      [rewrite cell_setCell_same|]; reflexivity.
Qed.

Lemma column_fillDown_other (c c' : nat) (t : table) (last : option string) :
  c <> c' -> column c' (fillDown c last t) = column c' t.
Proof.
  intros Hne. revert last.
  induction t as [|r t IH]; intros last; simpl; [reflexivity|].
  destruct (JS.truthy (cell r c)); simpl.
  - now rewrite IH.
  - destruct last as [v|]; simpl; rewrite IH;
      [rewrite cell_setCell_other by assumption|]; reflexivity.
Qed.

Lemma length_fillColumn (col : list string) (last : option string) :
  List.length (fillColumn last col) = List.length col.
Proof.
  revert last. induction col as [|s col IH]; intros last; simpl; auto.
  destruct (JS.truthy s); simpl; now rewrite IH.
Qed.

(** The loop on one column, cell by cell: an empty cell takes the carried
    value, a cell with text is kept. *)
Lemma fillColumn_nth (col : list string) :
  forall (last : option string) (i : nat),
    (i < List.length col)%nat ->
    (nth i col "" = "" ->
     nth i (fillColumn last col) ""
     = match carry last (firstn i col) with Some v => v | None => "" end)
    /\ (hasText (nth i col "") = true ->
        nth i (fillColumn last col) "" = nth i col "").
Proof.
  induction col as [|s col IH]; intros last i Hi; simpl in Hi; [lia|].
  destruct i as [|i].
  - simpl. split.
    + intros ->. simpl. destruct last; reflexivity.
    + intros H. now rewrite (hasText_truthy _ H).
  - assert (Hi' : (i < List.length col)%nat) by lia.
    simpl firstn. simpl nth at 1 3 5. unfold carry. simpl fold_left.
    fold (carry (if hasText s then Some (JS.trim s) else last) (firstn i col)).
    simpl fillColumn.
    destruct (JS.truthy s) eqn:Htr.
    + simpl nth. apply IH; assumption.
    + assert (Hno : hasText s = false).
      { destruct (hasText s) eqn:E; [|reflexivity].
        apply hasText_truthy in E. congruence. }
      rewrite Hno. simpl nth. apply IH; assumption.
Qed.

Lemma find_snoc {A : Type} (f : A -> bool) (l : list A) (x : A) :
  find f (l ++ [x])%list
  = match find f l with
    | Some y => Some y
    | None => if f x then Some x else None
    end.
Proof.
  induction l as [|y l IH]; simpl; [reflexivity|].
  destruct (f y); [reflexivity | exact IH].
Qed.

(** The carried value is the trimmed text of the nearest cell with text. *)
Lemma carry_nearest (cells : list string) (last : option string) :
  carry last cells
  = match find hasText (rev cells) with
    | Some s => Some (JS.trim s)
    | None => last
    end.
Proof.
  revert last. induction cells as [|s cells IH]; intros last;
    [reflexivity|].
  unfold carry. simpl fold_left.
  fold (carry (if hasText s then Some (JS.trim s) else last) cells).
  rewrite IH. simpl rev. rewrite find_snoc.
  destruct (find hasText (rev cells)); [reflexivity|].
  destruct (hasText s); reflexivity.
Qed.

Lemma column_preprocessTable (c : nat) (t : table) :
  c = 0%nat \/ c = 1%nat ->
  column c (preprocessTable t) = fillColumn None (column c t).
Proof.
  intros Hc. destruct t as [|r t]; [reflexivity|].
  unfold preprocessTable.
  destruct Hc as [-> | ->].
  - rewrite column_fillDown_other by discriminate. apply column_fillDown.
  - rewrite column_fillDown.
    now rewrite column_fillDown_other by discriminate.
Qed.

(** C6, as the code has it.  In each of the two label columns (0 and 1) a
    cell that is the empty string (or absent) takes the trimmed text of the
    nearest cell above it whose trimmed text is not empty, and stays empty
    when there is none; every cell that is not the empty string is left as
    it is (a cell of white space only included: it is neither refilled nor
    carried down). *)
Theorem fill_down_label_columns (t : table) (c i : nat) :
  c = 0%nat \/ c = 1%nat ->
  (i < List.length t)%nat ->
  (nth i (column c t) "" = "" ->
   nth i (column c (preprocessTable t)) ""
   = match nearestAbove (column c t) i with Some v => v | None => "" end)
  /\ (nth i (column c t) "" <> "" ->
      nth i (column c (preprocessTable t)) "" = nth i (column c t) "")
  /\ List.length (preprocessTable t) = List.length t.
Proof.
  intros Hc Hi.
  assert (Hlen : (i < List.length (column c t))%nat)
    by (unfold column; now rewrite length_map).
  rewrite (column_preprocessTable c t Hc).
  split; [|split].
  - intros Hempty.
    destruct (fillColumn_nth (column c t) None i Hlen) as [H _].
    rewrite (H Hempty), carry_nearest. unfold nearestAbove.
    destruct (find hasText (rev (firstn i (column c t)))); reflexivity.
  - intros Hfull.
    destruct (JS.truthy (nth i (column c t) "")) eqn:Htr.
    + clear Hfull Hi. revert i Hlen Htr.
      generalize (@None string) as last.
      induction (column c t) as [|s col IH]; intros last i Hlen Htr;
        simpl in Hlen; [lia|].
      destruct i as [|i]; simpl in *.
      * now rewrite Htr.
      * destruct (JS.truthy s); simpl; apply IH; auto; lia.
    + apply not_truthy_empty in Htr. contradiction.
  - pose proof (f_equal (@List.length string) (column_preprocessTable c t Hc))
      as E.
    rewrite length_fillColumn in E. unfold column in E.
    now rewrite !length_map in E.
Qed.

Lemma fill_down_label_columns_witness :
  nth 2 (column 1 (preprocessTable [["a"; " B "]; ["c"; "  "]; ["d"; ""]])) ""
  = "B".
Proof.
  destruct (fill_down_label_columns
              [["a"; " B "]; ["c"; "  "]; ["d"; ""]] 1 2
              (or_intror eq_refl) (le_n 3)) as [H _].
  exact (H eq_refl).
Defined.

(** C6, as the specification states it, fails: the cell of white space in
    the third row is not refilled, and the second row receives the trimmed
    text and not the value of the cell above it. *)
Lemma fill_down_spec_fails :
  let col := [" A"; ""; " "] in
  column 0 (preprocessTable [[" A"]; [""]; [" "]]) = [" A"; "A"; " "]
  /\ fillDownSpec None col = [" A"; " A"; " A"]
  /\ column 0 (preprocessTable (map (fun s => [s]) col))
     <> fillDownSpec None col.
Proof.
  repeat split; try reflexivity. discriminate.
Qed.

(** The two columns of the specification's example. *)
Lemma fill_down_examples (A B : string) :
  hasText A = true -> hasText B = true ->
  JS.trim A = A -> JS.trim B = B ->
  column 0 (preprocessTable [[A]; [""]; [""]; [B]; [""]]) = [A; A; A; B; B]
  /\ column 0 (preprocessTable [[""]; [""]; [A]]) = [""; ""; A].
Proof.
  intros HA HB EA EB.
  rewrite !column_preprocessTable by (left; reflexivity).
  pose proof (hasText_truthy A HA) as TA.
  pose proof (hasText_truthy B HB) as TB.
  destruct A as [|a A]; [discriminate|].
  destruct B as [|b B]; [discriminate|].
  unfold column. cbn -[hasText JS.trim].
  rewrite HA, HB, EA, EB. split; reflexivity.
Qed.

(** ** Numbers *)

Lemma lowest_normal (m : Z) (k : nat) : normal (JS.lowest m k).
Proof.
  revert m. induction k as [|k IH]; intros m; simpl; [reflexivity|].
  destruct (m mod 10 =? 0)%Z eqn:E; [apply IH|].
  simpl. now rewrite E.
Qed.

Lemma add_normal (a b : JS.number) : normal (JS.add a b).
Proof.
  destruct a as [| s | m k], b as [| u | n j]; simpl; trivial.
  - destruct (Bool.eqb s u); exact I.
  - apply lowest_normal.
Qed.

Lemma add_zero_r (x : JS.number) : normal x -> JS.add x JS.zero = x.
Proof.
  destruct x as [| s | m k]; simpl; trivial.
  intros H. rewrite Nat.max_0_r, Nat.sub_diag.
  change (JS.pow10 0) with 1%Z.
  match goal with
  | |- JS.lowest ?e _ = _ => replace e with m by lia
  end.
  exact H.
Qed.


(** ** The record pipeline *)

(** *** The shape of a run *)

Lemma recordDailyData_cons (t : table) (rest : list table) (text : string)
  (clock : category -> string) (records : Records) :
  recordDailyData (t :: rest) text clock records
  = if validationPasses t then
      match findDate text t with
      | None => (Failure reasonNoDate, records)
      | Some d =>
          let '(records', results) :=
            fold_left (recordCategory t d clock (hadyaiSumOf t))
              [orange; yuzu] (records, []) in
          (Success d results, records')
      end
    else (Failure reasonValidation, records).
Proof.
  unfold recordDailyData, validationPasses.
  destruct (JS.isZero (hadyaiSumOf t) && JS.isZero (phuketSumOf t));
    reflexivity.
Qed.

Lemma isDateRecorded_push (records : Records) (c : category) (r : DailyRecord) :
  isDateRecorded (pushRecord records c r) (date r) c = true.
Proof.
  unfold isDateRecorded.
  destruct c; simpl; rewrite existsb_app; simpl;
    rewrite String.eqb_refl; apply orb_true_iff; right; reflexivity.
Qed.

Lemma isDateRecorded_push_other (records : Records) (c c' : category)
  (r : DailyRecord) (d : string) :
  c <> c' ->
  isDateRecorded (pushRecord records c r) d c' = isDateRecorded records d c'.
Proof.
  destruct c, c'; intros H; try congruence; reflexivity.
Qed.

(** The loop over the two categories, case by case. *)
Lemma categories_loop (t : table) (d : string) (clock : category -> string)
  (h : JS.number) (records : Records) :
  let ro := dailyRecord t d (clock orange) h orange in
  let ry := dailyRecord t d (clock yuzu) h yuzu in
  fold_left (recordCategory t d clock h) [orange; yuzu] (records, [])
  = match isDateRecorded records d orange, isDateRecorded records d yuzu with
    | true, true => (records, [])
    | true, false => (pushRecord records yuzu ry, [(yuzu, ry)])
    | false, true => (pushRecord records orange ro, [(orange, ro)])
    | false, false =>
        (pushRecord (pushRecord records orange ro) yuzu ry,
         [(orange, ro); (yuzu, ry)])
    end.
Proof.
  intros ro ry. cbn [fold_left].
  unfold recordCategory at 2.
  destruct (isDateRecorded records d orange) eqn:Ho;
    unfold recordCategory.
  - destruct (isDateRecorded records d yuzu); reflexivity.
  - rewrite isDateRecorded_push_other by discriminate.
    destruct (isDateRecorded records d yuzu); reflexivity.
Qed.

Lemma isDateRecorded_push_mono (records : Records) (c c' : category)
  (r : DailyRecord) (d : string) :
  isDateRecorded records d c' = true ->
  isDateRecorded (pushRecord records c r) d c' = true.
Proof.
  unfold isDateRecorded. intros H.
  destruct c, c'; simpl in *; try exact H; rewrite existsb_app, H;
    reflexivity.
Qed.

Lemma reasons_differ :
  reasonValidation <> reasonNoDate /\ reasonNoTable <> reasonNoDate
  /\ reasonNoTable <> reasonValidation.
Proof.
  repeat split; discriminate.
Qed.

(** *** Running twice (C1) *)

Lemma run_when_recorded (t : table) (rest : list table) (text d : string)
  (clock : category -> string) (records : Records) :
  validationPasses t = true ->
  findDate text t = Some d ->
  isDateRecorded records d orange = true ->
  isDateRecorded records d yuzu = true ->
  recordDailyData (t :: rest) text clock records = (Success d [], records).
Proof.
  intros Hv Hd Ho Hy.
  now rewrite recordDailyData_cons, Hv, Hd, categories_loop, Ho, Hy.
Qed.

Lemma countDate_absent (d : string) (l : list DailyRecord) :
  existsb (fun r => String.eqb (date r) d) l = false -> countDate d l = 0%nat.
Proof.
  unfold countDate. induction l as [|r l IH]; simpl; [reflexivity|].
  destruct (String.eqb (date r) d); simpl; [discriminate | exact IH].
Qed.

Lemma countDate_push (records : Records) (c : category) (r : DailyRecord) :
  isDateRecorded records (date r) c = false ->
  countDate (date r) (recordsOf (pushRecord records c r) c) = 1%nat.
Proof.
  intros H. apply countDate_absent in H. unfold countDate in *.
  destruct c; simpl in *; rewrite filter_app, length_app, H; simpl;
    rewrite String.eqb_refl; reflexivity.
Qed.

(** The conjuncts of the statement below, once the first run has
    succeeded with the date at hand. *)
Ltac open_run :=
  split; [reflexivity|]; split; [reflexivity|];
  let E := fresh "E" in
  intros ? ? E; injection E as <- _;
  split; [reflexivity|]; intros c; split.

(** C1.  Whatever the table, the text and the records file, a second run
    on the same input finds each (date, category) recorded, adds nothing
    and leaves the file as the first run left it; it ends as a success
    with no new record, not as a failure.  After the two runs a category
    that had no record of the date holds exactly one, and a category that
    had one is untouched.  The two runs may read different clocks. *)
Theorem record_twice_keeps_one (tableData : list table) (text : string)
  (clock1 clock2 : category -> string) (records : Records) :
  let first := recordDailyData tableData text clock1 records in
  let second := recordDailyData tableData text clock2 (snd first) in
  snd second = snd first
  /\ newRecords second = []
  /\ (forall d results,
        fst first = Success d results ->
        fst second = Success d []
        /\ forall c,
             (isDateRecorded records d c = false ->
              countDate d (recordsOf (snd second) c) = 1%nat)
             /\ (isDateRecorded records d c = true ->
                 recordsOf (snd second) c = recordsOf records c)).
Proof.
  destruct tableData as [|t rest].
  { simpl. repeat split; try reflexivity; congruence. }
  cbv zeta. rewrite (recordDailyData_cons t rest text clock1 records).
  destruct (validationPasses t) eqn:Hv.
  2:{ cbn [fst snd]. rewrite recordDailyData_cons, Hv.
      repeat split; try reflexivity; congruence. }
  destruct (findDate text t) as [d|] eqn:Hd.
  2:{ cbn [fst snd]. rewrite recordDailyData_cons, Hv, Hd.
      repeat split; try reflexivity; congruence. }
  rewrite categories_loop.
  set (ro := dailyRecord t d (clock1 orange) (hadyaiSumOf t) orange).
  set (ry := dailyRecord t d (clock1 yuzu) (hadyaiSumOf t) yuzu).
  assert (Dro : date ro = d) by reflexivity.
  assert (Dry : date ry = d) by reflexivity.
  destruct (isDateRecorded records d orange) eqn:Ho;
    destruct (isDateRecorded records d yuzu) eqn:Hy;
    cbn [fst snd].
  - rewrite (run_when_recorded t rest text d clock2 records Hv Hd Ho Hy).
    open_run; destruct c; intros; cbn [snd]; congruence.
  - assert (Hy' : isDateRecorded (pushRecord records yuzu ry) d yuzu = true)
      by (rewrite <- Dry at 1; apply isDateRecorded_push).
    assert (Ho' : isDateRecorded (pushRecord records yuzu ry) d orange = true)
      by (now apply isDateRecorded_push_mono).
    rewrite (run_when_recorded t rest text d clock2 _ Hv Hd Ho' Hy').
    open_run; destruct c; try congruence; try reflexivity.
    intros _. cbn [snd]. rewrite <- Dry at 1.
    apply countDate_push. now rewrite Dry.
  - assert (Ho' : isDateRecorded (pushRecord records orange ro) d orange = true)
      by (rewrite <- Dro at 1; apply isDateRecorded_push).
    assert (Hy' : isDateRecorded (pushRecord records orange ro) d yuzu = true)
      by (now apply isDateRecorded_push_mono).
    rewrite (run_when_recorded t rest text d clock2 _ Hv Hd Ho' Hy').
    open_run; destruct c; try congruence; try reflexivity.
    intros _. cbn [snd]. rewrite <- Dro at 1.
    apply countDate_push. now rewrite Dro.
  - assert (Ho1 : isDateRecorded (pushRecord records orange ro) d orange = true)
      by (rewrite <- Dro at 1; apply isDateRecorded_push).
    assert (Hy' : isDateRecorded
                    (pushRecord (pushRecord records orange ro) yuzu ry) d yuzu
                  = true)
      by (rewrite <- Dry at 1; apply isDateRecorded_push).
    assert (Ho' : isDateRecorded
                    (pushRecord (pushRecord records orange ro) yuzu ry) d orange
                  = true)
      by (now apply isDateRecorded_push_mono).
    rewrite (run_when_recorded t rest text d clock2 _ Hv Hd Ho' Hy').
    open_run; destruct c; try congruence; intros _; cbn [snd].
    + change (recordsOf (pushRecord (pushRecord records orange ro) yuzu ry)
                orange)
        with (recordsOf (pushRecord records orange ro) orange).
      rewrite <- Dro at 1. apply countDate_push. now rewrite Dro.
    + change (recordsOf (pushRecord (pushRecord records orange ro) yuzu ry)
                yuzu)
        with (recordsOf (pushRecord records yuzu ry) yuzu).
      rewrite <- Dry at 1. apply countDate_push. now rewrite Dry.
Qed.

Lemma record_twice_keeps_one_witness :
  countDate "18/10/2025"
    (recordsOf
       (snd (recordDailyData [sampleTable] "" noon
               (snd (recordDailyData [sampleTable] "" noon noRecords))))
       yuzu)
  = 1%nat.
Proof.
  pose proof (record_twice_keeps_one [sampleTable] "" noon noon noRecords)
    as [_ [_ H]].
  destruct (H "18/10/2025" _ eq_refl) as [_ Hc].
  exact (proj1 (Hc yuzu) eq_refl).
Defined.

(** *** The stored validation value (C10) *)

Lemma hadyaiSum_fold (t : table) (acc : JS.number) :
  normal acc ->
  fold_left hadyaiStep t acc
  = fold_left JS.add (map c2Value (filter isHadyaiRow t)) acc.
Proof.
  revert acc. induction t as [|r t IH]; intros acc Hacc; [reflexivity|].
  cbn [fold_left filter]. unfold hadyaiStep at 2.
  destruct (List.length r <? 3)%nat eqn:Hlen.
  - destruct (isHadyaiRow r); [|now apply IH].
    cbn [map fold_left].
    assert (Hz : c2Value r = JS.zero).
    { unfold c2Value, cell. apply Nat.ltb_lt in Hlen.
      rewrite nth_overflow by lia. reflexivity. }
    rewrite Hz, add_zero_r by assumption. now apply IH.
  - destruct (isHadyaiRow r); [|now apply IH].
    cbn [map fold_left]. apply IH, add_normal.
Qed.

(** The records of a successful run, spelled out. *)
Lemma results_of_run (t : table) (rest : list table) (text : string)
  (clock : category -> string) (records : Records) (d : string)
  (results : list (category * DailyRecord)) (c : category) (r : DailyRecord) :
  fst (recordDailyData (t :: rest) text clock records) = Success d results ->
  In (c, r) results ->
  validationPasses t = true /\ findDate text t = Some d
  /\ isDateRecorded records d c = false
  /\ r = dailyRecord t d (clock c) (hadyaiSumOf t) c.
Proof.
  rewrite recordDailyData_cons.
  destruct (validationPasses t); [|discriminate].
  destruct (findDate text t) as [d'|]; [|discriminate].
  rewrite categories_loop.
  destruct (isDateRecorded records d' orange) eqn:Ho;
    destruct (isDateRecorded records d' yuzu) eqn:Hy;
    cbn [fst]; intros E; injection E as <- <-; cbn [In];
    intros H; repeat destruct H as [H | H]; try contradiction;
    injection H as <- <-; auto.
Qed.

(** C10.  Every record a run creates, for yuzu as for orange, stores the
    same [fc33HadyaiSum]: the sum, over the rows of the first table whose
    C0 names both FC33 and หาดใหญ่, of the parsed C2 values.  It does not
    depend on the category or on the category's own column. *)
Theorem fc33_sum_shared (tableData : list table) (text : string)
  (clock : category -> string) (records : Records) (d : string)
  (results : list (category * DailyRecord)) (c : category) (r : DailyRecord) :
  fst (recordDailyData tableData text clock records) = Success d results ->
  In (c, r) results ->
  fc33HadyaiSum r = hadyaiC2Sum (hd [] tableData).
Proof.
  destruct tableData as [|t rest]; [discriminate|].
  intros E Hin.
  destruct (results_of_run _ _ _ _ _ _ _ _ _ E Hin) as (_ & _ & _ & ->).
  cbn [fc33HadyaiSum dailyRecord hd].
  apply hadyaiSum_fold. reflexivity.
Qed.

Lemma fc33_sum_shared_witness :
  let r := dailyRecord sampleTable "18/10/2025" (noon yuzu)
             (hadyaiSumOf sampleTable) yuzu in
  In (yuzu, r) (newRecords (recordDailyData [sampleTable] "" noon noRecords))
  /\ fc33HadyaiSum r = JS.Fin 10 0.
Proof.
  split.
  - right; left; reflexivity.
  - exact (fc33_sum_shared [sampleTable] "" noon noRecords "18/10/2025"
             _ yuzu _ eq_refl (or_intror (or_introl eq_refl))).
Defined.

(** *** The order of the rejections (C4) *)

(** C4, as the specification states it, fails: a table with no date
    anywhere, and whose signal sums are zero, is rejected for the
    validation, not for the missing date. *)
Lemma no_date_is_not_first :
  let t := [["FC33 หาดใหญ่"; ""; "0"; "9"]] in
  findDate "" t = None
  /\ fst (recordDailyData [t] "" noon noRecords) = Failure reasonValidation
  /\ fst (recordDailyData [t] "" noon noRecords) <> Failure reasonNoDate.
Proof.
  repeat split; try reflexivity. discriminate.
Qed.

(** C4, as the code has it.  The validation of the signal sums comes
    first: a table that fails it is rejected for that reason whether or
    not a date can be found.  The missing date is the reason exactly when
    the validation passes and neither the text nor the table holds a
    date. *)
Theorem validation_before_date (t : table) (rest : list table)
  (text : string) (clock : category -> string) (records : Records) :
  (validationPasses t = false ->
   recordDailyData (t :: rest) text clock records
   = (Failure reasonValidation, records))
  /\ (fst (recordDailyData (t :: rest) text clock records)
      = Failure reasonNoDate
      <-> validationPasses t = true /\ findDate text t = None).
Proof.
  rewrite recordDailyData_cons.
  destruct (validationPasses t) eqn:Hv.
  - split; [discriminate|].
    destruct (findDate text t) as [d|] eqn:Hd.
    + destruct (fold_left _ _ _) as [records' results]. cbn [fst].
      split; [discriminate | intros [_ H]; discriminate].
    + cbn [fst]. split; auto.
  - split; [reflexivity|]. cbn [fst].
    split; [intros H; injection H; discriminate | intros [H _]; discriminate].
Qed.

Lemma validation_before_date_witness :
  recordDailyData [[["FC33 หาดใหญ่"; ""; "0"; "9"]]] "" noon noRecords
  = (Failure reasonValidation, noRecords)
  /\ fst (recordDailyData [[["FC33 หาดใหญ่"; ""; "3"; "9"]]] "" noon noRecords)
     = Failure reasonNoDate.
Proof.
  split.
  - exact (proj1 (validation_before_date
                    [["FC33 หาดใหญ่"; ""; "0"; "9"]] [] "" noon noRecords)
             eq_refl).
  - exact (proj2 (proj2 (validation_before_date
                           [["FC33 หาดใหญ่"; ""; "3"; "9"]] [] "" noon
                           noRecords))
             (conj eq_refl eq_refl)).
Defined.

(** *** The validation and what is persisted (C5) *)


(** What a run appends to the file is what it announces. *)
Lemma stored_is_announced (tableData : list table) (text : string)
  (clock : category -> string) (records : Records) (c : category) :
  let run := recordDailyData tableData text clock records in
  recordsOf (snd run) c
  = (recordsOf records c ++ ofCategory c (newRecords run))%list.
Proof.
  destruct tableData as [|t rest]; cbv zeta.
  { simpl. now rewrite app_nil_r. }
  rewrite recordDailyData_cons. unfold newRecords.
  destruct (validationPasses t); [|simpl; now rewrite app_nil_r].
  destruct (findDate text t) as [d|]; [|simpl; now rewrite app_nil_r].
  rewrite categories_loop.
  destruct (isDateRecorded records d orange);
    destruct (isDateRecorded records d yuzu);
    destruct c; simpl; rewrite ?app_nil_r; reflexivity.
Qed.



(** *** The fall-back grand total (C2) *)







(** *** The label column of a location (C7) *)










(** ** The Excel import script *)

(** *** Quantities (C9) *)

Lemma pow10_pos (k : nat) : (0 < JS.pow10 k)%Z.
Proof.
  unfold JS.pow10. apply Z.pow_pos_nonneg; lia.
Qed.






(** *** Dates (C8) *)

Lemma zrange_check (P : Z -> bool) (lo : Z) (n : nat) :
  forallb P (zrange lo n) = true ->
  forall z, (lo <= z < lo + Z.of_nat n)%Z -> P z = true.
Proof.
  intros H z Hz. rewrite forallb_forall in H. apply H.
  unfold zrange. apply in_map_iff.
  exists (Z.to_nat (z - lo)). split; [lia|].
  apply in_seq. lia.
Qed.

Lemma two_digits_below_100 (d : Z) :
  (0 <= d < 100)%Z -> isTwoDigits (JS.padStart2 (JS.natToString d)) = true.
Proof.
  apply (zrange_check
           (fun d => isTwoDigits (JS.padStart2 (JS.natToString d))) 0
           (Z.to_nat 100)).
  vm_compute. reflexivity.
Qed.

Lemma four_digits_year (y : Z) :
  (1000 <= y < 10000)%Z -> isFourDigits (JS.natToString y) = true.
Proof.
  apply (zrange_check (fun y => isFourDigits (JS.natToString y)) 1000
           (Z.to_nat 9000)).
  vm_compute. reflexivity.
Qed.

Lemma canonical_join (a b y : string) :
  isTwoDigits a = true -> isTwoDigits b = true -> isFourDigits y = true ->
  canonicalDate (a ++ "/" ++ b ++ "/" ++ y) = true.
Proof.
  destruct a as [|a1 [|a2 [|? ?]]]; try discriminate.
  destruct b as [|b1 [|b2 [|? ?]]]; try discriminate.
  simpl. intros Ha Hb Hy.
  apply andb_true_iff in Ha as [-> ->].
  apply andb_true_iff in Hb as [-> ->].
  now rewrite Hy.
Qed.

(** The civil date of a day between 1 January 1900 and 31 December 9999. *)
Lemma civilFromDays_bounds (n : Z) :
  (-25567 <= n <= 2932896)%Z ->
  let '(y, m, d) := Excel.civilFromDays n in
  (1900 <= y <= 9999 /\ 1 <= m <= 12 /\ 1 <= d <= 31)%Z.
Proof.
  intros H. unfold Excel.civilFromDays.
  set (z := (n + 719468)%Z).
  set (era := (z / 146097)%Z).
  set (doe := (z - era * 146097)%Z).
  set (yoe := ((doe - doe / 1460 + doe / 36524 - doe / 146096) / 365)%Z).
  set (doy := (doe - (365 * yoe + yoe / 4 - yoe / 100))%Z).
  set (mp := ((5 * doy + 2) / 153)%Z).
  assert (Hdoe : (0 <= doe <= 146096)%Z)
    by (unfold doe, era, z; Z.to_euclidean_division_equations; lia).
  assert (Hera : (4 <= era <= 24)%Z)
    by (unfold era, z; Z.to_euclidean_division_equations; lia).
  assert (Hyoe : (0 <= yoe <= 399)%Z)
    by (unfold yoe; Z.to_euclidean_division_equations; lia).
  assert (Hdoy : (0 <= doy <= 365)%Z)
    by (unfold doy, yoe; Z.to_euclidean_division_equations; lia).
  assert (Hmp : (0 <= mp <= 11)%Z)
    by (unfold mp; Z.to_euclidean_division_equations; lia).
  assert (Hd : (1 <= doy - (153 * mp + 2) / 5 + 1 <= 31)%Z)
    by (unfold mp; Z.to_euclidean_division_equations; lia).
  destruct (mp <? 10)%Z eqn:E1.
  - apply Z.ltb_lt in E1.
    destruct (mp + 3 <=? 2)%Z eqn:E2; [apply Z.leb_le in E2; lia|].
    split; [|split]; try lia.
    clear E2 Hd. unfold mp, doy, yoe, doe, era, z in *.
    Z.to_euclidean_division_equations; lia.
  - apply Z.ltb_ge in E1.
    destruct (mp - 9 <=? 2)%Z eqn:E2; [|apply Z.leb_gt in E2; lia].
    split; [|split]; try lia.
    clear E2 Hd. unfold mp, doy, yoe, doe, era, z in *.
    Z.to_euclidean_division_equations; lia.
Qed.

Lemma parse_date_code_bounds (x : JS.number) (y m d : Z) :
  Excel.parse_date_code x = Some (y, m, d) ->
  (1900 <= y <= 9999 /\ 1 <= m <= 12 /\ 0 <= d <= 31)%Z.
Proof.
  destruct x as [| s | n k]; try discriminate.
  unfold Excel.parse_date_code.
  pose proof (pow10_pos k) as Hp. set (unit := JS.pow10 k) in *.
  destruct ((n <? 0) || (2958465 * unit <? n))%Z eqn:Hrange; [discriminate|].
  apply orb_false_iff in Hrange as [Hlo Hhi].
  apply Z.ltb_ge in Hlo, Hhi.
  set (whole := (n / unit)%Z).
  set (seconds := (86400 * (n mod unit))%Z).
  set (time := (seconds / unit)%Z).
  assert (Hw : (0 <= whole <= 2958465)%Z).
  { unfold whole. split; [apply Z.div_pos; lia|].
    apply Z.div_le_upper_bound; lia. }
  assert (Hbump : (time + 1 = 86400 -> whole <= 2958464)%Z).
  { intros Ht.
    destruct (Z.eq_dec whole 2958465) as [E|]; [|lia].
    assert (Hr : (n mod unit = 0)%Z).
    { pose proof (Z.div_mod n unit ltac:(lia)) as Hdm.
      pose proof (Z.mod_pos_bound n unit Hp) as Hmod.
      fold whole in Hdm. rewrite E in Hdm. lia. }
    unfold time, seconds in Ht. rewrite Hr in Ht.
    rewrite Z.mul_0_r, Z.div_0_l in Ht by lia. lia. }
  set (serial := (if (9999 * unit <? 10000 * (seconds mod unit))%Z
                     && (time + 1 =? 86400)%Z
                  then whole + 1 else whole)%Z).
  assert (Hs : (0 <= serial <= 2958465)%Z).
  { unfold serial.
    destruct ((9999 * unit <? 10000 * (seconds mod unit))%Z
              && (time + 1 =? 86400)%Z) eqn:E; [|lia].
    apply andb_true_iff in E as [_ E]. apply Z.eqb_eq in E.
    specialize (Hbump E). lia. }
  clearbody serial.
  destruct (serial =? 60)%Z eqn:E60.
  { intros E. injection E as <- <- <-. lia. }
  destruct (serial =? 0)%Z eqn:E0.
  { intros E. injection E as <- <- <-. lia. }
  apply Z.eqb_neq in E60, E0.
  assert (Hn : (-25567 <= (if 60 <? serial then serial - 1 else serial)
                           - 1 - 25567 <= 2932896)%Z)
    by (destruct (60 <? serial)%Z eqn:E'; [apply Z.ltb_lt in E' | ]; lia).
  pose proof (civilFromDays_bounds _ Hn) as Hb.
  destruct (Excel.civilFromDays _) as [[y' m'] d'].
  intros E. injection E as <- <- <-. lia.
Qed.

Lemma formatYMD_canonical (x : JS.number) (date : Z * Z * Z) :
  Excel.parse_date_code x = Some date ->
  canonicalDate (Excel.formatYMD date) = true.
Proof.
  destruct date as [[y m] d]. intros H.
  apply parse_date_code_bounds in H. unfold Excel.formatYMD.
  apply canonical_join.
  - apply two_digits_below_100. lia.
  - apply two_digits_below_100. lia.
  - apply four_digits_year. lia.
Qed.

(** The digits [\d{1,2}] before the slash, padded to two. *)
Lemma oneOrTwoDigits_padded (s d r : string) :
  oneOrTwoDigitsSlash s = Some (d, r) ->
  isTwoDigits (JS.padStart2 (substring 0 (String.length d - 1) d)) = true.
Proof.
  unfold oneOrTwoDigitsSlash.
  destruct s as [|a [|b s]]; try discriminate.
  destruct (JS.isDigit a) eqn:Ha; [|discriminate].
  destruct (Ascii.eqb b "/").
  - intros E. injection E as <- _. simpl. exact Ha.
  - destruct (JS.isDigit b) eqn:Hb; [|discriminate].
    destruct s as [|c s]; [discriminate|].
    destruct (Ascii.eqb c "/"); [|discriminate].
    intros E. injection E as <- _. simpl. now rewrite Ha, Hb.
Qed.

Lemma fourDigits_are_four (s y r : string) :
  fourDigits s = Some (y, r) -> isFourDigits y = true.
Proof.
  unfold fourDigits.
  destruct s as [|a [|b [|c [|d s]]]]; try discriminate.
  destruct (JS.isDigit a && JS.isDigit b && JS.isDigit c && JS.isDigit d)
    eqn:E; [|discriminate].
  intros H. injection H as <- _. exact E.
Qed.

Lemma matchDMY_canonical (s c : string) :
  Excel.matchDMY s = Some c -> canonicalDate c = true.
Proof.
  unfold Excel.matchDMY.
  destruct (oneOrTwoDigitsSlash s) as [[d r1]|] eqn:Ed; [|discriminate].
  destruct (oneOrTwoDigitsSlash r1) as [[m r2]|] eqn:Em; [|discriminate].
  destruct (fourDigits r2) as [[y r3]|] eqn:Ey; [|discriminate].
  destruct r3; [|discriminate].
  intros E. injection E as <-.
  apply canonical_join;
    eauto using oneOrTwoDigits_padded, fourDigits_are_four.
Qed.

Lemma matchYMD_canonical (s c : string) :
  Excel.matchYMD s = Some c -> canonicalDate c = true.
Proof.
  unfold Excel.matchYMD.
  destruct (fourDigits s) as [[y r]|] eqn:Ey; [|discriminate].
  destruct r as [|h1 [|a [|b [|h2 [|c' [|d [|? ?]]]]]]]; try discriminate.
  destruct (Ascii.eqb h1 "-" && Ascii.eqb h2 "-"
            && JS.isDigit a && JS.isDigit b && JS.isDigit c' && JS.isDigit d)
    eqn:E; [|discriminate].
  intros H. injection H as <-.
  apply andb_true_iff in E as [E Hd].
  apply andb_true_iff in E as [E Hc].
  apply andb_true_iff in E as [E Hb].
  apply andb_true_iff in E as [_ Ha].
  simpl. rewrite Ha, Hb, Hc, Hd. simpl.
  apply (fourDigits_are_four _ _ _ Ey).
Qed.

Lemma parseExcelDate_canonical (v : Excel.value) (s : string) :
  Excel.parseExcelDate v = Some s -> canonicalDate s = true.
Proof.
  unfold Excel.parseExcelDate.
  destruct (negb (Excel.truthy v)); [discriminate|].
  assert (Htext :
    match Excel.matchDMY (JS.trim (Excel.toString v)) with
    | Some s0 => Some s0
    | None => Excel.matchYMD (JS.trim (Excel.toString v))
    end = Some s -> canonicalDate s = true).
  { destruct (Excel.matchDMY (JS.trim (Excel.toString v))) as [c|] eqn:E.
    - intros H. injection H as <-. eapply matchDMY_canonical, E.
    - apply matchYMD_canonical. }
  destruct v as [| | t | x | b]; try exact Htext.
  destruct (Excel.parse_date_code x) as [date|] eqn:E; [|exact Htext].
  simpl. intros H. injection H as <-. eapply formatYMD_canonical, E.
Qed.

(** The date of the record pipeline is a piece of its input. *)

Lemma append_assoc (a b c : string) : (a ++ b) ++ c = a ++ b ++ c.
Proof.
  induction a as [|x a IH]; simpl; [reflexivity | now rewrite IH].
Qed.

Lemma writtenIn_tail (d s : string) (a : ascii) :
  writtenIn d s -> writtenIn d (String a s).
Proof.
  intros (before & after & ->). now exists (String a before), after.
Qed.

Lemma writtenIn_suffix (d w s : string) :
  writtenIn d s -> writtenIn d (w ++ s).
Proof.
  intros H. induction w as [|a w IH]; [exact H|].
  now apply writtenIn_tail.
Qed.

Lemma trimStart_suffix (s : string) : exists w, s = w ++ JS.trimStart s.
Proof.
  induction s as [|a s [w IH]]; [now exists ""|].
  simpl. destruct (JS.isWhite a).
  - exists (String a w). simpl. now rewrite <- IH.
  - now exists "".
Qed.

Lemma dropPrefix_split (p s r : string) :
  dropPrefix p s = Some r -> s = p ++ r.
Proof.
  revert s. induction p as [|a p IH]; intros [|b s]; simpl;
    try discriminate; try (intros E; now injection E as <-).
  destruct (Ascii.eqb a b) eqn:E; [|discriminate].
  apply Ascii.eqb_eq in E. subst b.
  intros H. now rewrite (IH _ H).
Qed.

Lemma oneOrTwoDigits_split (s d r : string) :
  oneOrTwoDigitsSlash s = Some (d, r) ->
  s = d ++ r /\ forall r', oneOrTwoDigitsSlash (d ++ r') = Some (d, r').
Proof.
  unfold oneOrTwoDigitsSlash.
  destruct s as [|a [|b s]]; try discriminate.
  destruct (JS.isDigit a) eqn:Ha; [|discriminate].
  destruct (Ascii.eqb b "/") eqn:Eb.
  - apply Ascii.eqb_eq in Eb. subst b.
    intros E. injection E as <- <-. split; [reflexivity|].
    intros r'. simpl. now rewrite Ha.
  - destruct (JS.isDigit b) eqn:Hb; [|discriminate].
    destruct s as [|c s]; [discriminate|].
    destruct (Ascii.eqb c "/") eqn:Ec; [|discriminate].
    apply Ascii.eqb_eq in Ec. subst c.
    intros E. injection E as <- <-. split; [reflexivity|].
    intros r'. simpl. now rewrite Ha, Eb, Hb.
Qed.

Lemma fourDigits_split (s y r : string) :
  fourDigits s = Some (y, r) ->
  s = y ++ r /\ fourDigits y = Some (y, "").
Proof.
  unfold fourDigits.
  destruct s as [|a [|b [|c [|d s]]]]; try discriminate.
  destruct (JS.isDigit a && JS.isDigit b && JS.isDigit c && JS.isDigit d)
    eqn:E; [|discriminate].
  intros H. injection H as <- <-. split; [reflexivity|].
  now rewrite E.
Qed.

(** The text the pipeline takes for a date is a day/month/year text that
    [parseExcelDate] would normalise, standing at the head of [s]. *)
Lemma dateAt_written (s d : string) :
  dateAt s = Some d ->
  (exists after, s = d ++ after) /\ exists c, Excel.matchDMY d = Some c.
Proof.
  unfold dateAt.
  destruct (oneOrTwoDigitsSlash s) as [[dd r1]|] eqn:Ed; [|discriminate].
  destruct (oneOrTwoDigitsSlash r1) as [[mm r2]|] eqn:Em; [|discriminate].
  destruct (fourDigits r2) as [[y r3]|] eqn:Ey; [|discriminate].
  intros E. injection E as <-.
  destruct (oneOrTwoDigits_split _ _ _ Ed) as [-> Hd].
  destruct (oneOrTwoDigits_split _ _ _ Em) as [-> Hm].
  destruct (fourDigits_split _ _ _ Ey) as [-> Hy].
  split.
  - exists r3. now rewrite !append_assoc.
  - unfold Excel.matchDMY. rewrite Hd, Hm, Hy. eauto.
Qed.

Lemma matchDate_written (s d : string) :
  matchDate s = Some d ->
  writtenIn d s /\ exists c, Excel.matchDMY d = Some c.
Proof.
  induction s as [|a s IH].
  - simpl. destruct (dateRegexAt "") eqn:E; discriminate.
  - cbn [matchDate].
    destruct (dateRegexAt (String a s)) as [d'|] eqn:E.
    + intros H. injection H as ->. unfold dateRegexAt in E.
      assert (Hhead : forall x, dateAt x = Some d ->
                writtenIn d x /\ exists c, Excel.matchDMY d = Some c).
      { intros x Hx. destruct (dateAt_written _ _ Hx) as [[after ->] Hc].
        split; [now exists "", after | exact Hc]. }
      destruct (dropPrefix "วันที่" (String a s)) as [r|] eqn:Ep;
        [|now apply Hhead].
      destruct (dateAt (JS.trimStart r)) as [d0|] eqn:Et;
        [|now apply Hhead].
      injection E as ->.
      destruct (Hhead _ Et) as [Hw Hc]. split; [|exact Hc].
      rewrite (dropPrefix_split _ _ _ Ep).
      destruct (trimStart_suffix r) as [w Hr]. rewrite Hr.
      now do 2 apply writtenIn_suffix.
    + intros H. destruct (IH H) as [Hw Hc].
      split; [now apply writtenIn_tail | exact Hc].
Qed.

Lemma firstSome_in {A B : Type} (f : A -> option B) (l : list A) (y : B) :
  firstSome f l = Some y -> exists x, In x l /\ f x = Some y.
Proof.
  induction l as [|x l IH]; simpl; [discriminate|].
  destruct (f x) as [y'|] eqn:E.
  - intros H. injection H as ->. eauto.
  - intros H. destruct (IH H) as (x' & Hin & Hx). eauto.
Qed.

Lemma findDate_written (text : string) (t : table) (d : string) :
  findDate text t = Some d ->
  writtenInInput d text t /\ exists c, Excel.matchDMY d = Some c.
Proof.
  unfold findDate, writtenInInput.
  destruct (if JS.truthy text then matchDate text else None) as [d'|] eqn:E.
  - intros H. injection H as ->.
    destruct (JS.truthy text); [|discriminate].
    destruct (matchDate_written _ _ E) as [Hw Hc]. auto.
  - intros H. apply firstSome_in in H as (r & Hr & H).
    apply firstSome_in in H as (c & Hc & H).
    destruct (matchDate_written _ _ H) as [Hw Hm].
    split; [right; eauto | exact Hm].
Qed.




(** *** The header row (C3) *)

Section HeaderScan.

Import Excel Migration.

Lemma scanCells_spec (r : sheetRow) :
  forall (st : scan) (colIdx : nat),
    cdcCount (scanCells st colIdx r) = (cdcCount st + countResolved r)%nat
    /\ tempCdcColumns (scanCells st colIdx r)
       = (tempCdcColumns st ++ resolvedFrom colIdx r)%list
    /\ dateColumnIndex (scanCells st colIdx r)
       = lastLabelFrom isDateLabel colIdx (dateColumnIndex st) r
    /\ totalColumnIndex (scanCells st colIdx r)
       = lastLabelFrom isTotalLabel colIdx (totalColumnIndex st) r.
Proof.
  induction r as [|v r IH]; intros st colIdx.
  - simpl. rewrite Nat.add_0_r, app_nil_r. auto.
  - cbn [scanCells]. destruct (IH (scanCell st colIdx v) (S colIdx))
      as (Hc & Ht & Hd & Hs).
    rewrite Hc, Ht, Hd, Hs. clear Hc Ht Hd Hs IH.
    unfold scanCell, countResolved, resolves. fold (scanText v).
    cbn [filter resolvedFrom lastLabelFrom]. unfold resolves.
    destruct (findCdcName (scanText v)); cbn; repeat split;
      try lia; try reflexivity.
    now rewrite <- app_assoc.
Qed.

Lemma scanRow_spec (dateCol totalCol : Z) (r : sheetRow) :
  cdcCount (scanRow dateCol totalCol r) = countResolved r
  /\ tempCdcColumns (scanRow dateCol totalCol r) = resolvedFrom 0 r
  /\ dateColumnIndex (scanRow dateCol totalCol r)
     = lastLabelFrom isDateLabel 0 dateCol r
  /\ totalColumnIndex (scanRow dateCol totalCol r)
     = lastLabelFrom isTotalLabel 0 totalCol r.
Proof.
  unfold scanRow.
  destruct (scanCells_spec r
              {| cdcCount := 0; tempCdcColumns := [];
                 dateColumnIndex := dateCol; totalColumnIndex := totalCol |} 0)
    as (Hc & Ht & Hd & Hs).
  auto.
Qed.

(** The loop over the rows: it stops at the first row with five resolved
    cells or more. *)
Lemma scanRows_spec (rows : list sheetRow) :
  forall (rowIdx : nat) (dateCol totalCol : Z),
    let l := scanRows rowIdx dateCol totalCol rows in
    (headerRowIndex l = (-1)%Z
     /\ forall r, In r rows -> (countResolved r < 5)%nat)
    \/ exists h : nat,
         (h < List.length rows)%nat
         /\ headerRowIndex l = Z.of_nat (rowIdx + h)
         /\ (5 <= countResolved (nth h rows []))%nat
         /\ (forall i, (i < h)%nat -> (countResolved (nth i rows []) < 5)%nat)
         /\ cdcColumns l = resolvedFrom 0 (nth h rows [])
         /\ dateColumn l
            = fold_left (lastLabelFrom isDateLabel 0) (firstn (S h) rows)
                dateCol
         /\ totalColumn l
            = fold_left (lastLabelFrom isTotalLabel 0) (firstn (S h) rows)
                totalCol.
Proof.
  induction rows as [|r rows IH]; intros rowIdx dateCol totalCol.
  - left. split; [reflexivity | intros r []].
  - cbn [scanRows].
    destruct (scanRow_spec dateCol totalCol r) as (Hc & Ht & Hd & Hs).
    rewrite Hc, Ht, Hd, Hs.
    destruct (5 <=? countResolved r)%nat eqn:E.
    + apply Nat.leb_le in E. right. exists 0%nat. cbn.
      rewrite Nat.add_0_r. repeat split; auto; try lia.
    + apply Nat.leb_gt in E. cbv beta iota zeta.
      destruct (IH (S rowIdx) (lastLabelFrom isDateLabel 0 dateCol r)
                  (lastLabelFrom isTotalLabel 0 totalCol r))
        as [[Hnone Hall] | (h & Hh & Hidx & Hfive & Hfirst & Hcols & Hdc & Htc)].
      * left. split; [exact Hnone|].
        intros r' [<- | Hin]; auto.
      * right. exists (S h). cbn [List.length nth firstn fold_left].
        repeat split; auto; try lia.
        intros [|i] Hi; [exact E | apply Hfirst; lia].
Qed.

End HeaderScan.

(** C3, as the specification states it, fails.  A row whose five cells all
    name หาดใหญ่ resolves to one location only and is accepted as the
    header row.  And a header row that bears neither a date label nor a
    total label leaves the layout with the columns of the labels of the
    title row above it. *)
Lemma header_counts_cells_not_locations :
  (distinctResolved fiveTimesHadyai = 1%nat
   /\ Migration.headerRowIndex (Migration.locateHeader [fiveTimesHadyai])
      = 0%Z)
  /\ (Migration.headerRowIndex (Migration.locateHeader [titleRow; fiveNames])
      = 1%Z
      /\ lastLabelFrom Migration.isDateLabel 0 (-1) fiveNames = (-1)%Z
      /\ lastLabelFrom Migration.isTotalLabel 0 (-1) fiveNames = (-1)%Z
      /\ Migration.dateColumn (Migration.locateHeader [titleRow; fiveNames])
         = 0%Z
      /\ Migration.totalColumn (Migration.locateHeader [titleRow; fiveNames])
         = 1%Z).
Proof.
  repeat split.
Qed.

(** C3, as the code has it.  The header row is the first of the first 50
    rows in which five cells or more resolve to a location, counted cell
    by cell, whether or not the locations differ: a row with four such
    cells is passed over, a row with five is taken.  Its columns are the
    resolved columns of that row.  The date column and the total column
    are those of the last cell bearing the label among the rows read so
    far, the header row included: a label in the header row prevails, and
    without one the column found in a row above it is kept.  When no row
    qualifies the header index stays -1 and the sheet yields nothing: no
    record, both counters at zero, the database untouched. *)
Theorem header_is_first_row_with_five (data : list Excel.sheetRow) :
  let l := Migration.locateHeader data in
  (Migration.headerRowIndex l = (-1)%Z
   /\ (forall r, In r (firstn 50 data) -> (countResolved r < 5)%nat)
   /\ forall category dryRun clock db0,
        Migration.parseAndMigrateSheet data category dryRun clock db0
        = {| Migration.processed := 0; Migration.skipped := 0;
             Migration.records := []; Migration.db := db0 |})
  \/ exists h : nat,
       (h < 50)%nat /\ (h < List.length data)%nat
       /\ Migration.headerRowIndex l = Z.of_nat h
       /\ (5 <= countResolved (nth h data []))%nat
       /\ (forall i, (i < h)%nat -> (countResolved (nth i data []) < 5)%nat)
       /\ Migration.cdcColumns l = resolvedFrom 0 (nth h data [])
       /\ Migration.dateColumn l
          = lastLabelIn Migration.isDateLabel (firstn (S h) data)
       /\ Migration.totalColumn l
          = lastLabelIn Migration.isTotalLabel (firstn (S h) data).
Proof.
  cbv zeta. unfold Migration.locateHeader.
  destruct (scanRows_spec (firstn 50 data) 0 (-1) (-1))
    as [[Hnone Hall] | (h & Hh & Hidx & Hfive & Hfirst & Hcols & Hdc & Htc)].
  - left. split; [exact Hnone|]. split; [exact Hall|].
    intros category dryRun clock db0.
    unfold Migration.parseAndMigrateSheet, Migration.locateHeader.
    now rewrite Hnone.
  - right. exists h. rewrite length_firstn in Hh.
    assert (Hnth : forall i, (i <= h)%nat ->
              nth i (firstn 50 data) [] = nth i data []).
    { intros i Hi. rewrite nth_firstn.
      destruct (i <? 50)%nat eqn:E; [reflexivity|].
      apply Nat.ltb_ge in E. lia. }
    rewrite (Hnth h (le_n h)) in Hfive, Hcols.
    rewrite firstn_firstn in Hdc, Htc.
    replace (Nat.min (S h) 50) with (S h) in Hdc, Htc by lia.
    repeat split; auto; try lia.
    intros i Hi. rewrite <- Hnth by lia. now apply Hfirst.
Qed.

Lemma header_is_first_row_with_five_witness :
  (countResolved (nth 0 [fourNames; fiveNames] []) < 5)%nat.
Proof.
  destruct (header_is_first_row_with_five [fourNames; fiveNames])
    as [[Hnone _] | (h & _ & _ & Hidx & _ & Hfirst & _)].
  - discriminate Hnone.
  - apply Hfirst.
    change (1%Z = Z.of_nat h) in Hidx.
    destruct h as [|h]; [discriminate Hidx | apply Nat.lt_0_succ].
Defined.

(** * Further properties of the code *)

(** ** Fill-down, again *)

Lemma trimStart_head (s : string) :
  JS.trimStart s = ""
  \/ exists c r, JS.trimStart s = String c r /\ JS.isWhite c = false.
Proof.
  induction s as [|a s IH]; [now left|].
  simpl. destruct (JS.isWhite a) eqn:E; [exact IH|].
  right. now exists a, s.
Qed.

Lemma trimEnd_idem (s : string) : JS.trimEnd (JS.trimEnd s) = JS.trimEnd s.
Proof.
  induction s as [|a s IH]; [reflexivity|].
  simpl. destruct (JS.trimEnd s) as [|b t] eqn:E.
  - destruct (JS.isWhite a) eqn:Ea; simpl; [reflexivity | now rewrite Ea].
  - simpl in IH |- *. rewrite IH. reflexivity.
Qed.

Lemma trim_idem (s : string) : JS.trim (JS.trim s) = JS.trim s.
Proof.
  unfold JS.trim.
  destruct (trimStart_head s) as [-> | (c & r & -> & Hc)]; [reflexivity|].
  assert (H : JS.trimStart (JS.trimEnd (String c r)) = JS.trimEnd (String c r)).
  { simpl. destruct (JS.trimEnd r); rewrite ?Hc; simpl; now rewrite Hc. }
  rewrite H. apply trimEnd_idem.
Qed.

Lemma carryOk_next (last : option string) (s : string) :
  carryOk last -> carryOk (if hasText s then Some (JS.trim s) else last).
Proof.
  intros H. destruct (hasText s) eqn:E; [|exact H].
  split; [apply trim_idem | exact E].
Qed.

Lemma fillColumn_idem (col : list string) :
  forall last, carryOk last ->
    fillColumn last (fillColumn last col) = fillColumn last col.
Proof.
  induction col as [|s col IH]; intros last Hok; [reflexivity|].
  simpl. destruct (JS.truthy s) eqn:Hs.
  - simpl. rewrite Hs. f_equal. apply IH, carryOk_next, Hok.
  - destruct last as [v|]; simpl.
    + destruct Hok as [Htrim Htr]. rewrite Htr.
      unfold hasText. rewrite Htrim, Htr. f_equal.
      apply IH. now split.
    + rewrite Hs. f_equal. now apply IH.
Qed.

(** A loop whose column is already filled changes nothing. *)
Lemma fillDown_fixed (c : nat) (t : table) :
  forall last, carryOk last ->
    fillColumn last (column c t) = column c t ->
    fillDown c last t = t.
Proof.
  induction t as [|r t IH]; intros last Hok; [reflexivity|].
  simpl. destruct (JS.truthy (cell r c)) eqn:Hs.
  - intros E. injection E as E. f_equal.
    apply (IH _ (carryOk_next last (cell r c) Hok) E).
  - destruct last as [v|].
    + intros E. injection E as Ev _. destruct Hok as [_ Htr].
      rewrite Ev, Hs in Htr. discriminate.
    + intros E. injection E as E. f_equal. now apply IH.
Qed.

(** X1.  Preprocessing twice is preprocessing once: a table that went
    through [preprocessTableData] is left as it is by a second pass. *)
Theorem preprocess_idempotent (tableData : list table) :
  preprocessTableData (preprocessTableData tableData)
  = preprocessTableData tableData.
Proof.
  unfold preprocessTableData. rewrite map_map. apply map_ext.
  intros t. destruct t as [|r t]; [reflexivity|].
  set (u := preprocessTable (r :: t)).
  assert (H0 : column 0 u = fillColumn None (column 0 (r :: t)))
    by (apply column_preprocessTable; now left).
  assert (H1 : column 1 u = fillColumn None (column 1 (r :: t)))
    by (apply column_preprocessTable; now right).
  assert (F0 : fillDown 0 None u = u).
  { apply fillDown_fixed; [exact I|].
    rewrite H0. now apply fillColumn_idem. }
  assert (F1 : fillDown 1 None u = u).
  { apply fillDown_fixed; [exact I|].
    rewrite H1. now apply fillColumn_idem. }
  destruct u as [|r' u'] eqn:Eu; [reflexivity|].
  unfold preprocessTable at 1. now rewrite F0, F1.
Qed.

Lemma columnValue_of_text (c : nat) (t : table) :
  map (columnValue c) t = map valueOfText (column c t).
Proof.
  unfold column. rewrite map_map. reflexivity.
Qed.

(** X2.  Preprocessing touches the two label columns only: a column from
    C2 on comes out as it went in, and so does the sum of its strictly
    positive values, the fall-back grand total of that column. *)
Theorem preprocess_keeps_value_columns (t : table) (c : nat) :
  (2 <= c)%nat ->
  column c (preprocessTable t) = column c t
  /\ positiveColumnSum c (preprocessTable t) = positiveColumnSum c t.
Proof.
  intros Hc.
  assert (H : column c (preprocessTable t) = column c t).
  { destruct t as [|r t]; [reflexivity|]. unfold preprocessTable.
    rewrite !column_fillDown_other by lia. reflexivity. }
  split; [exact H|].
  unfold positiveColumnSum. now rewrite !columnValue_of_text, H.
Qed.

Lemma preprocess_keeps_value_columns_witness :
  column 2 (preprocessTable sampleTable) = column 2 sampleTable
  /\ positiveColumnSum 2 (preprocessTable sampleTable) = JS.ofZ 22.
Proof.
  destruct (preprocess_keeps_value_columns sampleTable 2 (le_n 2)) as [H1 H2].
  split; [exact H1 | rewrite H2; reflexivity].
Defined.

(** ** The tables of [performOCR] *)

Lemma length_setCell (c : nat) (v : string) (r : row) :
  (c < List.length r)%nat -> List.length (setCell c v r) = List.length r.
Proof.
  revert r. induction c as [|c IH]; intros [|x r] H; simpl in *; try lia.
  rewrite IH; lia.
Qed.

Lemma cell_setCell (c c' : nat) (v : string) (r : row) :
  cell (setCell c v r) c' = if (c' =? c)%nat then v else cell r c'.
Proof.
  destruct (c' =? c)%nat eqn:E.
  - apply Nat.eqb_eq in E. subst. apply cell_setCell_same.
  - apply Nat.eqb_neq in E. apply cell_setCell_other. congruence.
Qed.

Lemma length_updateRow (i : nat) (f : row -> row) (rows : table) :
  List.length (updateRow i f rows) = List.length rows.
Proof.
  revert i. induction rows as [|r rows IH]; intros [|i]; simpl; auto.
Qed.

Lemma nth_updateRow (i i' : nat) (f : row -> row) (rows : table) :
  (i' < List.length rows)%nat ->
  nth i (updateRow i' f rows) []
  = if (i =? i')%nat then f (nth i rows []) else nth i rows [].
Proof.
  revert i i'. induction rows as [|r rows IH]; intros i i' H; simpl in H;
    [lia|].
  destruct i' as [|i'], i as [|i]; simpl; try reflexivity.
  apply IH. lia.
Qed.

Lemma hasWidth_updateRow (w i : nat) (f : row -> row) (rows : table) :
  (forall r, List.length r = w -> List.length (f r) = w) ->
  hasWidth w rows -> hasWidth w (updateRow i f rows).
Proof.
  intros Hf. revert i. unfold hasWidth.
  induction rows as [|r rows IH]; intros i H; [destruct i; constructor|].
  inversion H as [|? ? Hr Hrows]; subst.
  destruct i as [|i]; simpl; constructor; auto.
Qed.

Lemma fold_max_bound {A : Type} (f : A -> nat) (l : list A) :
  forall m0,
    (m0 <= fold_left (fun m c => Nat.max m (S (f c))) l m0)%nat
    /\ forall c, In c l ->
         (f c < fold_left (fun m c => Nat.max m (S (f c))) l m0)%nat.
Proof.
  induction l as [|a l IH]; intros m0; simpl.
  - split; [lia | intros c []].
  - destruct (IH (Nat.max m0 (S (f a)))) as [Hle Hin].
    split; [lia|].
    intros c [<- | Hc]; [lia | now apply Hin].
Qed.

(** The assignments, one after the other, on a rectangle that holds them
    all. *)
Lemma assign_cells (h w : nat) (cells : list ocrCell) :
  forall rows,
    List.length rows = h -> hasWidth w rows ->
    (forall c, In c cells -> (rowIndex c < h)%nat /\ (columnIndex c < w)%nat) ->
    let rows' :=
      fold_left
        (fun rows c =>
           updateRow (rowIndex c)
             (setCell (columnIndex c) (contentOrEmpty c)) rows)
        cells rows in
    List.length rows' = h /\ hasWidth w rows'
    /\ forall i j,
         cell (nth i rows' []) j
         = fold_left
             (fun acc c =>
                if (rowIndex c =? i)%nat && (columnIndex c =? j)%nat
                then contentOrEmpty c else acc)
             cells (cell (nth i rows []) j).
Proof.
  induction cells as [|c cells IH]; intros rows Hh Hw Hin; cbv zeta.
  - simpl. auto.
  - destruct (Hin c (or_introl eq_refl)) as [Hr Hc].
    cbn [fold_left].
    set (rows1 := updateRow (rowIndex c)
                    (setCell (columnIndex c) (contentOrEmpty c)) rows).
    assert (Hh1 : List.length rows1 = h)
      by (unfold rows1; now rewrite length_updateRow).
    assert (Hw1 : hasWidth w rows1).
    { apply hasWidth_updateRow; [|exact Hw].
      intros r Hlen. rewrite length_setCell; lia. }
    destruct (IH rows1 Hh1 Hw1 (fun c' H' => Hin c' (or_intror H')))
      as (Hlen & Hwid & Hcell).
    repeat split; auto.
    intros i j. rewrite Hcell. f_equal.
    unfold rows1. rewrite nth_updateRow by lia.
    rewrite Nat.eqb_sym.
    destruct (rowIndex c =? i)%nat; [|reflexivity].
    rewrite cell_setCell, Nat.eqb_sym. reflexivity.
Qed.

Lemma cell_of_blank (h w i j : nat) :
  cell (nth i (repeat (repeat "" w) h) []) j = "".
Proof.
  unfold cell.
  destruct (Nat.lt_ge_cases i h) as [Hi | Hi].
  - rewrite nth_repeat_lt by exact Hi.
    destruct (Nat.lt_ge_cases j w) as [Hj | Hj].
    + now apply nth_repeat_lt.
    + apply nth_overflow. now rewrite repeat_length.
  - rewrite (nth_overflow (repeat (repeat "" w) h))
      by (now rewrite repeat_length).
    now destruct j.
Qed.

Lemma length_fillDown (c : nat) (t : table) (last : option string) :
  List.length (fillDown c last t) = List.length t.
Proof.
  revert last. induction t as [|r t IH]; intros last; simpl; [reflexivity|].
  destruct (JS.truthy (cell r c)); [|destruct last]; simpl; now rewrite IH.
Qed.

(** A fill-down loop keeps the width of a rectangle: within the width it
    overwrites a cell, beyond it it finds nothing to carry. *)
Lemma hasWidth_fillDown (w c : nat) (t : table) :
  forall last,
    (c < w)%nat \/ last = None ->
    hasWidth w t -> hasWidth w (fillDown c last t).
Proof.
  unfold hasWidth.
  induction t as [|r t IH]; intros last Hc H; simpl; [constructor|].
  inversion H as [|? ? Hr Ht]; subst.
  destruct (JS.truthy (cell r c)) eqn:Hs.
  - constructor; [reflexivity|]. apply IH; [|exact Ht].
    destruct Hc as [Hc | ->]; [now left|].
    destruct (Nat.lt_ge_cases c (List.length r)) as [Hlt | Hge];
      [now left|].
    unfold cell in Hs. rewrite nth_overflow in Hs by lia. discriminate.
  - destruct last as [v|].
    + destruct Hc as [Hc | Hc]; [|discriminate].
      constructor; [now apply length_setCell | apply IH; auto].
    + constructor; [reflexivity | apply IH; auto].
Qed.

(** X3.  The table [performOCR] builds from the cells of an OCR table is
    a rectangle: one row more than the largest row index, in each row one
    cell more than the largest column index.  Each of its cells holds the
    content of the last OCR cell at that place, and the empty string where
    there is none or the content is missing.  Preprocessing keeps that
    shape. *)
Theorem ocr_table_is_rectangle (cells : list ocrCell) :
  let t := buildTable cells in
  List.length t = maxRowOf cells
  /\ hasWidth (maxColOf cells) t
  /\ (forall i j, cell (nth i t []) j = lastContent i j cells)
  /\ List.length (preprocessTable t) = maxRowOf cells
  /\ hasWidth (maxColOf cells) (preprocessTable t).
Proof.
  cbv zeta. unfold buildTable.
  destruct (assign_cells (maxRowOf cells) (maxColOf cells) cells
              (repeat (repeat "" (maxColOf cells)) (maxRowOf cells)))
    as (Hlen & Hwid & Hcell).
  - apply repeat_length.
  - unfold hasWidth. apply Forall_forall. intros r Hr.
    apply repeat_spec in Hr. subst. apply repeat_length.
  - intros c Hc. split.
    + apply (proj2 (fold_max_bound rowIndex cells 0%nat) c Hc).
    + apply (proj2 (fold_max_bound columnIndex cells 0%nat) c Hc).
  - set (t := fold_left _ cells _) in *.
    split; [exact Hlen|]. split; [exact Hwid|].
    split.
    { intros i j. rewrite Hcell, cell_of_blank. reflexivity. }
    destruct t as [|r t'] eqn:Et; [now split|].
    unfold preprocessTable. rewrite !length_fillDown.
    split; [exact Hlen|].
    apply hasWidth_fillDown; [now right|].
    apply hasWidth_fillDown; [now right | exact Hwid].
Qed.

(** ** The search for the date *)

Lemma dateAt_digit (s d : string) :
  dateAt s = Some d -> exists a r, s = String a r /\ JS.isDigit a = true.
Proof.
  unfold dateAt, oneOrTwoDigitsSlash.
  destruct s as [|a [|b s]]; try discriminate.
  destruct (JS.isDigit a) eqn:Ha; [|discriminate].
  intros _. now exists a, (String b s).
Qed.

Lemma dateAt_no_digit (a : ascii) (s : string) :
  JS.isDigit a = false -> dateAt (String a s) = None.
Proof.
  intros Ha. destruct (dateAt (String a s)) as [d|] eqn:E; [|reflexivity].
  apply dateAt_digit in E as (a' & r & E & Ha').
  injection E as <- _. congruence.
Qed.

Lemma firstDate_skip (w y : string) :
  noDigit w = true -> firstDate (w ++ y) = firstDate y.
Proof.
  induction w as [|a w IH]; [reflexivity|].
  simpl. intros H. apply andb_true_iff in H as [Ha Hw].
  apply negb_true_iff in Ha.
  change (match dateAt (String a (w ++ y)) with
          | Some d => Some d
          | None => firstDate (w ++ y)
          end = firstDate y).
  rewrite (dateAt_no_digit _ _ Ha). now apply IH.
Qed.

Lemma white_no_digit (a : ascii) :
  JS.isWhite a = true -> JS.isDigit a = false.
Proof.
  unfold JS.isWhite, JS.isDigit. intros H.
  apply orb_true_iff in H as [H | H].
  - apply andb_true_iff in H as [_ H]. apply Nat.leb_le in H.
    apply andb_false_iff. left. apply Nat.leb_gt. lia.
  - apply Nat.eqb_eq in H. rewrite H. reflexivity.
Qed.

Lemma trimStart_white (s : string) :
  exists w, s = w ++ JS.trimStart s /\ noDigit w = true.
Proof.
  induction s as [|a s (w & IH & Hw)]; [now exists ""|].
  simpl. destruct (JS.isWhite a) eqn:Ea.
  - exists (String a w). simpl. rewrite <- IH.
    split; [reflexivity|]. now rewrite (white_no_digit _ Ea).
  - now exists "".
Qed.

Lemma firstDate_at (s d : string) : dateAt s = Some d -> firstDate s = Some d.
Proof.
  intros H. destruct s; cbn [firstDate]; now rewrite H.
Qed.

(** The optional word before the date makes no difference: the group the
    regular expression returns is the leftmost match of the date pattern
    itself. *)
Lemma matchDate_leftmost (s : string) : matchDate s = firstDate s.
Proof.
  induction s as [|a s IH].
  - reflexivity.
  - cbn [matchDate firstDate]. unfold dateRegexAt.
    destruct (dateAt (String a s)) as [d|] eqn:Ed.
    + destruct (dropPrefix "วันที่" (String a s)) as [r|] eqn:Ep;
        [|reflexivity].
      apply dateAt_digit in Ed as (a' & r' & E & Ha).
      injection E as <- _.
      apply dropPrefix_split in Ep. injection Ep as -> _.
      discriminate Ha.
    + destruct (dropPrefix "วันที่" (String a s)) as [r|] eqn:Ep;
        [|exact IH].
      destruct (dateAt (JS.trimStart r)) as [d|] eqn:Et; [|exact IH].
      apply dropPrefix_split in Ep.
      destruct (trimStart_white r) as (w & Hr & Hw).
      injection Ep as _ Es.
      rewrite Es, Hr.
      change (Some d
              = firstDate (substring 1 17 "วันที่" ++ w ++ JS.trimStart r)).
      rewrite <- append_assoc, firstDate_skip.
      * symmetry. now apply firstDate_at.
      * clear -Hw. induction w as [|c w IH]; [reflexivity|].
        simpl in Hw |- *. apply andb_true_iff in Hw as [-> Hw].
        now apply IH.
Qed.

Lemma firstSome_app {A B : Type} (f : A -> option B) (x y : list A) :
  firstSome f (x ++ y)%list
  = match firstSome f x with
    | Some v => Some v
    | None => firstSome f y
    end.
Proof.
  induction x as [|a x IH]; [reflexivity|].
  simpl. destruct (f a); [reflexivity | exact IH].
Qed.

Lemma firstSome_concat {A B : Type} (f : A -> option B) (l : list (list A)) :
  firstSome (firstSome f) l = firstSome f (concat l).
Proof.
  induction l as [|x l IH]; [reflexivity|].
  simpl. now rewrite firstSome_app, IH.
Qed.

(** X4.  The date [recordDailyData] works with is the leftmost text of
    the shape day/month/year (one or two digits, one or two digits, four
    digits) in the first place that holds one: the extracted text, then the
    cells of the table row by row.  The word วันที่ before it plays no part
    in the search. *)
Theorem date_is_leftmost_pattern (extractedText : string) (t : table) :
  findDate extractedText t = firstSome firstDate (extractedText :: concat t).
Proof.
  unfold findDate, findDateInTable. cbn [firstSome].
  rewrite <- matchDate_leftmost.
  assert (E : firstSome (firstSome matchDate) t
              = firstSome firstDate (concat t)).
  { rewrite firstSome_concat. clear.
    induction (concat t) as [|c l IH]; [reflexivity|].
    simpl. rewrite matchDate_leftmost, IH. reflexivity. }
  rewrite E.
  destruct extractedText as [|a s]; reflexivity.
Qed.

(** ** What a run does to the records file *)

(** A run, category by category: nothing, or one record of the date
    appended. *)
Lemma run_by_category (tableData : list table) (text : string)
  (clock : category -> string) (records : Records) (c : category) :
  let run := recordDailyData tableData text clock records in
  (recordsOf (snd run) c = recordsOf records c
   /\ ofCategory c (newRecords run) = []
   /\ forall d results, fst run = Success d results ->
        isDateRecorded records d c = true)
  \/ exists d results r,
       fst run = Success d results
       /\ isDateRecorded records d c = false
       /\ date r = d
       /\ ofCategory c results = [r]
       /\ recordsOf (snd run) c = (recordsOf records c ++ [r])%list.
Proof.
  assert (Hfail : forall reason,
            recordsOf (snd (Failure reason, records)) c = recordsOf records c
            /\ ofCategory c (newRecords (Failure reason, records)) = []
            /\ forall d results,
                 fst (Failure reason, records) = Success d results ->
                 isDateRecorded records d c = true).
  { intros reason. split; [reflexivity|]. split; [reflexivity|].
    intros d results E. discriminate E. }
  cbv zeta. destruct tableData as [|t rest]; [left; apply Hfail|].
  rewrite recordDailyData_cons.
  destruct (validationPasses t); [|left; apply Hfail].
  destruct (findDate text t) as [d|]; [|left; apply Hfail].
  clear Hfail. rewrite categories_loop. unfold newRecords.
  destruct (isDateRecorded records d orange) eqn:Ho;
    destruct (isDateRecorded records d yuzu) eqn:Hy;
    destruct c; cbn [fst snd];
    first [ left; split; [reflexivity|]; split; [reflexivity|];
            intros d' results E; injection E as <- _; assumption
          | right; do 3 eexists; repeat split;
            first [eassumption | reflexivity] ].
Qed.

(** X5.  A run only appends.  The records of each category after the run
    are those before it, in their order, followed by the new records of
    the category the run returns in [results], of which there is one at
    most; a failed run leaves the file as it was. *)
Theorem run_only_appends (tableData : list table) (text : string)
  (clock : category -> string) (records : Records) :
  let run := recordDailyData tableData text clock records in
  (forall c,
     recordsOf (snd run) c
     = (recordsOf records c ++ ofCategory c (newRecords run))%list
     /\ (List.length (ofCategory c (newRecords run)) <= 1)%nat)
  /\ (forall reason, fst run = Failure reason -> snd run = records).
Proof.
  cbv zeta. split.
  - intros c.
    destruct (run_by_category tableData text clock records c)
      as [(Hsame & Hnone & _) | (d & results & r & E & _ & _ & Hone & Hpush)].
    + rewrite Hsame, Hnone, app_nil_r. split; [reflexivity | simpl; lia].
    + unfold newRecords. rewrite E, Hone, Hpush.
      split; [reflexivity | simpl; lia].
  - intros reason E.
    destruct tableData as [|t rest]; [reflexivity|].
    rewrite recordDailyData_cons in E |- *.
    destruct (validationPasses t); [|reflexivity].
    destruct (findDate text t); [|reflexivity].
    destruct (fold_left _ _ _). discriminate.
Qed.

Lemma run_only_appends_witness :
  snd (recordDailyData [[["FC33 หาดใหญ่"; ""; "3"; "9"]]] "" noon
         (snd (recordDailyData [sampleTable] "" noon noRecords)))
  = snd (recordDailyData [sampleTable] "" noon noRecords).
Proof.
  exact (proj2 (run_only_appends [[["FC33 หาดใหญ่"; ""; "3"; "9"]]] "" noon
                  (snd (recordDailyData [sampleTable] "" noon noRecords)))
           reasonNoDate eq_refl).
Defined.

Lemma not_recorded_not_in (records : Records) (d : string) (c : category) :
  isDateRecorded records d c = false ->
  ~ In d (map date (recordsOf records c)).
Proof.
  unfold isDateRecorded. intros H Hin.
  apply in_map_iff in Hin as (r & Hr & Hin).
  assert (E : existsb (fun r => String.eqb (date r) d) (recordsOf records c)
              = true).
  { apply existsb_exists. exists r. split; [exact Hin|].
    now apply String.eqb_eq. }
  congruence.
Qed.

(** X6.  A run keeps the dates of a category unique: if no two records of
    a category bear the same date before the run, none do after it.  And
    after a run that succeeds with a date, that date is recorded for both
    categories, whatever was recorded before. *)
Theorem run_keeps_dates_unique (tableData : list table) (text : string)
  (clock : category -> string) (records : Records) (c : category) :
  let run := recordDailyData tableData text clock records in
  (uniqueDates records c -> uniqueDates (snd run) c)
  /\ (forall d results,
        fst run = Success d results -> isDateRecorded (snd run) d c = true).
Proof.
  cbv zeta.
  destruct (run_by_category tableData text clock records c)
    as [(Hsame & _ & Hrec) | (d & results & r & E & Hnot & Hd & _ & Hpush)].
  - unfold uniqueDates, isDateRecorded in *. rewrite Hsame.
    split; [auto | exact Hrec].
  - unfold uniqueDates. rewrite Hpush. split.
    + intros Hu. rewrite map_app. cbn [map].
      apply NoDup_app; [exact Hu | repeat constructor; auto |].
      intros x Hx [<- | []]. rewrite Hd in Hx.
      now apply (not_recorded_not_in _ _ _ Hnot).
    + intros d' results' E'. rewrite E in E'. injection E' as <- _.
      unfold isDateRecorded. rewrite Hpush, existsb_app. cbn [existsb].
      rewrite Hd, String.eqb_refl. apply orb_true_iff. right. reflexivity.
Qed.

Lemma run_keeps_dates_unique_witness :
  uniqueDates (snd (recordDailyData [sampleTable] "" noon noRecords)) yuzu
  /\ isDateRecorded (snd (recordDailyData [sampleTable] "" noon noRecords))
       "18/10/2025" yuzu = true.
Proof.
  pose proof (run_keeps_dates_unique [sampleTable] "" noon noRecords yuzu)
    as [Hu Hr].
  split.
  - apply Hu. constructor.
  - exact (Hr "18/10/2025" _ eq_refl).
Defined.

(** ** The totals per location *)

Lemma lowest_nonNegative (m : Z) (k : nat) :
  (0 <= m)%Z -> nonNegative (JS.lowest m k).
Proof.
  revert m. induction k as [|k IH]; intros m Hm; simpl; [exact Hm|].
  destruct (m mod 10 =? 0)%Z; [|exact Hm].
  apply IH. apply Z.div_pos; lia.
Qed.

Lemma add_nonNegative (a b : JS.number) :
  nonNegative a -> nonNegative b -> nonNegative (JS.add a b).
Proof.
  destruct a as [| s | m k], b as [| u | n j]; simpl; try tauto.
  - intros -> ->. reflexivity.
  - intros Hm Hn. apply lowest_nonNegative.
    pose proof (pow10_pos (Nat.max k j - k)).
    pose proof (pow10_pos (Nat.max k j - j)).
    nia.
Qed.

Lemma positive_nonNegative (x : JS.number) :
  JS.isPositive x = true -> nonNegative x.
Proof.
  destruct x as [| s | m k]; simpl; try discriminate.
  - now destruct s.
  - intros H. apply Z.ltb_lt in H. lia.
Qed.

Lemma addTo_present (key : string) (v : JS.number) (m : totals) :
  In key (map fst m) ->
  nonNegative v ->
  map fst (addTo key v m) = map fst m
  /\ (Forall (fun kv => nonNegative (snd kv)) m ->
      Forall (fun kv => nonNegative (snd kv)) (addTo key v m)).
Proof.
  intros Hin Hv. induction m as [|[k x] m IH]; [destruct Hin|].
  simpl. destruct (String.eqb k key) eqn:E.
  - split; [reflexivity|].
    intros H. inversion H as [|? ? Hx Hm]; subst.
    constructor; [now apply add_nonNegative | exact Hm].
  - destruct Hin as [Hk | Hin].
    { simpl in Hk. subst k. rewrite String.eqb_refl in E. discriminate. }
    destruct (IH Hin) as [Hkeys Hall].
    split; [simpl; now rewrite Hkeys|].
    intros H. inversion H as [|? ? Hx Hm]; subst.
    constructor; auto.
Qed.

Lemma mapped_in (m : list (string * string)) (name full : string) :
  mapped m name = Some full -> In full (map snd m).
Proof.
  induction m as [|[k v] m IH]; simpl; [discriminate|].
  destruct (String.eqb k name).
  - intros E. injection E as ->. now left.
  - intros E. right. now apply IH.
Qed.

(** The totals keep their keys, and stay non-negative, through the whole
    table. *)
Lemma sumByCdc_keeps (searchColumn : string -> nat) (columnIndex : nat)
  (t : table) :
  forall acc,
    map fst acc = cdcOrder ->
    Forall (fun kv => nonNegative (snd kv)) acc ->
    map fst (sumByCdc searchColumn columnIndex t acc) = cdcOrder
    /\ Forall (fun kv => nonNegative (snd kv))
         (sumByCdc searchColumn columnIndex t acc).
Proof.
  assert (Hname : forall r name acc,
            map fst acc = cdcOrder ->
            Forall (fun kv => nonNegative (snd kv)) acc ->
            map fst (matchCdc searchColumn columnIndex r acc name) = cdcOrder
            /\ Forall (fun kv => nonNegative (snd kv))
                 (matchCdc searchColumn columnIndex r acc name)).
  { intros r name acc Hk Hv. unfold matchCdc.
    destruct (mapped cdcNameMapping name) as [full|] eqn:Em; [|auto].
    destruct (JS.includes _ name); [|auto].
    destruct (JS.truthy _); [|auto]. cbv zeta.
    destruct (JS.isPositive (cellValue columnIndex r)) eqn:Ep; [|auto].
    apply mapped_in in Em. fold cdcOrder in Em. rewrite <- Hk in Em.
    destruct (addTo_present full _ acc Em (positive_nonNegative _ Ep))
      as [Hkeys Hall].
    split; [now rewrite Hkeys | auto]. }
  assert (Hrow : forall r acc,
            map fst acc = cdcOrder ->
            Forall (fun kv => nonNegative (snd kv)) acc ->
            map fst (sumRow searchColumn columnIndex acc r) = cdcOrder
            /\ Forall (fun kv => nonNegative (snd kv))
                 (sumRow searchColumn columnIndex acc r)).
  { intros r acc Hk Hv. unfold sumRow.
    destruct (List.length r <? 2)%nat; [auto|].
    revert acc Hk Hv.
    induction cdcNames as [|name names IH]; intros acc Hk Hv; [auto|].
    cbn [fold_left]. destruct (Hname r name acc Hk Hv). now apply IH. }
  unfold sumByCdc.
  induction t as [|r t IH]; intros acc Hk Hv; [auto|].
  cbn [fold_left]. destruct (Hrow r acc Hk Hv). now apply IH.
Qed.

Lemma zeroTotals_ok :
  map fst zeroTotals = cdcOrder
  /\ Forall (fun kv => nonNegative (snd kv)) zeroTotals.
Proof.
  split; [reflexivity|]. repeat constructor; simpl; lia.
Qed.

(** X7.  Every record of a run holds a total for each of the eleven
    locations, in the order of [cdcOrder] and for no other key; no total
    is negative and none is NaN. *)
Theorem totals_cover_all_locations (tableData : list table) (text : string)
  (clock : category -> string) (records : Records) (d : string)
  (results : list (category * DailyRecord)) (c : category) (r : DailyRecord) :
  fst (recordDailyData tableData text clock records) = Success d results ->
  In (c, r) results ->
  map fst (cdcTotals r) = cdcOrder
  /\ Forall (fun kv => nonNegative (snd kv)) (cdcTotals r).
Proof.
  destruct tableData as [|t rest]; [discriminate|].
  intros E Hin.
  destruct (results_of_run _ _ _ _ _ _ _ _ _ E Hin) as (_ & _ & _ & ->).
  cbn [cdcTotals dailyRecord].
  destruct zeroTotals_ok. now apply sumByCdc_keeps.
Qed.

Lemma totals_cover_all_locations_witness :
  map fst (cdcTotals (dailyRecord sampleTable "18/10/2025" (noon yuzu)
                        (hadyaiSumOf sampleTable) yuzu))
  = cdcOrder.
Proof.
  exact (proj1 (totals_cover_all_locations [sampleTable] "" noon noRecords
                  "18/10/2025" _ yuzu _ eq_refl
                  (or_intror (or_introl eq_refl)))).
Defined.

Lemma getTotal_of_keys (m : totals) :
  NoDup (map fst m) ->
  map (fun k => (k, getTotal m k)) (map fst m)
  = map (fun kv => (fst kv, Some (snd kv))) m.
Proof.
  induction m as [|[k x] m IH]; [reflexivity|].
  intros H. inversion H as [|? ? Hk Hm]; subst.
  cbn [map fst snd getTotal]. rewrite String.eqb_refl. f_equal.
  rewrite <- (IH Hm). apply map_ext_in.
  intros k' Hk'. destruct (String.eqb k k') eqn:E; [|reflexivity].
  apply String.eqb_eq in E. subst k'. contradiction.
Qed.

(** X8.  [transformTableData] returns [null] for no table and otherwise
    one entry per location, in the order of [cdcOrder], each with a
    defined value: the total the loop accumulated for it, which is never
    negative. *)
Theorem transform_lists_every_location (tableData : list table)
  (columnIndex : nat) :
  (transformTableData tableData columnIndex = None <-> tableData = [])
  /\ forall out,
       transformTableData tableData columnIndex = Some out ->
       out = map (fun kv => (fst kv, Some (snd kv)))
               (sumByCdc transformSearchColumn columnIndex
                  (hd [] tableData) zeroTotals)
       /\ map fst out = cdcOrder
       /\ Forall (fun entry =>
                    exists v, snd entry = Some v /\ nonNegative v) out.
Proof.
  destruct tableData as [|t rest].
  { split; [split; reflexivity | discriminate]. }
  split; [split; discriminate|].
  intros out E. cbn [hd].
  assert (Eout : out
                 = map (fun cdc => (cdc, getTotal
                     (sumByCdc transformSearchColumn columnIndex t zeroTotals)
                     cdc)) cdcOrder)
    by (unfold transformTableData in E; congruence).
  clear E. rewrite Eout. clear Eout out.
  destruct zeroTotals_ok as [Hk0 Hv0].
  destruct (sumByCdc_keeps transformSearchColumn columnIndex t zeroTotals
              Hk0 Hv0) as [Hk Hv].
  assert (Hout : map (fun cdc => (cdc, getTotal
                   (sumByCdc transformSearchColumn columnIndex t zeroTotals)
                   cdc)) cdcOrder
                 = map (fun kv => (fst kv, Some (snd kv)))
                     (sumByCdc transformSearchColumn columnIndex t zeroTotals)).
  { rewrite <- Hk at 1. apply getTotal_of_keys. rewrite Hk.
    repeat constructor; simpl; intuition discriminate. }
  rewrite Hout. split; [reflexivity|]. split.
  - rewrite map_map. cbn [fst]. exact Hk.
  - apply Forall_map. revert Hv. apply Forall_impl.
    intros [k v] H. now exists v.
Qed.

Lemma transform_lists_every_location_witness :
  map fst (match transformTableData [sampleTable] 2 with
           | Some out => out
           | None => []
           end)
  = cdcOrder.
Proof.
  destruct (transform_lists_every_location [sampleTable] 2) as [_ H].
  destruct (transformTableData [sampleTable] 2) as [out|] eqn:E;
    [|discriminate E].
  exact (proj1 (proj2 (H out eq_refl))).
Defined.

(** ** The Laos value *)

Lemma lastKhonKaen_first (rows : table) :
  lastKhonKaen rows
  = match filter isLaosRow rows with
    | r :: _ => cellValue 2 r
    | [] => JS.zero
    end.
Proof.
  induction rows as [|r rows IH]; [reflexivity|].
  cbn [lastKhonKaen filter]. unfold isLaosRow at 1.
  destruct (JS.truthy (cell r 0) && JS.includes (cellText r 0) "ขอนแก่น"
            && JS.truthy (cell r 2)); [reflexivity | exact IH].
Qed.

(** X9.  The Laos value is taken from one row, the last one of the table
    whose C0 names ขอนแก่น and whose C2 is not empty: the rows of ขอนแก่น
    above it do not count, and it is 0 when there is no such row.  Only
    the orange record carries it, with a Cambodia value of 0; the yuzu
    record has neither. *)
Theorem laos_value_is_last_row (tableData : list table) (text : string)
  (clock : category -> string) (records : Records) (d : string)
  (results : list (category * DailyRecord)) (c : category) (r : DailyRecord) :
  fst (recordDailyData tableData text clock records) = Success d results ->
  In (c, r) results ->
  match c with
  | orange =>
      khonKaenLaos r
      = Some match rev (filter isLaosRow (hd [] tableData)) with
             | row :: _ => cellValue 2 row
             | [] => JS.zero
             end
      /\ khonKaenCambodia r = Some JS.zero
  | yuzu => khonKaenLaos r = None /\ khonKaenCambodia r = None
  end.
Proof.
  destruct tableData as [|t rest]; [discriminate|].
  intros E Hin.
  destruct (results_of_run _ _ _ _ _ _ _ _ _ E Hin) as (_ & _ & _ & ->).
  destruct c; cbn [khonKaenLaos khonKaenCambodia dailyRecord hd];
    split; try reflexivity.
  unfold khonKaenLaosValue. now rewrite lastKhonKaen_first, filter_rev.
Qed.

Lemma laos_value_is_last_row_witness :
  let t := [["วันที่ 18/10/2025"; ""; ""; ""];
            ["FC33 หาดใหญ่"; ""; "10"; "1"];
            ["ขอนแก่น"; ""; "40"; "2"];
            ["ขอนแก่น"; "Laos"; "4"; ""];
            ["ขอนแก่น"; "Cambodia"; ""; ""]] in
  khonKaenLaos (dailyRecord t "18/10/2025" (noon orange) (hadyaiSumOf t) orange)
  = Some (JS.ofZ 4).
Proof.
  exact (proj1 (laos_value_is_last_row
                  [[["วันที่ 18/10/2025"; ""; ""; ""];
                    ["FC33 หาดใหญ่"; ""; "10"; "1"];
                    ["ขอนแก่น"; ""; "40"; "2"];
                    ["ขอนแก่น"; "Laos"; "4"; ""];
                    ["ขอนแก่น"; "Cambodia"; ""; ""]]] "" noon noRecords
                  "18/10/2025" _ orange _ eq_refl (or_introl eq_refl))).
Defined.

(** ** The database *)

Lemma digit_not_white (a : ascii) :
  JS.isDigit a = true -> JS.isWhite a = false.
Proof.
  intros H. destruct (JS.isWhite a) eqn:E; [|reflexivity].
  apply white_no_digit in E. congruence.
Qed.

Lemma digit_not_mark (a : ascii) :
  JS.isDigit a = true ->
  Ascii.eqb a "/" = false /\ Ascii.eqb a "-" = false.
Proof.
  intros H. split.
  - destruct (Ascii.eqb a "/") eqn:E; [|reflexivity].
    apply Ascii.eqb_eq in E. subst. discriminate.
  - destruct (Ascii.eqb a "-") eqn:E; [|reflexivity].
    apply Ascii.eqb_eq in E. subst. discriminate.
Qed.

Lemma canonical_shape (s : string) :
  canonicalDate s = true ->
  exists a b c d y1 y2 y3 y4,
    s = dmyText a b c d y1 y2 y3 y4
    /\ JS.isDigit a = true /\ JS.isDigit b = true
    /\ JS.isDigit c = true /\ JS.isDigit d = true
    /\ JS.isDigit y1 = true /\ JS.isDigit y2 = true
    /\ JS.isDigit y3 = true /\ JS.isDigit y4 = true.
Proof.
  destruct s as [|a [|b [|h1 [|c [|d [|h2 y]]]]]]; try discriminate;
    try (destruct h1 as [[] [] [] [] [] [] [] []]; discriminate).
  destruct (Ascii.ascii_dec h1 "/") as [-> | N1].
  2:{ destruct h1 as [[] [] [] [] [] [] [] []]; try discriminate.
      now contradiction N1. }
  destruct (Ascii.ascii_dec h2 "/") as [-> | N2].
  2:{ destruct h2 as [[] [] [] [] [] [] [] []]; try discriminate.
      now contradiction N2. }
  cbn [canonicalDate]. intros H.
  apply andb_true_iff in H as [H Hy].
  apply andb_true_iff in H as [H Hd].
  apply andb_true_iff in H as [H Hc].
  apply andb_true_iff in H as [Ha Hb].
  destruct y as [|y1 [|y2 [|y3 [|y4 [|? ?]]]]]; try discriminate.
  cbn [isFourDigits] in Hy.
  apply andb_true_iff in Hy as [Hy H4].
  apply andb_true_iff in Hy as [Hy H3].
  apply andb_true_iff in Hy as [H1 H2].
  exists a, b, c, d, y1, y2, y3, y4. repeat split; assumption.
Qed.

Lemma toMySQLDate_dmy (a b c d y1 y2 y3 y4 : ascii) :
  JS.isDigit a = true -> JS.isDigit b = true ->
  JS.isDigit c = true -> JS.isDigit d = true ->
  JS.isDigit y1 = true -> JS.isDigit y2 = true ->
  JS.isDigit y3 = true -> JS.isDigit y4 = true ->
  Db.toMySQLDate (dmyText a b c d y1 y2 y3 y4)
  = Some (ymdText a b c d y1 y2 y3 y4).
Proof.
  intros Ha Hb Hc Hd H1 H2 H3 H4.
  destruct (digit_not_mark a Ha) as [Sa _].
  destruct (digit_not_mark b Hb) as [Sb _].
  destruct (digit_not_mark c Hc) as [Sc _].
  destruct (digit_not_mark d Hd) as [Sd _].
  destruct (digit_not_mark y1 H1) as [S1 _].
  destruct (digit_not_mark y2 H2) as [S2 _].
  destruct (digit_not_mark y3 H3) as [S3 _].
  destruct (digit_not_mark y4 H4) as [S4 _].
  assert (Hfour : fourDigits (dmyText a b c d y1 y2 y3 y4) = None)
    by (unfold fourDigits, dmyText; rewrite Ha, Hb; reflexivity).
  assert (Hsplit : Db.split "/" (dmyText a b c d y1 y2 y3 y4)
                   = [String a (String b "");
                      String c (String d "");
                      String y1 (String y2 (String y3 (String y4 "")))]).
  { unfold dmyText. cbn [Db.split].
    rewrite Sa, Sb, Sc, Sd, S1, S2, S3, S4. reflexivity. }
  unfold Db.toMySQLDate, Db.isMySQLDate. rewrite Hfour, Hsplit.
  reflexivity.
Qed.

(** A canonical date has a database key. *)
Lemma toMySQLDate_canonical (s : string) :
  canonicalDate s = true -> exists m, Db.toMySQLDate s = Some m.
Proof.
  intros H.
  destruct (canonical_shape s H)
    as (a & b & c & d & y1 & y2 & y3 & y4 & -> & Ha & Hb & Hc & Hd
        & H1 & H2 & H3 & H4).
  eexists. now apply toMySQLDate_dmy.
Qed.

(** X10.  The two notations of a date convert into each other without
    loss.  For a date in the canonical form DD/MM/YYYY, [toMySQLDate] gives
    a text of the form YYYY-MM-DD, which [toMySQLDate] leaves as it is and
    which [parseExcelDate] turns back into the date it came from; so two
    canonical dates never share a database key. *)
Theorem date_key_round_trip (s : string) :
  canonicalDate s = true ->
  exists m,
    Db.toMySQLDate s = Some m
    /\ Db.isMySQLDate m = true
    /\ Db.toMySQLDate m = Some m
    /\ Excel.parseExcelDate (Excel.VString m) = Some s.
Proof.
  intros H.
  destruct (canonical_shape s H)
    as (a & b & c & d & y1 & y2 & y3 & y4 & -> & Ha & Hb & Hc & Hd
        & H1 & H2 & H3 & H4).
  destruct (digit_not_mark a Ha) as [Sa Ma].
  destruct (digit_not_mark b Hb) as [Sb Mb].
  destruct (digit_not_mark c Hc) as [Sc Mc].
  destruct (digit_not_mark d Hd) as [Sd Md].
  destruct (digit_not_mark y1 H1) as [S1 M1].
  destruct (digit_not_mark y2 H2) as [S2 M2].
  destruct (digit_not_mark y3 H3) as [S3 M3].
  destruct (digit_not_mark y4 H4) as [S4 M4].
  pose proof (digit_not_white y1 H1) as W1.
  pose proof (digit_not_white b Hb) as Wb.
  exists (ymdText a b c d y1 y2 y3 y4).
  assert (Hto : Db.toMySQLDate (dmyText a b c d y1 y2 y3 y4)
                = Some (ymdText a b c d y1 y2 y3 y4))
    by (now apply toMySQLDate_dmy).
  assert (His : Db.isMySQLDate (ymdText a b c d y1 y2 y3 y4) = true).
  { unfold Db.isMySQLDate, fourDigits, ymdText.
    rewrite H1, H2, H3, H4. cbn [andb].
    rewrite Ha, Hb, Hc, Hd. reflexivity. }
  split; [exact Hto|]. split; [exact His|]. split.
  - unfold Db.toMySQLDate. rewrite His.
    unfold ymdText. reflexivity.
  - unfold Excel.parseExcelDate.
    assert (Htrim : JS.trim (ymdText a b c d y1 y2 y3 y4)
                    = ymdText a b c d y1 y2 y3 y4).
    { unfold JS.trim, ymdText. cbn [JS.trimStart]. rewrite W1.
      cbn [JS.trimEnd]. rewrite Wb. reflexivity. }
    cbn [Excel.toString]. rewrite Htrim.
    unfold ymdText at 1. cbn [Excel.truthy JS.truthy negb].
    unfold Excel.matchDMY, Excel.matchYMD, oneOrTwoDigitsSlash, fourDigits,
      ymdText, dmyText.
    rewrite H1, S2, H2, S3, H3, H4. cbn [andb].
    rewrite Ha, Hb, Hc, Hd. reflexivity.
Qed.

Lemma date_key_round_trip_witness :
  exists m,
    Db.toMySQLDate "18/10/2025" = Some m
    /\ Excel.parseExcelDate (Excel.VString m) = Some "18/10/2025".
Proof.
  destruct (date_key_round_trip "18/10/2025" eq_refl)
    as (m & H1 & _ & _ & H2).
  now exists m.
Defined.

Lemma hasKey_keyOf (d c : string) (x : Db.dbRow) :
  Db.hasKey d c x = true <-> keyOf x = (d, c).
Proof.
  unfold Db.hasKey, keyOf. split.
  - intros H. apply andb_true_iff in H as [Hd Hc].
    apply String.eqb_eq in Hd, Hc. now subst.
  - intros H. injection H as -> ->. now rewrite !String.eqb_refl.
Qed.

Lemma upsert_spec (d c : string) (r : DailyRecord) (db : Db.database) :
  let row := {| Db.rowDate := d; Db.rowCategory := c; Db.rowRecord := r |} in
  find (Db.hasKey d c) (Db.upsert d c r db) = Some row
  /\ map keyOf (Db.upsert d c r db)
     = (if existsb (Db.hasKey d c) db then map keyOf db
        else map keyOf db ++ [(d, c)])%list
  /\ forall x, In x db -> Db.hasKey d c x = false ->
       In x (Db.upsert d c r db).
Proof.
  cbv zeta.
  assert (Hrow : Db.hasKey d c
                   {| Db.rowDate := d; Db.rowCategory := c;
                      Db.rowRecord := r |} = true)
    by (unfold Db.hasKey; simpl; now rewrite !String.eqb_refl).
  induction db as [|x db (Hfind & Hkeys & Hin)].
  - simpl. rewrite Hrow. repeat split. intros x [].
  - cbn [Db.upsert existsb]. destruct (Db.hasKey d c x) eqn:E.
    + cbn [find map orb]. rewrite Hrow. repeat split.
      * f_equal. apply hasKey_keyOf in E. exact (eq_sym E).
      * intros y [<- | Hy] Hk; [congruence | now right].
    + cbn [find map orb]. rewrite E. repeat split.
      * exact Hfind.
      * destruct (existsb (Db.hasKey d c) db); simpl; now rewrite Hkeys.
      * intros y [<- | Hy] Hk; [now left | right; now apply Hin].
Qed.

Lemma existsb_hasKey (d c : string) (db : Db.database) :
  existsb (Db.hasKey d c) db = true <-> In (d, c) (map keyOf db).
Proof.
  rewrite existsb_exists, in_map_iff. split.
  - intros (x & Hx & Hk). exists x. split; [|exact Hx].
    now apply hasKey_keyOf.
  - intros (x & Hk & Hx). exists x. split; [exact Hx|].
    now apply hasKey_keyOf.
Qed.



(** ** The import of a sheet *)

Section SheetImport.

Import Excel Migration.

Variables (l : Layout) (category : string).

(** The time of recording apart, what a row yields does not depend on the
    clock. *)
Lemma buildRow_clock (now now' : string) (r : sheetRow) :
  buildRow l category now' r
  = match buildRow l category now r with
    | NotData => NotData
    | AllZero => AllZero
    | Built rec => Built (withTimestamp now' rec)
    end.
Proof.
  unfold buildRow. destruct r as [|v r]; [reflexivity|].
  destruct (dateOfRow (dateColumn l) (v :: r)); [|reflexivity].
  cbv zeta.
  destruct (JS.isZero _ && forallb JS.isZero _); reflexivity.
Qed.

Lemma dateOfRow_canonical (dateCol : Z) (r : sheetRow) (d : string) :
  dateOfRow dateCol r = Some d -> canonicalDate d = true.
Proof.
  unfold dateOfRow.
  destruct (firstSome _ _) as [d'|] eqn:E.
  - intros H. injection H as <-.
    apply firstSome_in in E as (k & _ & E).
    eapply parseExcelDate_canonical, E.
  - destruct (0 <=? dateCol)%Z; [|discriminate].
    apply parseExcelDate_canonical.
Qed.

Lemma built_date (now : string) (r : sheetRow) (rec : DailyRecord) :
  buildRow l category now r = Built rec -> canonicalDate (date rec) = true.
Proof.
  unfold buildRow. destruct r as [|v r]; [discriminate|].
  destruct (dateOfRow (dateColumn l) (v :: r)) as [d|] eqn:E; [|discriminate].
  cbv zeta. destruct (JS.isZero _ && forallb JS.isZero _); [discriminate|].
  intros H. injection H as <-. cbn [date].
  eapply dateOfRow_canonical, E.
Qed.

Lemma isDateRecorded_upsert (db0 : Db.database) (d c : string)
  (r : DailyRecord) (dateStr c' : string) :
  Db.isDateRecorded db0 dateStr c' = true ->
  Db.isDateRecorded (Db.upsert d c r db0) dateStr c' = true.
Proof.
  unfold Db.isDateRecorded.
  destruct (Db.toMySQLDate dateStr) as [d'|]; [|discriminate].
  rewrite !existsb_hasKey.
  destruct (upsert_spec d c r db0) as (_ & -> & _).
  destruct (existsb (Db.hasKey d c) db0); [auto|].
  intros H. apply in_or_app. now left.
Qed.

(** One row of a real run: what was recorded stays so, and the date of
    the record the row yields is recorded afterwards. *)
Lemma migrateRow_records (clock : nat -> string) (p : progress)
  (r : sheetRow) :
  let p1 := migrateRow l category false clock p r in
  (forall d c, Db.isDateRecorded (db p) d c = true ->
               Db.isDateRecorded (db p1) d c = true)
  /\ (forall now rec, buildRow l category now r = Built rec ->
        Db.isDateRecorded (db p1) (date rec) category = true).
Proof.
  cbv zeta. unfold migrateRow.
  set (now0 := clock (List.length (records p))).
  destruct (buildRow l category now0 r) as [| | rec0] eqn:E0.
  - split; [auto|]. intros now rec H.
    rewrite (buildRow_clock now0 now), E0 in H. discriminate.
  - split; [auto|]. intros now rec H.
    rewrite (buildRow_clock now0 now), E0 in H. discriminate.
  - assert (Hdate : forall now rec, buildRow l category now r = Built rec ->
              date rec = date rec0).
    { intros now rec H. rewrite (buildRow_clock now0 now), E0 in H.
      injection H as <-. reflexivity. }
    destruct (Db.isDateRecorded (db p) (date rec0) category) eqn:Erec.
    + cbn [db]. split; [auto|].
      intros now rec H. now rewrite (Hdate _ _ H).
    + destruct (toMySQLDate_canonical _ (built_date _ _ _ E0)) as [m Hm].
      unfold Db.saveDailyRecord. rewrite Hm. cbn [db]. split.
      * intros d c. apply isDateRecorded_upsert.
      * intros now rec H. rewrite (Hdate _ _ H).
        unfold Db.isDateRecorded. rewrite Hm.
        destruct (upsert_spec m category rec0 (db p)) as (Hfind & _).
        apply existsb_exists. apply find_some in Hfind. eauto.
Qed.

(** A real run records the date of every record a row of the sheet
    yields. *)
Lemma migrate_records_all (clock : nat -> string) (rows : list sheetRow) :
  forall p,
    let p' := fold_left (migrateRow l category false clock) rows p in
    (forall d c, Db.isDateRecorded (db p) d c = true ->
                 Db.isDateRecorded (db p') d c = true)
    /\ (forall r now rec, In r rows ->
          buildRow l category now r = Built rec ->
          Db.isDateRecorded (db p') (date rec) category = true).
Proof.
  induction rows as [|r rows IH]; intros p; cbv zeta.
  - split; [auto | intros r now rec []].
  - cbn [fold_left].
    destruct (migrateRow_records clock p r) as [Hmono Hrow].
    destruct (IH (migrateRow l category false clock p r)) as [Hmono' Hrows].
    split; [auto|].
    intros r' now rec [<- | Hin] H; [|eauto].
    apply Hmono'. eapply Hrow, H.
Qed.

(** A real run on a database that holds the dates of all the rows saves
    nothing. *)
Lemma migrate_nothing_new (clock : nat -> string) (rows : list sheetRow)
  (db1 : Db.database) :
  (forall r now rec, In r rows ->
     buildRow l category now r = Built rec ->
     Db.isDateRecorded db1 (date rec) category = true) ->
  forall p,
    db p = db1 ->
    db (fold_left (migrateRow l category false clock) rows p) = db1
    /\ processed (fold_left (migrateRow l category false clock) rows p)
       = processed p.
Proof.
  induction rows as [|r rows IH]; intros Hall p Hp; [auto|].
  cbn [fold_left].
  assert (Hstep : db (migrateRow l category false clock p r) = db1
                  /\ processed (migrateRow l category false clock p r)
                     = processed p).
  { unfold migrateRow.
    destruct (buildRow l category _ r) as [| | rec] eqn:E; auto.
    rewrite Hp, (Hall r _ rec (or_introl eq_refl) E). auto. }
  destruct Hstep as [Hdb Hproc].
  destruct (IH (fun r' now rec H => Hall r' now rec (or_intror H)) _ Hdb)
    as [H1 H2].
  split; [exact H1 | now rewrite H2].
Qed.

(** A dry run next to a real run: the same records, in the same order;
    the dry run leaves the database alone and counts every record as
    processed. *)
Lemma dry_and_real (clock : nat -> string) (rows : list sheetRow) :
  forall pd pr,
    records pd = records pr ->
    let pd' := fold_left (migrateRow l category true clock) rows pd in
    let pr' := fold_left (migrateRow l category false clock) rows pr in
    records pd' = records pr'
    /\ db pd' = db pd
    /\ (processed pd' + List.length (records pd)
        = processed pd + List.length (records pd'))%nat
    /\ (processed pd' + skipped pd' + (processed pr + skipped pr)
        = processed pr' + skipped pr' + (processed pd + skipped pd))%nat.
Proof.
  induction rows as [|r rows IH]; intros pd pr Hrec; cbv zeta.
  - simpl. repeat split; solve [exact Hrec | lia].
  - cbn [fold_left].
    set (pd1 := migrateRow l category true clock pd r).
    set (pr1 := migrateRow l category false clock pr r).
    assert (Hstep : records pd1 = records pr1 /\ db pd1 = db pd
              /\ (processed pd1 + List.length (records pd)
                  = processed pd + List.length (records pd1))%nat
              /\ (processed pd1 + skipped pd1 + (processed pr + skipped pr)
                  = processed pr1 + skipped pr1
                    + (processed pd + skipped pd))%nat).
    { unfold pd1, pr1, migrateRow. rewrite <- Hrec.
      destruct (buildRow l category _ r) as [| | rec];
        [| |destruct (Db.isDateRecorded (db pr) (date rec) category);
            [|destruct (Db.saveDailyRecord (db pr) rec category)]];
        cbn; rewrite <- ?Hrec, ?length_app; cbn; repeat split; lia. }
    destruct Hstep as (H1 & H2 & H3 & H4).
    destruct (IH pd1 pr1 H1) as (I1 & I2 & I3 & I4).
    repeat split; [exact I1 | congruence | lia | lia].
Qed.

(** Where the records of a run come from. *)
Lemma records_are_built (dryRun : bool) (clock : nat -> string)
  (rows : list sheetRow) (rec : DailyRecord) :
  forall p,
    In rec (records (fold_left (migrateRow l category dryRun clock) rows p)) ->
    In rec (records p)
    \/ exists r, In r rows /\ builds l category r rec.
Proof.
  induction rows as [|r rows IH]; intros p H; [now left|].
  cbn [fold_left] in H. apply IH in H as [H | (r' & Hin & Hb)].
  - unfold migrateRow in H.
    destruct (buildRow l category _ r) as [| | rec0] eqn:E;
      try (now left).
    assert (Hin : In rec (records p ++ [rec0])%list).
    { destruct dryRun; [exact H|].
      destruct (Db.isDateRecorded _ _ _); [exact H|].
      destruct (Db.saveDailyRecord _ _ _); exact H. }
    apply in_app_or in Hin as [Hin | [<- | []]]; [now left|].
    right. exists r. split; [now left|]. eexists. exact E.
  - right. exists r'. split; [now right | exact Hb].
Qed.

End SheetImport.

Lemma findCdcName_in (s name : string) :
  Excel.findCdcName s = Some name -> In name cdcOrder.
Proof.
  unfold Excel.findCdcName. destruct (JS.truthy s); [|discriminate].
  intros H. apply firstSome_in in H as ([key vars] & _ & H).
  destruct (existsb _ vars); [|discriminate].
  apply mapped_in in H. exact H.
Qed.

Lemma resolvedFrom_in (r : Excel.sheetRow) :
  forall colIdx entry,
    In entry (resolvedFrom colIdx r) -> In (snd entry) cdcOrder.
Proof.
  induction r as [|v r IH]; intros colIdx entry; cbn [resolvedFrom]; [intros []|].
  destruct (Excel.findCdcName (scanText v)) as [name|] eqn:E; [|apply IH].
  intros [<- | H]; [|eapply IH, H].
  eapply findCdcName_in, E.
Qed.

Lemma setTotal_keys (key : string) (v : JS.number) (m : totals) :
  In key (map fst m) ->
  map fst (Migration.setTotal key v m) = map fst m.
Proof.
  induction m as [|[k x] m IH]; cbn [Migration.setTotal map fst]; [intros []|].
  destruct (String.eqb k key) eqn:E; [reflexivity|].
  intros [-> | H]; [rewrite String.eqb_refl in E; discriminate|].
  cbn [map fst]. now rewrite IH.
Qed.

Lemma rowTotals_keys (cols : list (nat * string)) (r : Excel.sheetRow) :
  (forall entry, In entry cols -> In (snd entry) cdcOrder) ->
  map fst (Migration.rowTotals cols r) = cdcOrder.
Proof.
  unfold Migration.rowTotals.
  assert (G : forall acc, map fst acc = cdcOrder ->
            (forall entry, In entry cols -> In (snd entry) cdcOrder) ->
            map fst
              (fold_left
                 (fun acc (entry : nat * string) =>
                    Migration.setTotal (snd entry)
                      (Excel.parseNumericValue (Excel.elem r (fst entry))) acc)
                 cols acc) = cdcOrder).
  { induction cols as [|e cols IH]; intros acc Hacc Hall; [exact Hacc|].
    cbn [fold_left]. apply IH.
    - rewrite setTotal_keys; [exact Hacc|].
      rewrite Hacc. apply Hall. now left.
    - intros entry H. apply Hall. now right. }
  intros Hall. apply G; [apply zeroTotals_ok | exact Hall].
Qed.

(** The location columns of a sheet name locations of the list. *)
Lemma header_columns_in (data : list Excel.sheetRow) (entry : nat * string) :
  In entry (Migration.cdcColumns (Migration.locateHeader data)) ->
  In (snd entry) cdcOrder.
Proof.
  unfold Migration.locateHeader.
  assert (G : forall rows rowIdx dateCol totalCol,
            In entry (Migration.cdcColumns
                        (Migration.scanRows rowIdx dateCol totalCol rows)) ->
            In (snd entry) cdcOrder).
  { induction rows as [|r rows IH]; intros rowIdx dateCol totalCol;
      cbn [Migration.scanRows]; [intros []|].
    destruct (scanRow_spec dateCol totalCol r) as (_ & Ht & _).
    destruct (5 <=? _)%nat; [|apply IH].
    cbn [Migration.cdcColumns]. rewrite Ht. apply resolvedFrom_in. }
  apply G.
Qed.

(** What a record built from a data row holds. *)
Lemma built_shape (data : list Excel.sheetRow) (category now : string)
  (r : Excel.sheetRow) (rec : DailyRecord) :
  let l := Migration.locateHeader data in
  Migration.buildRow l category now r = Migration.Built rec ->
  map fst (cdcTotals rec) = cdcOrder
  /\ JS.isZero (totalSum rec)
     && forallb JS.isZero (map snd (cdcTotals rec)) = false
  /\ ((Migration.totalColumn l < 0)%Z ->
      totalSum rec = sumOfTotals (cdcTotals rec))
  /\ khonKaenLaos rec
     = (if String.eqb category "orange" then Some JS.zero else None)
  /\ khonKaenCambodia rec = khonKaenLaos rec.
Proof.
  cbv zeta. unfold Migration.buildRow. destruct r as [|v r]; [discriminate|].
  destruct (Migration.dateOfRow _ (v :: r)) as [d|]; [|discriminate].
  cbv zeta.
  destruct (JS.isZero _ && forallb JS.isZero _) eqn:E; [discriminate|].
  intros H. injection H as <-.
  cbn [cdcTotals totalSum khonKaenLaos khonKaenCambodia].
  split; [apply rowTotals_keys; intros e; apply header_columns_in|].
  split; [exact E|].
  split; [|split; reflexivity].
  intros Hneg. unfold Migration.rowTotalSum, sumOfTotals.
  destruct (0 <=? _)%Z eqn:E0; [apply Z.leb_le in E0; lia | reflexivity].
Qed.

(** X12.  A dry run of the import of a sheet never touches the database;
    it builds the same records, in the same order, as a real run from the
    same database, counts each of them as processed, and agrees with the
    real run on the number of rows counted as processed or skipped. *)
Theorem dry_run_leaves_database (data : list Excel.sheetRow)
  (category : string) (clock : nat -> string) (db0 : Db.database) :
  let dry := Migration.parseAndMigrateSheet data category true clock db0 in
  let real := Migration.parseAndMigrateSheet data category false clock db0 in
  Migration.db dry = db0
  /\ Migration.records dry = Migration.records real
  /\ Migration.processed dry = List.length (Migration.records dry)
  /\ (Migration.processed dry + Migration.skipped dry
      = Migration.processed real + Migration.skipped real)%nat.
Proof.
  cbv zeta. unfold Migration.parseAndMigrateSheet. cbv zeta.
  destruct (Migration.headerRowIndex _ =? -1)%Z;
    [cbn; repeat split; reflexivity|].
  set (start := {| Migration.processed := 0; Migration.skipped := 0;
                   Migration.records := []; Migration.db := db0 |}).
  destruct (dry_and_real (Migration.locateHeader data) category clock
              (skipn (S (Z.to_nat (Migration.headerRowIndex
                                     (Migration.locateHeader data)))) data)
              start start eq_refl) as (H1 & H2 & H3 & H4).
  cbn [start Migration.processed Migration.skipped Migration.records
       Migration.db List.length] in H2, H3, H4.
  repeat split; [exact H2 | exact H1 | lia | lia].
Qed.

(** Two runs over the same rows, dry or not, with any clocks and from any
    databases: the same records up to the time of recording, and as many
    rows counted. *)
Lemma runs_agree (l : Migration.Layout) (category : string)
  (dry1 dry2 : bool) (clock1 clock2 : nat -> string)
  (rows : list Excel.sheetRow) :
  forall p1 p2,
    map (withTimestamp "") (Migration.records p1)
    = map (withTimestamp "") (Migration.records p2) ->
    let q1 := fold_left (Migration.migrateRow l category dry1 clock1) rows p1 in
    let q2 := fold_left (Migration.migrateRow l category dry2 clock2) rows p2 in
    map (withTimestamp "") (Migration.records q1)
    = map (withTimestamp "") (Migration.records q2)
    /\ (Migration.processed q1 + Migration.skipped q1
        + (Migration.processed p2 + Migration.skipped p2)
        = Migration.processed q2 + Migration.skipped q2
          + (Migration.processed p1 + Migration.skipped p1))%nat.
Proof.
  induction rows as [|r rows IH]; intros p1 p2 Hrec; cbv zeta.
  - cbn [fold_left]. split; [exact Hrec | lia].
  - cbn [fold_left].
    set (r1 := Migration.migrateRow l category dry1 clock1 p1 r).
    set (r2 := Migration.migrateRow l category dry2 clock2 p2 r).
    assert (Hstep :
      map (withTimestamp "") (Migration.records r1)
      = map (withTimestamp "") (Migration.records r2)
      /\ (Migration.processed r1 + Migration.skipped r1
          + (Migration.processed p2 + Migration.skipped p2)
          = Migration.processed r2 + Migration.skipped r2
            + (Migration.processed p1 + Migration.skipped p1))%nat).
    { unfold r1, r2, Migration.migrateRow.
      rewrite (buildRow_clock l category
                 (clock1 (List.length (Migration.records p1)))
                 (clock2 (List.length (Migration.records p2))) r).
      destruct (Migration.buildRow l category
                  (clock1 (List.length (Migration.records p1))) r)
        as [| | rec]; [split; [exact Hrec | lia] | cbn; split; [exact Hrec | lia] |].
      cbv zeta.
      destruct dry1, dry2;
        repeat match goal with
               | |- context [if ?b then _ else _] => destruct b
               | |- context [match Db.saveDailyRecord ?a ?b ?c with _ => _ end] =>
                   destruct (Db.saveDailyRecord a b c)
               end;
        cbn [Migration.records Migration.processed Migration.skipped];
        rewrite !map_app, Hrec; (split; [reflexivity | lia]). }
    destruct Hstep as [H1 H2].
    destruct (IH r1 r2 H1) as [I1 I2].
    split; [exact I1 | lia].
Qed.

(** X13.  Importing a sheet a second time, into the database the first
    import left, saves nothing: no row is processed and the database stays
    as it was, whatever the clock of the second run.  Every row the first
    run processed or skipped is skipped, and the records built are those
    of the first run, the time of recording apart. *)
Theorem second_import_saves_nothing (data : list Excel.sheetRow)
  (category : string) (clock clock' : nat -> string) (db0 : Db.database) :
  let first := Migration.parseAndMigrateSheet data category false clock db0 in
  let second :=
    Migration.parseAndMigrateSheet data category false clock'
      (Migration.db first) in
  Migration.db second = Migration.db first
  /\ Migration.processed second = 0%nat
  /\ Migration.skipped second
     = (Migration.processed first + Migration.skipped first)%nat
  /\ map (withTimestamp "") (Migration.records second)
     = map (withTimestamp "") (Migration.records first).
Proof.
  cbv zeta. unfold Migration.parseAndMigrateSheet. cbv zeta.
  destruct (Migration.headerRowIndex _ =? -1)%Z;
    [cbn; repeat split; reflexivity|].
  set (l := Migration.locateHeader data).
  set (rows := skipn (S (Z.to_nat (Migration.headerRowIndex l))) data).
  set (start := {| Migration.processed := 0; Migration.skipped := 0;
                   Migration.records := []; Migration.db := db0 |}).
  set (first := fold_left (Migration.migrateRow l category false clock)
                  rows start).
  set (start' := {| Migration.processed := 0; Migration.skipped := 0;
                    Migration.records := [];
                    Migration.db := Migration.db first |}).
  destruct (migrate_records_all l category clock rows start) as [_ Hall].
  fold first in Hall.
  destruct (migrate_nothing_new l category clock' rows (Migration.db first)
              Hall start' eq_refl) as [Hdb Hproc].
  destruct (runs_agree l category false false clock' clock rows start' start
              eq_refl) as [Hrec Hcount].
  fold first in Hrec, Hcount.
  cbn [start start' Migration.processed Migration.skipped] in Hproc, Hcount.
  repeat split; [exact Hdb | exact Hproc | lia | exact Hrec].
Qed.

(** X14.  Every record the import of a sheet builds comes from a row
    below the header row; its date is a canonical [DD/MM/YYYY] date, it
    holds a total for each of the eleven locations and for no other key,
    and its total and location totals are not all zero.  Where the sheet
    has no total column, its total is the sum of its location totals.  A
    record of the category [orange] holds [0] for Laos and Cambodia, a
    record of another category holds neither field. *)
Theorem imported_records_well_formed (data : list Excel.sheetRow)
  (category : string) (dryRun : bool) (clock : nat -> string)
  (db0 : Db.database) (rec : DailyRecord) :
  In rec (Migration.records
            (Migration.parseAndMigrateSheet data category dryRun clock db0)) ->
  (exists r, In r (dataRows data)
             /\ builds (Migration.locateHeader data) category r rec)
  /\ canonicalDate (date rec) = true
  /\ map fst (cdcTotals rec) = cdcOrder
  /\ JS.isZero (totalSum rec)
     && forallb JS.isZero (map snd (cdcTotals rec)) = false
  /\ ((Migration.totalColumn (Migration.locateHeader data) < 0)%Z ->
      totalSum rec = sumOfTotals (cdcTotals rec))
  /\ khonKaenLaos rec
     = (if String.eqb category "orange" then Some JS.zero else None)
  /\ khonKaenCambodia rec = khonKaenLaos rec.
Proof.
  unfold Migration.parseAndMigrateSheet. cbv zeta.
  destruct (Migration.headerRowIndex _ =? -1)%Z; [intros []|].
  intros H. apply records_are_built in H as [[] | (r & Hin & now & Hb)].
  split; [exists r; split; [exact Hin | exists now; exact Hb]|].
  split; [eapply built_date, Hb|].
  eapply built_shape, Hb.
Qed.

Lemma imported_records_well_formed_witness :
  exists rec,
    In rec (Migration.records
              (Migration.parseAndMigrateSheet sampleSheet "orange" true
                 (fun _ => "2025-10-20T08:00:00.000Z") []))
    /\ canonicalDate (date rec) = true
    /\ map fst (cdcTotals rec) = cdcOrder.
Proof.
  eexists. split; [vm_compute; left; reflexivity|].
  match goal with
  | |- canonicalDate (date ?r) = true /\ _ =>
      destruct (imported_records_well_formed sampleSheet "orange" true
                  (fun _ => "2025-10-20T08:00:00.000Z") [] r)
        as (_ & H1 & H2 & _);
        [vm_compute; left; reflexivity | split; assumption]
  end.
Defined.

(** ** Names of locations and of categories *)

Lemma prefix_split (n s : string) :
  prefix n s = true <-> exists q, s = (n ++ q)%string.
Proof.
  revert s. induction n as [|c n IH]; intros s; simpl.
  - split; [intros _; exists s; reflexivity | intros _; now destruct s].
  - destruct s as [|c' s]; simpl.
    + split; [discriminate | intros [q H]; discriminate].
    + destruct (Ascii.ascii_dec c c') as [<- | Hne].
      * rewrite IH. split; intros [q H]; exists q; congruence.
      * split; [discriminate | intros [q H]; congruence].
Qed.

Lemma includes_split (s n : string) :
  JS.includes s n = true <-> exists p q, s = (p ++ n ++ q)%string.
Proof.
  induction s as [|c s IH]; cbn [JS.includes].
  - rewrite Bool.orb_false_r, prefix_split. split.
    + intros [q H]. exists ""%string, q. exact H.
    + intros (p & q & H). destruct p as [|c p]; [|discriminate].
      exists q. exact H.
  - rewrite Bool.orb_true_iff, prefix_split, IH. split.
    + intros [[q H] | (p & q & H)].
      * exists ""%string, q. exact H.
      * exists (String c p), q. simpl. now rewrite H.
    + intros (p & q & H). destruct p as [|c' p].
      * left. exists q. exact H.
      * right. simpl in H. injection H as _ H. exists p, q. exact H.
Qed.

Lemma string_app_assoc (a b c : string) :
  ((a ++ b) ++ c = a ++ b ++ c)%string.
Proof. induction a as [|x a IH]; simpl; [reflexivity | now rewrite IH]. Qed.

(** A text that contains a word contains what the word contains. *)
Lemma includes_trans (s n m : string) :
  JS.includes s n = true -> JS.includes n m = true ->
  JS.includes s m = true.
Proof.
  rewrite !includes_split. intros (p & q & ->) (p' & q' & ->).
  exists (p ++ p')%string, (q' ++ q)%string.
  now rewrite !string_app_assoc.
Qed.

Lemma firstSome_first {A B : Type} (f : A -> option B) (l : list A) (y : B) :
  firstSome f l = Some y ->
  exists before x after,
    l = (before ++ x :: after)%list /\ f x = Some y
    /\ forall x', In x' before -> f x' = None.
Proof.
  induction l as [|x l IH]; simpl; [discriminate|].
  destruct (f x) as [y'|] eqn:E.
  - intros H. injection H as ->. exists [], x, l.
    split; [reflexivity|]. split; [exact E | intros x' []].
  - intros H. destruct (IH H) as (before & x0 & after & -> & Hx & Hb).
    exists (x :: before), x0, after.
    split; [reflexivity|]. split; [exact Hx|].
    intros x' [<- | Hin]; [exact E | now apply Hb].
Qed.

Lemma firstSome_none {A B : Type} (f : A -> option B) (l : list A) :
  firstSome f l = None -> forall x, In x l -> f x = None.
Proof.
  induction l as [|x l IH]; simpl; [intros _ x []|].
  destruct (f x) as [y|] eqn:E; [discriminate|].
  intros H x' [<- | Hin]; [exact E | now apply IH].
Qed.

(** Every key of the table of variations has a full name. *)
Lemma variations_are_mapped (entry : string * list string) :
  In entry Excel.CDC_VARIATIONS ->
  exists full, mapped Excel.CDC_NAME_TO_FULL (fst entry) = Some full.
Proof.
  intros H. repeat (destruct H as [<- | H]; [eexists; reflexivity|]).
  destruct H.
Qed.

(** X15.  [findCdcName] answers with the full name of the first entry of
    the table of variations, in the order of the table, one of whose
    variations occurs in the trimmed text; the answer is one of the eleven
    locations.  It answers [null] exactly when the text is empty or no
    variation of any entry occurs in it.  Trimming the text beforehand
    changes nothing. *)
Theorem findCdcName_first_entry (cellValue : string) :
  let occurs (entry : string * list string) :=
    existsb (fun variation => JS.includes (JS.trim cellValue) variation)
      (snd entry) in
  match Excel.findCdcName cellValue with
  | Some name =>
      In name cdcOrder
      /\ exists before entry after,
           Excel.CDC_VARIATIONS = (before ++ entry :: after)%list
           /\ occurs entry = true
           /\ mapped Excel.CDC_NAME_TO_FULL (fst entry) = Some name
           /\ forall e, In e before -> occurs e = false
  | None =>
      cellValue = ""%string
      \/ forall e, In e Excel.CDC_VARIATIONS -> occurs e = false
  end
  /\ Excel.findCdcName (JS.trim cellValue) = Excel.findCdcName cellValue.
Proof.
  cbv zeta. split.
  - destruct (Excel.findCdcName cellValue) as [name|] eqn:E.
    + split; [eapply findCdcName_in, E|].
      unfold Excel.findCdcName in E.
      destruct (JS.truthy cellValue); [|discriminate].
      apply firstSome_first in E
        as (before & [key vars] & after & Hl & Hx & Hb).
      exists before, (key, vars), after. cbn [fst snd].
      destruct (existsb _ vars) eqn:Ev; [|discriminate].
      split; [exact Hl|]. split; [reflexivity|]. split; [exact Hx|].
      intros [key' vars'] Hin. cbn [snd].
      assert (Hmapped : In (key', vars') Excel.CDC_VARIATIONS).
      { rewrite Hl. apply in_or_app. now left. }
      apply variations_are_mapped in Hmapped as [full Hfull].
      specialize (Hb _ Hin). cbn beta iota in Hb. cbn [fst] in Hfull.
      destruct (existsb _ vars'); [congruence | reflexivity].
    + unfold Excel.findCdcName in E.
      destruct cellValue as [|c s]; [now left|]. right.
      cbn [JS.truthy] in E.
      intros [key vars] Hin. cbn [snd].
      pose proof (firstSome_none _ _ E _ Hin) as Hn. cbn beta iota in Hn.
      apply variations_are_mapped in Hin as [full Hfull]. cbn [fst] in Hfull.
      destruct (existsb _ vars); [congruence | reflexivity].
  - unfold Excel.findCdcName. rewrite trim_idem.
    destruct (JS.trim cellValue) as [|c s] eqn:Et.
    + cbn [JS.truthy]. destruct (JS.truthy cellValue); reflexivity.
    + cbn [JS.truthy]. destruct cellValue as [|c' s']; [discriminate|].
      reflexivity.
Qed.

Lemma firstn_app_firstn {A : Type} (n : nat) (a b : list A) :
  firstn n (a ++ firstn n b)%list = firstn n (a ++ b)%list.
Proof.
  rewrite !firstn_app, firstn_firstn.
  now rewrite (Nat.min_l (n - List.length a) n) by lia.
Qed.

Lemma saveDetectionLog_fold {A : Type} (entries : list A) :
  forall logs : list A,
    entries <> [] ->
    fold_left saveDetectionLog entries logs
    = firstn 100 (rev entries ++ logs)%list.
Proof.
  induction entries as [|e entries IH]; intros logs Hne; [congruence|].
  cbn [fold_left]. destruct entries as [|e' entries].
  - reflexivity.
  - rewrite IH by discriminate. unfold saveDetectionLog.
    rewrite firstn_app_firstn. cbn [rev]. now rewrite <- !app_assoc.
Qed.

(** X16.  After any number of detections logged, the log holds the
    hundred newest entries, the newest first: the entries logged, in
    reverse order, before what the log held, cut at a hundred. *)
Theorem detection_log_keeps_newest {A : Type} (logs entries : list A)
  (logEntry : A) :
  let logs' := saveDetectionLog (fold_left saveDetectionLog entries logs)
                 logEntry in
  logs' = firstn 100 (logEntry :: rev entries ++ logs)%list
  /\ (List.length logs' <= 100)%nat
  /\ hd_error logs' = Some logEntry
  /\ (List.length logs' = 100%nat
      \/ logs' = (logEntry :: rev entries ++ logs)%list).
Proof.
  cbv zeta.
  assert (E : saveDetectionLog (fold_left saveDetectionLog entries logs)
                logEntry
              = firstn 100 (logEntry :: rev entries ++ logs)%list).
  { change (saveDetectionLog (fold_left saveDetectionLog entries logs)
              logEntry)
      with (fold_left saveDetectionLog [logEntry]
              (fold_left saveDetectionLog entries logs)).
    rewrite <- fold_left_app, saveDetectionLog_fold.
    - rewrite rev_app_distr. reflexivity.
    - intros H. apply app_eq_nil in H as [_ H]. discriminate. }
  rewrite E. split; [reflexivity|]. split; [apply firstn_le_length|].
  split; [reflexivity|].
  destruct (Nat.le_gt_cases 100
              (List.length (logEntry :: rev entries ++ logs)%list)) as [H|H].
  - left. now apply firstn_length_le.
  - right. apply firstn_all2. lia.
Qed.

(** X17.  The category the import gives a sheet is one of the five of
    [CATEGORIES].  A sheet gets none exactly when its name, in lower case,
    contains none of [orange], [pop], [tomato], [yuzu], [mixed], and, as it
    is, none of the four Thai words: the tests for [shinsen pop] and for
    the longer Thai name of the mixed juice decide nothing.  A name that
    mentions [orange], [pop] or [tomato] is never taken for [yuzu]. *)
Theorem detectCategory_in_categories (sheetName : string) :
  let name := JS.toLowerCase sheetName in
  (forall c, detectCategory sheetName = Some c -> In c CATEGORIES)
  /\ (detectCategory sheetName = None <->
      existsb (JS.includes name) ["orange"; "pop"; "tomato"; "yuzu"; "mixed"]
      = false
      /\ existsb (JS.includes sheetName) ["ส้ม"; "มะเขือเท"; "ยูซุ"; "ผลไม้รวม"]
         = false)
  /\ (detectCategory sheetName = Some "yuzu" ->
      existsb (JS.includes name) ["orange"; "pop"; "tomato"] = false).
Proof.
  cbv zeta.
  assert (Epop :
    JS.includes (JS.toLowerCase sheetName) "pop"
    || JS.includes (JS.toLowerCase sheetName) "shinsen pop"
    = JS.includes (JS.toLowerCase sheetName) "pop").
  { destruct (JS.includes (JS.toLowerCase sheetName) "shinsen pop") eqn:E;
      [|apply Bool.orb_false_r].
    now rewrite (includes_trans _ "shinsen pop" "pop" E eq_refl). }
  assert (Emix :
    JS.includes (JS.toLowerCase sheetName) "mixed"
    || JS.includes sheetName "ผลไม้รวม"
    || JS.includes sheetName "น้ำผลไม้รวม"
    = JS.includes (JS.toLowerCase sheetName) "mixed"
      || JS.includes sheetName "ผลไม้รวม").
  { destruct (JS.includes sheetName "น้ำผลไม้รวม") eqn:E;
      [|apply Bool.orb_false_r].
    rewrite (includes_trans _ "น้ำผลไม้รวม" "ผลไม้รวม" E eq_refl).
    now rewrite !Bool.orb_true_r. }
  unfold detectCategory. cbv zeta. rewrite Epop, Emix. clear Epop Emix.
  cbn [existsb CATEGORIES In].
  destruct (JS.includes (JS.toLowerCase sheetName) "orange");
    [cbn; repeat split; try discriminate;
       [intros c H; injection H as <-; auto | intros []; discriminate]|].
  destruct (JS.includes sheetName "ส้ม");
    [cbn; repeat split; try discriminate;
       [intros c H; injection H as <-; auto
       | intros [_ H]; discriminate]|].
  destruct (JS.includes (JS.toLowerCase sheetName) "pop");
    [cbn; repeat split; try discriminate;
       [intros c H; injection H as <-; auto 6
       | intros [H _]; discriminate]|].
  destruct (JS.includes (JS.toLowerCase sheetName) "tomato");
    [cbn; repeat split; try discriminate;
       [intros c H; injection H as <-; auto 6
       | intros [H _]; discriminate]|].
  destruct (JS.includes sheetName "มะเขือเท");
    [cbn; repeat split; try discriminate;
       [intros c H; injection H as <-; auto 6
       | intros [_ H]; discriminate]|].
  destruct (JS.includes (JS.toLowerCase sheetName) "yuzu");
    [cbn; repeat split; try discriminate;
       [intros c H; injection H as <-; auto 6
       | intros [H _]; discriminate]|].
  destruct (JS.includes sheetName "ยูซุ");
    [cbn; repeat split; try discriminate;
       [intros c H; injection H as <-; auto 6
       | intros [_ H]; discriminate]|].
  destruct (JS.includes (JS.toLowerCase sheetName) "mixed");
    [cbn; repeat split; try discriminate;
       [intros c H; injection H as <-; auto 6
       | intros [H _]; discriminate]|].
  destruct (JS.includes sheetName "ผลไม้รวม");
    cbn; repeat split; try discriminate;
    try (intros c H; injection H as <-; auto 6);
    try (intros [_ H]; discriminate).
Qed.

(** ** The import of a sheet and of a workbook into the database *)

Lemma upsert_fresh (d c : string) (r : DailyRecord) (db0 : Db.database) :
  existsb (Db.hasKey d c) db0 = false ->
  Db.upsert d c r db0
  = (db0 ++ [{| Db.rowDate := d; Db.rowCategory := c; Db.rowRecord := r |}])%list.
Proof.
  induction db0 as [|x db0 IH]; cbn [Db.upsert existsb app]; [reflexivity|].
  destruct (Db.hasKey d c x); cbn [orb]; [discriminate|].
  intros H. now rewrite IH.
Qed.

(** A real run only appends rows to the database, one for each row it
    counts as processed. *)
Lemma migrate_appends (l : Migration.Layout) (category : string)
  (clock : nat -> string) (rows : list Excel.sheetRow) :
  forall p,
    let p' := fold_left (Migration.migrateRow l category false clock) rows p in
    exists added,
      Migration.db p' = (Migration.db p ++ added)%list
      /\ Migration.processed p' = (Migration.processed p + List.length added)%nat
      /\ Forall
           (fun x =>
              Db.rowCategory x = category
              /\ Db.toMySQLDate (date (Db.rowRecord x)) = Some (Db.rowDate x)
              /\ Db.isDateRecorded (Migration.db p) (date (Db.rowRecord x))
                   category = false
              /\ exists r, In r rows /\ builds l category r (Db.rowRecord x))
           added.
Proof.
  induction rows as [|r rows IH]; intros p; cbv zeta.
  - exists []. cbn [fold_left]. rewrite app_nil_r. cbn [List.length].
    split; [reflexivity|]. split; [lia | constructor].
  - cbn [fold_left].
    destruct (IH (Migration.migrateRow l category false clock p r))
      as (added & Hdb & Hproc & Hall).
    destruct (migrateRow_records l category clock p r) as [Hmono _].
    assert (Hall' : Forall
              (fun x =>
                 Db.rowCategory x = category
                 /\ Db.toMySQLDate (date (Db.rowRecord x)) = Some (Db.rowDate x)
                 /\ Db.isDateRecorded (Migration.db p) (date (Db.rowRecord x))
                      category = false
                 /\ exists r0, In r0 (r :: rows)
                               /\ builds l category r0 (Db.rowRecord x))
              added).
    { eapply Forall_impl; [|exact Hall].
      intros x (Hc & Hd & Hn & r0 & Hin & Hb).
      split; [exact Hc|]. split; [exact Hd|]. split.
      - destruct (Db.isDateRecorded (Migration.db p) _ category) eqn:E;
          [|reflexivity].
        apply Hmono in E. congruence.
      - exists r0. split; [now right | exact Hb]. }
    clear Hall.
    assert (Hstep : exists a0,
      Migration.db (Migration.migrateRow l category false clock p r)
      = (Migration.db p ++ a0)%list
      /\ Migration.processed (Migration.migrateRow l category false clock p r)
         = (Migration.processed p + List.length a0)%nat
      /\ Forall
           (fun x =>
              Db.rowCategory x = category
              /\ Db.toMySQLDate (date (Db.rowRecord x)) = Some (Db.rowDate x)
              /\ Db.isDateRecorded (Migration.db p) (date (Db.rowRecord x))
                   category = false
              /\ exists r0, In r0 (r :: rows)
                            /\ builds l category r0 (Db.rowRecord x))
           a0).
    { unfold Migration.migrateRow.
      destruct (Migration.buildRow l category _ r) as [| | rec] eqn:E.
      - exists []. rewrite app_nil_r. cbn [List.length].
        split; [reflexivity|]. split; [lia | constructor].
      - exists []. cbn [Migration.db Migration.processed].
        rewrite app_nil_r. cbn [List.length].
        split; [reflexivity|]. split; [lia | constructor].
      - cbv zeta.
        destruct (Db.isDateRecorded (Migration.db p) (date rec) category)
          eqn:Erec.
        + exists []. cbn [Migration.db Migration.processed].
          rewrite app_nil_r. cbn [List.length].
          split; [reflexivity|]. split; [lia | constructor].
        + destruct (toMySQLDate_canonical _ (built_date _ _ _ _ _ E))
            as [m Hm].
          unfold Db.saveDailyRecord. rewrite Hm.
          cbn [Migration.db Migration.processed].
          assert (Hfresh : existsb (Db.hasKey m category) (Migration.db p)
                           = false).
          { unfold Db.isDateRecorded in Erec. now rewrite Hm in Erec. }
          rewrite (upsert_fresh _ _ _ _ Hfresh).
          eexists. split; [reflexivity|]. split.
          * cbn [List.length]. lia.
          * constructor; [|constructor].
            cbn [Db.rowCategory Db.rowRecord Db.rowDate].
            split; [reflexivity|]. split; [exact Hm|]. split; [exact Erec|].
            exists r. split; [now left | eexists; exact E]. }
    destruct Hstep as (a0 & Hdb0 & Hproc0 & Hall0).
    exists (a0 ++ added)%list. rewrite Hdb, Hdb0, Hproc, Hproc0.
    rewrite <- app_assoc, length_app.
    split; [reflexivity|]. split; [lia|].
    apply Forall_app. split; assumption.
Qed.

(** X18.  A real import of a sheet only appends to the database: the rows
    that were there stay, in place and as they were, and one row is added
    for each row counted as processed.  A row added is filed under the
    category of the run and under the date of its record, converted; that
    date was not recorded for the category before the run, and the record
    is one a data row of the sheet yields. *)
Theorem import_only_appends (data : list Excel.sheetRow) (category : string)
  (clock : nat -> string) (db0 : Db.database) :
  let run := Migration.parseAndMigrateSheet data category false clock db0 in
  exists added,
    Migration.db run = (db0 ++ added)%list
    /\ List.length added = Migration.processed run
    /\ Forall (addedBy db0 data category) added.
Proof.
  cbv zeta. unfold Migration.parseAndMigrateSheet. cbv zeta.
  destruct (Migration.headerRowIndex _ =? -1)%Z.
  - exists []. cbn. rewrite app_nil_r. repeat split. constructor.
  - destruct (migrate_appends (Migration.locateHeader data) category clock
                (dataRows data)
                {| Migration.processed := 0; Migration.skipped := 0;
                   Migration.records := []; Migration.db := db0 |})
      as (added & Hdb & Hproc & Hall).
    exists added. split; [exact Hdb|]. split; [exact (eq_sym Hproc)|].
    exact Hall.
Qed.

(** The same, for the proofs on workbooks. *)
Lemma sheet_appends (data : list Excel.sheetRow) (category : string)
  (clock : nat -> string) (db0 : Db.database) :
  let run := Migration.parseAndMigrateSheet data category false clock db0 in
  exists added,
    Migration.db run = (db0 ++ added)%list
    /\ Migration.processed run = List.length added.
Proof.
  cbv zeta. unfold Migration.parseAndMigrateSheet. cbv zeta.
  destruct (Migration.headerRowIndex _ =? -1)%Z.
  - exists []. cbn. now rewrite app_nil_r.
  - destruct (migrate_appends (Migration.locateHeader data) category clock
                (dataRows data)
                {| Migration.processed := 0; Migration.skipped := 0;
                   Migration.records := []; Migration.db := db0 |})
      as (added & Hdb & Hproc & _).
    exists added. split; [exact Hdb | exact Hproc].
Qed.

Lemma sheet_dry (data : list Excel.sheetRow) (category : string)
  (clock : nat -> string) (db0 : Db.database) :
  Migration.db (Migration.parseAndMigrateSheet data category true clock db0)
  = db0.
Proof.
  unfold Migration.parseAndMigrateSheet. cbv zeta.
  destruct (Migration.headerRowIndex _ =? -1)%Z; [reflexivity|].
  set (start := {| Migration.processed := 0; Migration.skipped := 0;
                   Migration.records := []; Migration.db := db0 |}).
  destruct (dry_and_real (Migration.locateHeader data) category clock
              (dataRows data) start start eq_refl) as (_ & H & _).
  exact H.
Qed.

(** After a real import of a sheet the database holds what it held, and
    the dates of the sheet. *)
Lemma sheet_first_run (data : list Excel.sheetRow) (category : string)
  (clock : nat -> string) (db0 : Db.database) :
  let run := Migration.parseAndMigrateSheet data category false clock db0 in
  (forall d c, Db.isDateRecorded db0 d c = true ->
               Db.isDateRecorded (Migration.db run) d c = true)
  /\ (Migration.headerRowIndex (Migration.locateHeader data) <> (-1)%Z ->
      holdsSheet (Migration.db run) data category).
Proof.
  cbv zeta. unfold Migration.parseAndMigrateSheet. cbv zeta.
  destruct (Migration.headerRowIndex _ =? -1)%Z eqn:E.
  - apply Z.eqb_eq in E. split; [auto | congruence].
  - destruct (migrate_records_all (Migration.locateHeader data) category
                clock (dataRows data)
                {| Migration.processed := 0; Migration.skipped := 0;
                   Migration.records := []; Migration.db := db0 |})
      as [Hmono Hall].
    split; [exact Hmono|]. intros _ r now rec Hin Hb. eapply Hall; eauto.
Qed.

(** An import of a sheet into a database that holds its dates. *)
Lemma sheet_second_run (data : list Excel.sheetRow) (category : string)
  (clock : nat -> string) (db1 : Db.database) :
  (Migration.headerRowIndex (Migration.locateHeader data) <> (-1)%Z ->
   holdsSheet db1 data category) ->
  let run := Migration.parseAndMigrateSheet data category false clock db1 in
  Migration.db run = db1 /\ Migration.processed run = 0%nat.
Proof.
  intros Hholds. cbv zeta. unfold Migration.parseAndMigrateSheet. cbv zeta.
  destruct (Migration.headerRowIndex _ =? -1)%Z eqn:E; [split; reflexivity|].
  apply Z.eqb_neq in E.
  apply (migrate_nothing_new (Migration.locateHeader data) category clock
           (dataRows data) db1 (Hholds E)
           {| Migration.processed := 0; Migration.skipped := 0;
              Migration.records := []; Migration.db := db1 |} eq_refl).
Qed.

Lemma detectCategory_range (sheetName c : string) :
  detectCategory sheetName = Some c ->
  In c (map fst ExcelImport.noResults).
Proof.
  unfold detectCategory. cbv zeta.
  repeat match goal with
         | |- context [if ?b then _ else _] => destruct b
         end;
    intros H; inversion H; subst; simpl; auto 10.
Qed.

Lemma totalProcessed_sum (results : ExcelImport.counters) :
  ExcelImport.totalProcessed results
  = list_sum (map (fun entry => fst (snd entry)) results).
Proof.
  unfold ExcelImport.totalProcessed.
  assert (G : forall t,
            fold_left
              (fun total (entry : string * (nat * nat)) =>
                 let '(p, s) := snd entry in
                 if (0 <? p)%nat || (0 <? s)%nat then (total + p)%nat
                 else total)
              results t
            = (t + list_sum (map (fun entry => fst (snd entry)) results))%nat).
  { induction results as [|[c [p s]] results IH]; intros t;
      cbn [fold_left map fst snd]; [unfold list_sum; cbn [fold_right]; lia|].
    rewrite IH. unfold list_sum. cbn [fold_right].
    destruct (0 <? p)%nat eqn:Ep; cbn [orb]; [lia|].
    apply Nat.ltb_ge in Ep. destruct (0 <? s)%nat; lia. }
  apply (G 0%nat).
Qed.

Lemma addResult_ok (category : string) (p s : nat)
  (results : ExcelImport.counters) :
  In category (map fst results) ->
  exists results',
    ExcelImport.addResult category p s results = Some results'
    /\ map fst results' = map fst results
    /\ ExcelImport.totalProcessed results'
       = (ExcelImport.totalProcessed results + p)%nat.
Proof.
  assert (G : In category (map fst results) ->
    exists results',
      ExcelImport.addResult category p s results = Some results'
      /\ map fst results' = map fst results
      /\ list_sum (map (fun entry => fst (snd entry)) results')
         = (list_sum (map (fun entry => fst (snd entry)) results) + p)%nat);
    [|intros H; destruct (G H) as (r & H1 & H2 & H3); exists r;
      rewrite !totalProcessed_sum; auto].
  induction results as [|[c [p0 s0]] results IH]; [intros []|].
  cbn [ExcelImport.addResult map fst].
  destruct (String.eqb c category) eqn:E.
  - intros _. eexists. split; [reflexivity|].
    unfold list_sum. cbn [map fold_right fst snd].
    split; [reflexivity | lia].
  - intros [-> | H]; [rewrite String.eqb_refl in E; discriminate|].
    destruct (IH H) as (r & -> & Hk & Hs).
    eexists. split; [reflexivity|].
    unfold list_sum in *. cbn [map fold_right fst snd].
    rewrite Hk. split; [reflexivity | lia].
Qed.

Lemma importSheet_none (dryRun : bool) (clock : string -> nat -> string)
  (sheets : list (string * list Excel.sheetRow)) :
  fold_left (ExcelImport.importSheet dryRun clock) sheets None = None.
Proof. induction sheets as [|x sheets IH]; [reflexivity | exact IH]. Qed.

(** The loop over the sheets never fails; it only appends to the
    database, and not at all in a dry run. *)
Lemma main_fold (dryRun : bool) (clock : string -> nat -> string)
  (sheets : list (string * list Excel.sheetRow)) :
  forall st0,
    map fst (ExcelImport.results st0) = map fst ExcelImport.noResults ->
    exists st added,
      fold_left (ExcelImport.importSheet dryRun clock) sheets (Some st0)
      = Some st
      /\ map fst (ExcelImport.results st) = map fst ExcelImport.noResults
      /\ ExcelImport.database st = (ExcelImport.database st0 ++ added)%list
      /\ (if dryRun then added = []
          else ExcelImport.totalProcessed (ExcelImport.results st)
               = (ExcelImport.totalProcessed (ExcelImport.results st0)
                  + List.length added)%nat).
Proof.
  induction sheets as [|[sheetName data] sheets IH]; intros st0 Hkeys.
  - exists st0, []. cbn [fold_left]. rewrite app_nil_r.
    split; [reflexivity|]. split; [exact Hkeys|]. split; [reflexivity|].
    destruct dryRun; [reflexivity | cbn [List.length]; lia].
  - cbn [fold_left].
    assert (Hstep : exists st1 a0,
      ExcelImport.importSheet dryRun clock (Some st0) (sheetName, data)
      = Some st1
      /\ map fst (ExcelImport.results st1) = map fst ExcelImport.noResults
      /\ ExcelImport.database st1 = (ExcelImport.database st0 ++ a0)%list
      /\ (if dryRun then a0 = []
          else ExcelImport.totalProcessed (ExcelImport.results st1)
               = (ExcelImport.totalProcessed (ExcelImport.results st0)
                  + List.length a0)%nat)).
    { unfold ExcelImport.importSheet. cbn [fst snd].
      destruct (detectCategory sheetName) as [category|] eqn:Ec.
      - apply detectCategory_range in Ec. rewrite <- Hkeys in Ec.
        cbv zeta.
        set (result := Migration.parseAndMigrateSheet data category dryRun
                         (clock sheetName) (ExcelImport.database st0)).
        destruct (addResult_ok category (Migration.processed result)
                    (Migration.skipped result) _ Ec) as (r & -> & Hk & Ht).
        destruct dryRun.
        + eexists _, []. split; [reflexivity|].
          cbn [ExcelImport.results ExcelImport.database].
          split; [congruence|]. split; [|reflexivity].
          rewrite app_nil_r. apply sheet_dry.
        + destruct (sheet_appends data category (clock sheetName)
                      (ExcelImport.database st0)) as (a0 & Hdb & Hproc).
          fold result in Hdb, Hproc.
          eexists _, a0. split; [reflexivity|].
          cbn [ExcelImport.results ExcelImport.database].
          split; [congruence|]. split; [exact Hdb|]. lia.
      - exists st0, []. rewrite app_nil_r.
        split; [reflexivity|]. split; [exact Hkeys|]. split; [reflexivity|].
        destruct dryRun; [reflexivity | cbn [List.length]; lia]. }
    destruct Hstep as (st1 & a0 & -> & Hk1 & Hdb1 & Hcount1).
    destruct (IH st1 Hk1) as (st & added & Hfold & Hk & Hdb & Hcount).
    exists st, (a0 ++ added)%list.
    split; [exact Hfold|]. split; [exact Hk|].
    split; [rewrite Hdb, Hdb1; now rewrite app_assoc|].
    destruct dryRun; [now subst|].
    rewrite length_app. lia.
Qed.

(** After a real run over the sheets the database holds what it held, and
    the dates of every sheet read. *)
Lemma main_first (clock : string -> nat -> string)
  (sheets : list (string * list Excel.sheetRow)) :
  forall st0 st,
    fold_left (ExcelImport.importSheet false clock) sheets (Some st0)
    = Some st ->
    (forall d c, Db.isDateRecorded (ExcelImport.database st0) d c = true ->
                 Db.isDateRecorded (ExcelImport.database st) d c = true)
    /\ forall sheet c,
         In sheet sheets -> detectCategory (fst sheet) = Some c ->
         Migration.headerRowIndex (Migration.locateHeader (snd sheet))
         <> (-1)%Z ->
         holdsSheet (ExcelImport.database st) (snd sheet) c.
Proof.
  induction sheets as [|[sheetName data] sheets IH]; intros st0 st.
  - cbn [fold_left]. intros H. injection H as <-.
    split; [auto | intros sheet c []].
  - cbn [fold_left].
    destruct (ExcelImport.importSheet false clock (Some st0) (sheetName, data))
      as [st1|] eqn:E1; [|rewrite importSheet_none; discriminate].
    intros Hfold. destruct (IH st1 st Hfold) as [Hmono Hholds].
    assert (Hstep :
      (forall d c, Db.isDateRecorded (ExcelImport.database st0) d c = true ->
                   Db.isDateRecorded (ExcelImport.database st1) d c = true)
      /\ forall c, detectCategory sheetName = Some c ->
           Migration.headerRowIndex (Migration.locateHeader data) <> (-1)%Z ->
           holdsSheet (ExcelImport.database st1) data c).
    { unfold ExcelImport.importSheet in E1. cbn [fst snd] in E1.
      destruct (detectCategory sheetName) as [category|];
        [|injection E1 as <-; split; [auto | discriminate]].
      cbv zeta in E1.
      destruct (ExcelImport.addResult _ _ _ _) as [r|]; [|discriminate].
      injection E1 as <-. cbn [ExcelImport.database].
      destruct (sheet_first_run data category (clock sheetName)
                  (ExcelImport.database st0)) as [H1 H2].
      split; [exact H1|]. intros c Hc. injection Hc as <-. exact H2. }
    destruct Hstep as [Hmono1 Hholds1].
    split; [auto|].
    intros sheet c [<- | Hin] Hc Hh; [|eapply Hholds; eauto].
    cbn [fst snd] in *. intros r now rec Hr Hb.
    apply Hmono. eapply Hholds1; eauto.
Qed.

(** A real run over sheets whose dates the database holds saves nothing. *)
Lemma main_second (clock : string -> nat -> string)
  (sheets : list (string * list Excel.sheetRow)) (db1 : Db.database) :
  (forall sheet c,
     In sheet sheets -> detectCategory (fst sheet) = Some c ->
     Migration.headerRowIndex (Migration.locateHeader (snd sheet))
     <> (-1)%Z ->
     holdsSheet db1 (snd sheet) c) ->
  forall st1,
    ExcelImport.database st1 = db1 ->
    map fst (ExcelImport.results st1) = map fst ExcelImport.noResults ->
    exists st',
      fold_left (ExcelImport.importSheet false clock) sheets (Some st1)
      = Some st'
      /\ ExcelImport.database st' = db1
      /\ ExcelImport.totalProcessed (ExcelImport.results st')
         = ExcelImport.totalProcessed (ExcelImport.results st1).
Proof.
  induction sheets as [|[sheetName data] sheets IH]; intros Hholds st1 Hdb Hkeys.
  - exists st1. cbn [fold_left]. auto.
  - cbn [fold_left].
    assert (Hstep : exists st2,
      ExcelImport.importSheet false clock (Some st1) (sheetName, data)
      = Some st2
      /\ ExcelImport.database st2 = db1
      /\ map fst (ExcelImport.results st2) = map fst ExcelImport.noResults
      /\ ExcelImport.totalProcessed (ExcelImport.results st2)
         = ExcelImport.totalProcessed (ExcelImport.results st1)).
    { unfold ExcelImport.importSheet. cbn [fst snd].
      destruct (detectCategory sheetName) as [category|] eqn:Ec;
        [|exists st1; auto].
      cbv zeta. rewrite Hdb.
      destruct (sheet_second_run data category (clock sheetName) db1
                  (Hholds (sheetName, data) category (or_introl eq_refl) Ec))
        as [H1 H2].
      apply detectCategory_range in Ec. rewrite <- Hkeys in Ec.
      destruct (addResult_ok category
                  (Migration.processed
                     (Migration.parseAndMigrateSheet data category false
                        (clock sheetName) db1))
                  (Migration.skipped
                     (Migration.parseAndMigrateSheet data category false
                        (clock sheetName) db1)) _ Ec) as (r & -> & Hk & Ht).
      eexists. split; [reflexivity|].
      cbn [ExcelImport.results ExcelImport.database].
      split; [exact H1|]. split; [congruence|]. rewrite Ht, H2. lia. }
    destruct Hstep as (st2 & -> & Hdb2 & Hk2 & Ht2).
    destruct (IH (fun sheet c H => Hholds sheet c (or_intror H)) st2 Hdb2 Hk2)
      as (st' & Hfold & Hdb' & Ht').
    exists st'. split; [exact Hfold|]. split; [exact Hdb' | congruence].
Qed.

(** X19.  The import of a workbook never fails on the category of a
    sheet: every category given to a sheet has its counters.  It only
    appends to the database: not at all in a dry run, and in a real run
    as many rows as the summary counts as imported over all categories. *)
Theorem workbook_import_appends
  (sheets : list (string * list Excel.sheetRow)) (dryRun : bool)
  (clock : string -> nat -> string) (db0 : Db.database) :
  exists st added,
    ExcelImport.main sheets dryRun clock db0 = Some st
    /\ map fst (ExcelImport.results st) = CATEGORIES
    /\ ExcelImport.database st = (db0 ++ added)%list
    /\ (if dryRun then added = []
        else List.length added
             = ExcelImport.totalProcessed (ExcelImport.results st)).
Proof.
  unfold ExcelImport.main.
  destruct (main_fold dryRun clock sheets
              {| ExcelImport.results := ExcelImport.noResults;
                 ExcelImport.database := db0 |} eq_refl)
    as (st & added & Hfold & Hk & Hdb & Hcount).
  exists st, added. split; [exact Hfold|]. split; [exact Hk|].
  split; [exact Hdb|].
  destruct dryRun; [exact Hcount|].
  cbn in Hcount. lia.
Qed.

(** X20.  Importing a workbook a second time, into the database the first
    import left, imports nothing: the database stays as it was and the
    summary counts no row as imported, also when two sheets of the
    workbook are of one category and whatever the clocks. *)
Theorem workbook_second_import_saves_nothing
  (sheets : list (string * list Excel.sheetRow))
  (clock clock' : string -> nat -> string) (db0 : Db.database) :
  exists st st',
    ExcelImport.main sheets false clock db0 = Some st
    /\ ExcelImport.main sheets false clock' (ExcelImport.database st)
       = Some st'
    /\ ExcelImport.database st' = ExcelImport.database st
    /\ ExcelImport.totalProcessed (ExcelImport.results st') = 0%nat.
Proof.
  unfold ExcelImport.main.
  destruct (main_fold false clock sheets
              {| ExcelImport.results := ExcelImport.noResults;
                 ExcelImport.database := db0 |} eq_refl)
    as (st & added & Hfold & _).
  destruct (main_first clock sheets _ _ Hfold) as [_ Hholds].
  destruct (main_second clock' sheets (ExcelImport.database st) Hholds
              {| ExcelImport.results := ExcelImport.noResults;
                 ExcelImport.database := ExcelImport.database st |}
              eq_refl eq_refl) as (st' & Hfold' & Hdb' & Ht').
  exists st, st'. split; [exact Hfold|]. split; [exact Hfold'|].
  split; [exact Hdb' | exact Ht'].
Qed.

(** ** The migration of the records file *)

















(** ** The date of a live record and the key of the database *)

Lemma oneOrTwoDigits_shape (s dd r : string) :
  oneOrTwoDigitsSlash s = Some (dd, r) ->
  s = (dd ++ r)%string
  /\ ((exists a, JS.isDigit a = true /\ dd = String a (String "/" ""))
      \/ exists a b, JS.isDigit a = true /\ JS.isDigit b = true
                     /\ dd = String a (String b (String "/" ""))).
Proof.
  unfold oneOrTwoDigitsSlash.
  destruct s as [|a [|b s]]; try discriminate.
  destruct (JS.isDigit a) eqn:Ha; [|discriminate].
  destruct (Ascii.eqb b "/") eqn:Eb.
  - apply Ascii.eqb_eq in Eb. subst b.
    intros E. injection E as <- <-. split; [reflexivity|].
    left. eauto.
  - destruct (JS.isDigit b) eqn:Hb; [|discriminate].
    destruct s as [|c s]; [discriminate|].
    destruct (Ascii.eqb c "/") eqn:Ec; [|discriminate].
    apply Ascii.eqb_eq in Ec. subst c.
    intros E. injection E as <- <-. split; [reflexivity|].
    right. eauto.
Qed.

Lemma fourDigits_shape (s y : string) :
  fourDigits s = Some (y, ""%string) ->
  exists y1 y2 y3 y4,
    s = String y1 (String y2 (String y3 (String y4 "")))
    /\ y = s
    /\ JS.isDigit y1 = true /\ JS.isDigit y2 = true
    /\ JS.isDigit y3 = true /\ JS.isDigit y4 = true.
Proof.
  unfold fourDigits.
  destruct s as [|a [|b [|c [|d s]]]]; try discriminate.
  destruct (JS.isDigit a) eqn:Ha; [|discriminate].
  destruct (JS.isDigit b) eqn:Hb; [|discriminate].
  destruct (JS.isDigit c) eqn:Hc; [|discriminate].
  destruct (JS.isDigit d) eqn:Hd; [|discriminate].
  cbn [andb]. intros E. injection E as <- <-.
  exists a, b, c, d. auto 10.
Qed.

(** The key of a date written with or without leading zeros is the key
    of the date the import makes of it. *)
Lemma written_date_key (d c : string) :
  Excel.matchDMY d = Some c ->
  JS.trim d = d /\ JS.truthy d = true
  /\ exists m, Db.toMySQLDate d = Some m /\ Db.toMySQLDate c = Some m
               /\ Db.isMySQLDate m = true.
Proof.
  unfold Excel.matchDMY.
  destruct (oneOrTwoDigitsSlash d) as [[dd r1]|] eqn:Ed; [|discriminate].
  destruct (oneOrTwoDigitsSlash r1) as [[mm r2]|] eqn:Em; [|discriminate].
  destruct (fourDigits r2) as [[y [|? ?]]|] eqn:Ey; try discriminate.
  intros E. injection E as <-.
  apply oneOrTwoDigits_shape in Ed as [-> Hday].
  apply oneOrTwoDigits_shape in Em as [-> Hmonth].
  apply fourDigits_shape in Ey as (y1 & y2 & y3 & y4 & -> & -> & H1 & H2 & H3 & H4).
  destruct (digit_not_mark y1 H1) as [S1 _].
  destruct (digit_not_mark y2 H2) as [S2 _].
  destruct (digit_not_mark y3 H3) as [S3 _].
  destruct (digit_not_mark y4 H4) as [S4 _].
  pose proof (digit_not_white y4 H4) as W4.
  assert (Hkey : forall a b c d,
            JS.isDigit a = true -> JS.isDigit b = true ->
            JS.isDigit c = true -> JS.isDigit d = true ->
            Db.isMySQLDate (ymdText a b c d y1 y2 y3 y4) = true).
  { intros a b c d Ha Hb Hc Hd. unfold Db.isMySQLDate, fourDigits, ymdText.
    rewrite H1, H2, H3, H4. cbn [andb]. rewrite Ha, Hb, Hc, Hd. reflexivity. }
  destruct Hday as [(a & Ha & ->) | (a & a' & Ha & Ha' & ->)];
    destruct Hmonth as [(b & Hb & ->) | (b & b' & Hb & Hb' & ->)];
    destruct (digit_not_mark a Ha) as [Sa _];
    destruct (digit_not_mark b Hb) as [Sb _];
    pose proof (digit_not_white a Ha) as Wa;
    (split; [unfold JS.trim; cbn [append JS.trimStart]; rewrite Wa;
             cbn [JS.trimEnd]; rewrite W4; reflexivity|]);
    (split; [reflexivity|]).
  - exists (ymdText "0" a "0" b y1 y2 y3 y4).
    split; [|split; [apply toMySQLDate_dmy; auto | apply Hkey; auto]].
    unfold Db.toMySQLDate, Db.isMySQLDate, fourDigits.
    cbn [append JS.truthy negb Db.split]. rewrite Ha, Sa, Sb, S1, S2, S3, S4.
    reflexivity.
  - destruct (digit_not_mark b' Hb') as [Sb' _].
    exists (ymdText "0" a b b' y1 y2 y3 y4).
    split; [|split; [apply toMySQLDate_dmy; auto | apply Hkey; auto]].
    unfold Db.toMySQLDate, Db.isMySQLDate, fourDigits.
    cbn [append JS.truthy negb Db.split].
    rewrite Ha, Sa, Sb, Sb', S1, S2, S3, S4.
    reflexivity.
  - destruct (digit_not_mark a' Ha') as [Sa' _].
    exists (ymdText a a' "0" b y1 y2 y3 y4).
    split; [|split; [apply toMySQLDate_dmy; auto | apply Hkey; auto]].
    unfold Db.toMySQLDate, Db.isMySQLDate, fourDigits.
    cbn [append JS.truthy negb Db.split].
    rewrite Ha, Ha', Sa, Sa', Sb, S1, S2, S3, S4.
    reflexivity.
  - destruct (digit_not_mark a' Ha') as [Sa' _].
    destruct (digit_not_mark b' Hb') as [Sb' _].
    exists (ymdText a a' b b' y1 y2 y3 y4).
    split; [|split; [apply toMySQLDate_dmy; auto | apply Hkey; auto]].
    unfold Db.toMySQLDate, Db.isMySQLDate, fourDigits.
    cbn [append JS.truthy negb Db.split].
    rewrite Ha, Ha', Sa, Sa', Sb, Sb', S1, S2, S3, S4.
    reflexivity.
Qed.

(** X22.  The date a live record is filed under is the text as it was
    written, with or without leading zeros; the import files the same day
    under its canonical form.  Both have the same key in the database,
    a text of the form YYYY-MM-DD: a day recorded once live and once from
    the sheet meets the same row. *)
Theorem live_date_shares_key (extractedText : string) (t : table)
  (d : string) :
  findDate extractedText t = Some d ->
  exists c m,
    Excel.parseExcelDate (Excel.VString d) = Some c
    /\ canonicalDate c = true
    /\ Db.toMySQLDate d = Some m
    /\ Db.toMySQLDate c = Some m
    /\ Db.isMySQLDate m = true.
Proof.
  intros H. apply findDate_written in H as [_ [c Hc]].
  destruct (written_date_key d c Hc) as (Htrim & Htruthy & m & Hd & Hcm & Hm).
  assert (Hp : Excel.parseExcelDate (Excel.VString d) = Some c).
  { unfold Excel.parseExcelDate. cbn [Excel.truthy Excel.toString].
    rewrite Htruthy, Htrim, Hc. reflexivity. }
  exists c, m. split; [exact Hp|].
  split; [eapply parseExcelDate_canonical, Hp|]. auto.
Qed.

Lemma live_date_shares_key_witness :
  exists c m,
    Excel.parseExcelDate (Excel.VString "8/1/2025") = Some c
    /\ Db.toMySQLDate "8/1/2025" = Some m
    /\ Db.toMySQLDate c = Some m.
Proof.
  destruct (live_date_shares_key "วันที่ 8/1/2025" [] "8/1/2025" eq_refl)
    as (c & m & H1 & _ & H2 & H3 & _).
  now exists c, m.
Defined.
